(** * reading-log-app: the helper functions of [reading_log_final.py]

    A shallow embedding of the pure helpers of the reading log
    ([validate_and_format_isbn], [clean_author_name]), of the period filter
    and summaries of the reporting code, of [restore_from_backup] over an
    explicit file system, of the operations on tables [books] and
    [reading_goals] over explicit tables, of the tags ([get_all_tags] and
    the tag fields of the forms), of the author field and format guard of
    [get_book_metadata], of the author query of [search_book_entities] and
    of the author streak of [get_reading_insights], followed by the
    properties established for them. *)

From Stdlib Require Import ZArith NArith List String Ascii DecimalString QArith Lia.
From stdpp Require Import gmap strings list fin_maps.

Local Open Scope Z_scope.

(* ===================================================================== *)
(** ** Python values shared by all functions *)
(* ===================================================================== *)

(** A Python [str] is a sequence of Unicode code points. *)
Abbreviation str := (list N).

Module PyStr.

(** Decoder of the UTF-8 bytes of a literal of this file into code points,
    so that the literals of the source can be written as they are. *)
Fixpoint utf8_decode (bs : list N) : str :=
  match bs with
  | [] => []
  | b :: r =>
    if (b <? 0x80)%N then b :: utf8_decode r
    else if (b <? 0xE0)%N then
      match r with
      | b1 :: r1 => ((b mod 0x20) * 0x40 + b1 mod 0x40)%N :: utf8_decode r1
      | [] => []
      end
    else if (b <? 0xF0)%N then
      match r with
      | b1 :: b2 :: r2 =>
        ((b mod 0x10) * 0x1000 + (b1 mod 0x40) * 0x40 + b2 mod 0x40)%N
          :: utf8_decode r2
      | _ => []
      end
    else
      match r with
      | b1 :: b2 :: b3 :: r3 =>
        ((b mod 0x08) * 0x40000 + (b1 mod 0x40) * 0x1000
         + (b2 mod 0x40) * 0x40 + b3 mod 0x40)%N :: utf8_decode r3
      | _ => []
      end
  end.

Definition lit (s : string) : str :=
  utf8_decode (map N_of_ascii (list_ascii_of_string s)).

(** [str(n)] for an [int]. *)
Definition str_of_Z (n : Z) : str :=
  map N_of_ascii (list_ascii_of_string (NilZero.string_of_int (Z.to_int n))).

(** [len(s)] as an [int]. *)
Definition len (s : str) : Z := Z.of_nat (length s).

(** The ASCII decimal digits, the only digits that reach [int()] below. *)
Definition is_digit (c : N) : bool := (0x30 <=? c)%N && (c <=? 0x39)%N.

(** [int(c)] for a one-character string [c]: [None] stands for the
    [ValueError] Python raises.  It is only applied to characters that
    survived the filter [[^0-9X]], where the ASCII digits are the only
    characters [int] accepts. *)
Definition int_char (c : N) : option Z :=
  if is_digit c then Some (Z.of_N c - 0x30) else None.

(** [s.upper()], character by character.  Outside [a-z] Python's mapping is
    left out: no code point outside ASCII has an upper-case form that
    contains a digit or the letter X, so the filter applied right after
    [upper()] in the source drops those characters either way. *)
Definition upper_char (c : N) : N :=
  if (0x61 <=? c)%N && (c <=? 0x7A)%N then (c - 0x20)%N else c.

Definition upper (s : str) : str := map upper_char s.

(** [s[:-1]] and [s[-1]] ([None]: [IndexError]). *)
Definition but_last (s : str) : str := take (length s - 1)%nat s.

Definition last_char (s : str) : option N := last s.

(** Comparison of two [str] values: lexicographic on the code points. *)
Fixpoint str_leb (a b : str) : bool :=
  match a, b with
  | [], _ => true
  | _ :: _, [] => false
  | x :: a', y :: b' =>
    if (x <? y)%N then true else if (y <? x)%N then false else str_leb a' b'
  end.

Definition str_geb (a b : str) : bool := str_leb b a.

Definition str_eqb (a b : str) : bool := bool_decide (a = b).

(** [s.strip(chars)]: the characters of the set are removed at both ends. *)
Fixpoint lstrip (p : N -> bool) (s : str) : str :=
  match s with
  | [] => []
  | c :: r => if p c then lstrip p r else s
  end.

Definition rstrip (p : N -> bool) (s : str) : str :=
  rev (lstrip p (rev s)).

Definition strip (p : N -> bool) (s : str) : str := rstrip p (lstrip p s).

(** [w] is a prefix of [s], and [w] occurs somewhere in [s]. *)
Fixpoint starts_with (w s : str) : bool :=
  match w, s with
  | [], _ => true
  | _ :: _, [] => false
  | x :: w', y :: s' => (x =? y)%N && starts_with w' s'
  end.


End PyStr.

Import PyStr.

(** Exceptions that the modelled code can raise, and the outcome of a call. *)
Inductive exn :=
| ValueError | IndexError | KeyError | OSError | DatabaseError
| OverflowError | UnicodeEncodeError.

Inductive outcome (A : Type) :=
| Return (a : A)
| Raise (e : exn).
Arguments Return {A} a.
Arguments Raise {A} e.

#[global] Instance outcome_ret : MRet outcome := fun A a => Return a.

#[global] Instance outcome_bind : MBind outcome := fun A B f m =>
  match m with
  | Return a => f a
  | Raise e => Raise e
  end.

Definition of_option {A} (e : exn) (o : option A) : outcome A :=
  match o with
  | Some a => Return a
  | None => Raise e
  end.

(** The signed 64-bit integers: the range of an SQLite [INTEGER] and of a
    pandas [int64] column, and the value an [int64] sum wraps around to
    (two's complement). *)
Definition int64 (n : Z) : bool := (- 2 ^ 63 <=? n) && (n <? 2 ^ 63).

Definition wrap64 (n : Z) : Z := (n + 2 ^ 63) mod 2 ^ 64 - 2 ^ 63.

(* ===================================================================== *)
(** ** [validate_and_format_isbn] *)
(* ===================================================================== *)

Module Isbn.

(** The dict the function returns; ['isbn13'] is only present on success. *)
Record isbn_result := {
  valid : bool;
  isbn13 : option str;
  message : str
}.

(** [re.sub(r'[^0-9X]', '', t)]. *)
Definition keep_isbn_chars (t : str) : str :=
  List.filter (fun c => is_digit c || (c =? 0x58)%N) t.

(** The loop
    [for i, digit in enumerate(s): weight = 1 if i % 2 == 0 else 3;
     checksum += int(digit) * weight], entered at index [i]. *)
Fixpoint checksum_loop (i : Z) (checksum : Z) (s : str) : outcome Z :=
  match s with
  | [] => Return checksum
  | digit :: rest =>
    let weight := if i mod 2 =? 0 then 1 else 3 in
    d ← of_option ValueError (int_char digit);
    checksum_loop (i + 1) (checksum + d * weight) rest
  end.

Definition msg_converted : str := lit "ISBN-10을 13자리로 변환: ".
Definition msg_valid : str := lit "ISBN-13이 유효합니다".
Definition msg_checksum (expected_check actual_check : Z) : str :=
  lit "ISBN-13 체크섬 오류 (예상: " ++ str_of_Z expected_check
    ++ lit ", 실제: " ++ str_of_Z actual_check ++ lit ")".
Definition msg_format : str := lit "ISBN-13 형식이 올바르지 않습니다".
Definition msg_length (n : Z) : str :=
  lit "ISBN은 10자리 또는 13자리여야 합니다 (입력: " ++ str_of_Z n ++ lit "자리)".

(** The body of the [try] of the 13-character branch. *)
Definition check_isbn13 (isbn : str) : outcome isbn_result :=
  checksum ← checksum_loop 0 0 (but_last isbn);
  let expected_check := (10 - checksum mod 10) mod 10 in
  c ← of_option IndexError (last_char isbn);
  actual_check ← of_option ValueError (int_char c);
  if expected_check =? actual_check
  then Return {| valid := true; isbn13 := Some isbn; message := msg_valid |}
  else Return {| valid := false; isbn13 := None;
                 message := msg_checksum expected_check actual_check |}.

Definition validate_and_format_isbn (isbn : str) : outcome isbn_result :=
  let isbn := keep_isbn_chars (upper isbn) in
  if len isbn =? 10 then
    let isbn12 := lit "978" ++ but_last isbn in
    checksum ← checksum_loop 0 0 isbn12;
    let check_digit := (10 - checksum mod 10) mod 10 in
    let isbn13 := isbn12 ++ str_of_Z check_digit in
    Return {| valid := true; isbn13 := Some isbn13;
              message := msg_converted ++ isbn13 |}
  else if len isbn =? 13 then
    match check_isbn13 isbn with
    | Return r => Return r
    | Raise ValueError | Raise IndexError =>
      Return {| valid := false; isbn13 := None; message := msg_format |}
    | Raise e => Raise e
    end
  else
    Return {| valid := false; isbn13 := None; message := msg_length (len isbn) |}.

(** The check digit as the specification words it: the digits weighted
    1, 3, 1, 3, ... from the first one, and
    [(10 - (sum mod 10)) mod 10]. *)
Fixpoint spec_weighted_sum (w w' : Z) (ds : list Z) : Z :=
  match ds with
  | [] => 0
  | d :: r => d * w + spec_weighted_sum w' w r
  end.

Definition digit_values (s : str) : list Z := map (fun c => Z.of_N c - 0x30) s.

Definition spec_check_digit (s : str) : Z :=
  (10 - spec_weighted_sum 1 3 (digit_values s) mod 10) mod 10.

Definition digit_char (d : Z) : N := Z.to_N (d + 0x30).

End Isbn.

Import Isbn.

(* ===================================================================== *)
(** ** The regular expressions of [clean_author_name] *)
(* ===================================================================== *)

Module Re.

(** The fragment of Python's [re] syntax the source uses: literals,
    greedy and lazy repetition of a character class, sequence and
    alternation. *)
Inductive regex :=
| Lit (w : str)
| StarGreedy (cls : N -> bool)
| StarLazy (cls : N -> bool)
| Seq (r1 r2 : regex)
| Alt (r1 r2 : regex).

(** Backtracking matchers in continuation style.  Each returns the number
    of characters consumed by the first successful way of matching, in the
    order in which [re] tries them: a greedy star takes one more character
    before it tries the rest of the pattern, a lazy star tries the rest
    first, an alternation tries its left branch first. *)
Fixpoint star_greedy (cls : N -> bool) (k : str -> option nat) (s : str)
  : option nat :=
  match s with
  | c :: s' =>
    if cls c then
      match star_greedy cls k s' with
      | Some n => Some (S n)
      | None => k s
      end
    else k s
  | [] => k s
  end.

Fixpoint star_lazy (cls : N -> bool) (k : str -> option nat) (s : str)
  : option nat :=
  match k s with
  | Some n => Some n
  | None =>
    match s with
    | c :: s' => if cls c then S <$> star_lazy cls k s' else None
    | [] => None
    end
  end.

Fixpoint re_match (r : regex) (s : str) (k : str -> option nat) : option nat :=
  match r with
  | Lit w =>
    if starts_with w s
    then Nat.add (length w) <$> k (drop (length w) s)
    else None
  | StarGreedy cls => star_greedy cls k s
  | StarLazy cls => star_lazy cls k s
  | Seq r1 r2 => re_match r1 s (fun s' => re_match r2 s' k)
  | Alt r1 r2 =>
    match re_match r1 s k with
    | Some n => Some n
    | None => re_match r2 s k
    end
  end.

(** [pattern.match] at the start of [s]: the length of the match. *)
Definition match_at (r : regex) (s : str) : option nat :=
  re_match r s (fun _ => Some 0%nat).

(** [re.sub(r, '', s)]: the leftmost match is looked for from each position
    in turn; a match of [S n] characters drops the current character and
    the [n] that follow, and the search resumes after them.  [skip] counts
    the characters of the current match still to drop.  Neither pattern of
    the source matches the empty string, and an empty match replaced by
    the empty string would leave the text as it is. *)
Fixpoint sub_go (r : regex) (skip : nat) (s : str) : str :=
  match s with
  | [] => []
  | c :: s' =>
    match skip with
    | S n => sub_go r n s'
    | O =>
      match match_at r s with
      | Some (S n) => sub_go r n s'
      | _ => c :: sub_go r 0 s'
      end
    end
  end.

Definition re_sub (r : regex) (s : str) : str := sub_go r 0 s.

(** [re.search(r, s) is not None]. *)
Fixpoint re_search (r : regex) (s : str) : bool :=
  match match_at r s with
  | Some _ => true
  | None =>
    match s with
    | [] => false
    | _ :: s' => re_search r s'
    end
  end.

(** [\s] on a [str] pattern: the characters for which [str.isspace]
    holds. *)
Definition is_space (c : N) : bool :=
  ((0x09 <=? c) && (c <=? 0x0D) || (0x1C <=? c) && (c <=? 0x20)
   || (c =? 0x85) || (c =? 0xA0) || (c =? 0x1680)
   || (0x2000 <=? c) && (c <=? 0x200A)
   || (c =? 0x2028) || (c =? 0x2029) || (c =? 0x202F) || (c =? 0x205F)
   || (c =? 0x3000))%N.

(** [.] without [re.DOTALL]: any character but the line feed. *)
Definition is_dot (c : N) : bool := negb (c =? 0x0A)%N.

End Re.

Import Re.

(* ===================================================================== *)
(** ** [clean_author_name] *)
(* ===================================================================== *)

Module Author.

(** [r'\s*\[.*?\]\s*'] *)
Definition bracket_re : regex :=
  Seq (StarGreedy is_space)
    (Seq (Lit (lit "["))
       (Seq (StarLazy is_dot) (Seq (Lit (lit "]")) (StarGreedy is_space)))).

(** The role words, in the order of the alternation. *)
Definition role_words : list str :=
  [lit "지은이"; lit "옮긴이"; lit "글"; lit "저"; lit "역"; lit "편저"; lit "감수"].

Definition role_alt : regex :=
  Alt (Lit (lit "지은이")) (Alt (Lit (lit "옮긴이")) (Alt (Lit (lit "글"))
    (Alt (Lit (lit "저")) (Alt (Lit (lit "역")) (Alt (Lit (lit "편저"))
      (Lit (lit "감수"))))))).

(** [r'\s*(지은이|옮긴이|글|저|역|편저|감수)\s*'] *)
Definition role_re : regex :=
  Seq (StarGreedy is_space) (Seq role_alt (StarGreedy is_space)).

(** The characters of [' ,;']. *)
Definition is_trim_char (c : N) : bool :=
  ((c =? 0x20) || (c =? 0x2C) || (c =? 0x3B))%N.

(** The argument is a [str]; [pd.isna] is false on every [str], so the
    guard reduces to the test for the empty string. *)
Definition clean_author_name (author_str : str) : str :=
  match author_str with
  | [] => []
  | _ =>
    let cleaned := re_sub bracket_re author_str in
    let cleaned := re_sub role_re cleaned in
    let cleaned := strip is_trim_char cleaned in
    cleaned
  end.


End Author.

Import Author.

(* ===================================================================== *)
(** ** Period filter, monthly summary and report *)
(* ===================================================================== *)

Module Report.

(** One row of the DataFrame read from table [books].  [tags] may be
    missing (the source drops such rows with [dropna]). *)
Record book := {
  id : Z;
  isbn : str;
  title : str;
  author : str;
  publisher : str;
  publication_year : str;
  subject : str;
  loan_count : Z;
  cover_url : str;
  rating : Z;
  status : str;
  memo : str;
  tags : option str;
  pages : Z;
  added_date : str;
  updated_date : str
}.

(** [f"{n:02d}"]: zero padded to two characters, the sign included. *)
Definition fmt_02d (n : Z) : str :=
  if (0 <=? n) && (n <? 10) then lit "0" ++ str_of_Z n else str_of_Z n.

(** [f"{year}-{month:02d}-01"] and [f"{year}-{month:02d}-31"]. *)
Definition start_date (year month : Z) : str :=
  str_of_Z year ++ lit "-" ++ fmt_02d month ++ lit "-01".

Definition end_date (year month : Z) : str :=
  str_of_Z year ++ lit "-" ++ fmt_02d month ++ lit "-31".

(** [(df['added_date'] >= start_date) & (df['added_date'] <= end_date)]:
    comparisons of strings. *)
Definition in_period (year month : Z) (b : book) : bool :=
  str_geb (added_date b) (start_date year month)
  && str_leb (added_date b) (end_date year month).

Definition status_done : str := lit "읽음".

(** [tags.split(',')]. *)
Fixpoint split_comma (s : str) : list str :=
  match s with
  | [] => [[]]
  | c :: r =>
    if (c =? 0x2C)%N then [] :: split_comma r
    else
      match split_comma r with
      | w :: ws => (c :: w) :: ws
      | [] => [[c]]
      end
  end.

(** The loop that collects [all_tags]. *)
Fixpoint collect_tags (df : list book) : list str :=
  match df with
  | [] => []
  | b :: r =>
    match tags b with
    | Some ((_ :: _) as t) => split_comma t ++ collect_tags r
    | _ => collect_tags r
    end
  end.

(** [Counter(all_tags)]: counts in order of first occurrence. *)
Fixpoint counter_add (x : str) (c : list (str * Z)) : list (str * Z) :=
  match c with
  | [] => [(x, 1)]
  | (y, n) :: c' =>
    if str_eqb x y then (y, n + 1) :: c' else (y, n) :: counter_add x c'
  end.

Definition Counter (l : list str) : list (str * Z) :=
  fold_left (fun c x => counter_add x c) l [].

(** [most_common(n)]: by decreasing count, equal counts in order of first
    occurrence. *)
Fixpoint insert_by_count (x : str * Z) (l : list (str * Z)) : list (str * Z) :=
  match l with
  | [] => [x]
  | y :: l' => if x.2 >=? y.2 then x :: l else y :: insert_by_count x l'
  end.

Definition most_common (n : nat) (c : list (str * Z)) : list (str * Z) :=
  take n (foldr insert_by_count [] c).

(** The exact sum of the values of a column. *)
Definition exact_sum (f : book -> Z) (df : list book) : Z :=
  foldr (fun b acc => f b + acc) 0 df.

(** [Series.sum()] of an [int64] column (what [read_sql_query] gives for
    an [INTEGER] column without [NULL]): numpy adds in 64 bits and wraps
    around. *)
Definition sum_of (f : book -> Z) (df : list book) : Z :=
  wrap64 (exact_sum f df).

(** [Series.mean()] of an [int64] column: the values are added as floats,
    without wrapping around; the float is modelled by the exact quotient.
    On an empty column pandas gives [NaN], here the quotient by zero is 0:
    the source only calls it under the guard [len(completed_df) > 0]. *)
Definition mean_of (f : book -> Z) (df : list book) : Q :=
  (inject_Z (exact_sum f df) / inject_Z (Z.of_nat (length df)))%Q.

Record summary := {
  s_year : Z;
  s_month : Z;
  total_added : Z;
  completed : Z;
  pages_read : Z;
  avg_rating : Q;
  top_tags : list (str * Z);
  books : list book
}.

Definition generate_monthly_summary (df : list book) (year month : Z) : summary :=
  let month_df := List.filter (in_period year month) df in
  let completed_df :=
    List.filter (fun b => str_eqb (status b) status_done && in_period year month b) df in
  let all_tags := collect_tags month_df in
  {| s_year := year;
     s_month := month;
     total_added := Z.of_nat (length month_df);
     completed := Z.of_nat (length completed_df);
     pages_read :=
       if Z.of_nat (length completed_df) >? 0 then sum_of pages completed_df else 0;
     avg_rating :=
       if Z.of_nat (length completed_df) >? 0 then mean_of rating completed_df else 0%Q;
     top_tags :=
       match all_tags with
       | [] => []
       | _ => most_common 3 (Counter all_tags)
       end;
     books := month_df |}.

(** The truth value of an optional [int] argument. *)
Definition truthy (o : option Z) : bool :=
  match o with
  | Some n => negb (n =? 0)
  | None => false
  end.

Definition empty_report (period_text : str) : str :=
  lit "# 📚 " ++ period_text ++ lit " 독서 보고서" ++ [0x0A; 0x0A]%N
    ++ lit "해당 기간에 기록된 책이 없습니다.".

Section Reading_report.

(** The text built for a period that has books (statistics with a
    formatted float, the lists and the date of the day): presentation,
    kept abstract. *)
Variable report_body : str -> list book -> str.

Definition generate_reading_report (df : list book) (period : str)
    (year month : option Z) : str :=
  let '(period_df, period_text) :=
    match year, month with
    | Some y, Some m =>
      if str_eqb period (lit "month") && truthy year && truthy month
      then (List.filter (in_period y m) df,
            str_of_Z y ++ lit "년 " ++ str_of_Z m ++ lit "월")
      else (df, lit "전체 기간")
    | _, _ => (df, lit "전체 기간")
    end in
  if Z.of_nat (length period_df) =? 0
  then empty_report period_text
  else report_body period_text period_df.

End Reading_report.

(** The row read back for a book added through the form at time [added]
    (the form writes [strftime("%Y-%m-%d %H:%M")]) and left at the
    defaults of the form. *)
Definition book_added_on (added : str) : book :=
  {| id := 1; isbn := []; title := lit "소년이 온다"; author := lit "한강";
     publisher := []; publication_year := []; subject := []; loan_count := 0;
     cover_url := []; rating := 3; status := lit "읽고 싶음"; memo := [];
     tags := Some []; pages := 0; added_date := added; updated_date := added |}.

End Report.

Import Report.

(* ===================================================================== *)
(** ** [restore_from_backup] over an explicit file system *)
(* ===================================================================== *)

Module Backup.

Abbreviation bytes := (list Byte.byte).

(** The files of the working directory, by name. *)
Abbreviation files := (gmap string bytes).

(** A computation that reads and writes the files and may raise; the
    files written before an exception stay written. *)
Definition io (A : Type) : Type := files -> files * outcome A.

#[global] Instance io_ret : MRet io := fun A a fs => (fs, Return a).

#[global] Instance io_bind : MBind io := fun A B f m fs =>
  match m fs with
  | (fs', Return a) => f a fs'
  | (fs', Raise e) => (fs', Raise e)
  end.

Definition live_db : string := "reading_log.db".
Definition temp_db : string := "reading_log_temp.db".

(** [f"reading_log_before_restore_{now}.db"], [now] the formatted time. *)
Definition backup_name (now : string) : string :=
  ("reading_log_before_restore_" +:+ now +:+ ".db")%string.

(** [shutil.copy2(src, dst)] *)
Definition copy2 (src dst : string) : io unit := fun fs =>
  match fs !! src with
  | Some b => (<[dst := b]> fs, Return ())
  | None => (fs, Raise OSError)
  end.

(** [with open(path, "wb") as f: f.write(data)] *)
Definition write_file (path : string) (data : bytes) : io unit := fun fs =>
  (<[path := data]> fs, Return ()).

(** [os.remove(path)] *)
Definition os_remove (path : string) : io unit := fun fs =>
  match fs !! path with
  | Some _ => (delete path fs, Return ())
  | None => (fs, Raise OSError)
  end.

(** [os.rename(src, dst)] *)
Definition os_rename (src dst : string) : io unit := fun fs =>
  match fs !! src with
  | Some b => (<[dst := b]> (delete src fs), Return ())
  | None => (fs, Raise OSError)
  end.

(** [os.path.exists(path)] *)
Definition path_exists (path : string) : io bool := fun fs =>
  (fs, Return (bool_decide (is_Some (fs !! path)))).

Section Restore.

(** SQLite, a black box: the names in [sqlite_master] of the tables of a
    database file, or the exception raised on a file it cannot read. *)
Variable sqlite_tables : bytes -> outcome (list str).

(** [connect], the [SELECT name FROM sqlite_master WHERE type='table'] and
    [close]; a missing file is created empty by [connect]. *)
Definition read_tables (path : string) : io (list str) := fun fs =>
  match fs !! path with
  | Some b => (fs, sqlite_tables b)
  | None => (<[path := []]> fs, sqlite_tables [])
  end.

(** [any('books' in table for table in tables)], each [table] a one-column
    row. *)
Definition has_books (tables : list str) : bool :=
  existsb (fun name => str_eqb (lit "books") name) tables.

(** The body of the [try]. *)
Definition restore_body (now : string) (uploaded : bytes) : io bool :=
  _ ← copy2 live_db (backup_name now);
  _ ← write_file temp_db uploaded;
  tables ← read_tables temp_db;
  if negb (has_books tables) then
    _ ← os_remove temp_db;
    mret false
  else
    _ ← os_remove live_db;
    _ ← os_rename temp_db live_db;
    mret true.

(** The handler: the message goes to the page, the temporary file is
    removed when it exists. *)
Definition restore_handler : io bool :=
  e ← path_exists temp_db;
  if (e : bool) then _ ← os_remove temp_db; mret false else mret false.

Definition restore_from_backup (now : string) (uploaded : bytes) : io bool :=
  fun fs =>
    match restore_body now uploaded fs with
    | (fs', Return b) => (fs', Return b)
    | (fs', Raise _) => restore_handler fs'
    end.

End Restore.

(** The files once the live store has been copied and the upload written,
    [old] being the content of the live store. *)
Definition staged (now : string) (uploaded old : bytes) (fs : files) : files :=
  <[temp_db := uploaded]> (<[backup_name now := old]> fs).

End Backup.

Import Backup.

(* ===================================================================== *)
(** ** [add_book_to_db] over an explicit table *)
(* ===================================================================== *)

Module Db.

(** The Python values the form puts into [book_data]. *)
Inductive pyval :=
| PNone
| PInt (n : Z)
| PStr (s : str).

(** The values SQLite stores. *)
Inductive sqlval :=
| Null
| Integer (n : Z)
| Text (s : str).

(** One row of table [books]. *)
Record row := {
  id : Z;
  isbn : sqlval;
  title : sqlval;
  author : sqlval;
  publisher : sqlval;
  publication_year : sqlval;
  subject : sqlval;
  loan_count : sqlval;
  cover_url : sqlval;
  rating : sqlval;
  status : sqlval;
  memo : sqlval;
  tags : sqlval;
  pages : sqlval;
  added_date : sqlval;
  updated_date : sqlval;
  wiki_links : sqlval;
  last_wiki_search : sqlval
}.

(** The connection: the rows of [books] and the last id given out by
    [AUTOINCREMENT]. *)
Record db := {
  rows : list row;
  last_id : Z
}.

(** Binding a parameter of a statement: [sqlite3] refuses an [int]
    outside 64 bits with [OverflowError] and a [str] that holds a lone
    surrogate, which UTF-8 cannot encode, with [UnicodeEncodeError]. *)
Definition is_surrogate (c : N) : bool := (0xD800 <=? c)%N && (c <=? 0xDFFF)%N.

Definition bind (v : pyval) : outcome unit :=
  match v with
  | PNone => Return ()
  | PInt n => if int64 n then Return () else Raise OverflowError
  | PStr s => if existsb is_surrogate s then Raise UnicodeEncodeError else Return ()
  end.

(** The parameters are bound in their order, after the statement was
    compiled and before it runs. *)
Fixpoint bind_all (params : list pyval) : outcome unit :=
  match params with
  | [] => Return ()
  | v :: rest => _ ← bind v; bind_all rest
  end.

(** What a [TEXT] column stores for a bound value. *)
Definition to_text (v : pyval) : sqlval :=
  match v with
  | PNone => Null
  | PInt n => Text (str_of_Z n)
  | PStr s => Text s
  end.

(** The id [AUTOINCREMENT] gives: the one after the largest given out.
    Ids are 64-bit integers; when none is left the statement fails
    ([SQLITE_FULL], an [OperationalError]) and changes nothing. *)
Definition next_id (last : Z) : outcome Z :=
  if int64 (last + 1) then Return (last + 1) else Raise DatabaseError.

Section Add_book.

(** SQLite's conversion of a text bound to an [INTEGER] column (an integer
    when the text is a number, the text itself otherwise): a black box. *)
Variable text_to_integer : str -> sqlval.

(** What an [INTEGER] column stores for a bound value (an [int] that was
    bound is within 64 bits). *)
Definition to_integer (v : pyval) : sqlval :=
  match v with
  | PNone => Null
  | PInt n => Integer n
  | PStr s => text_to_integer s
  end.

(** [book_data[key]] and [book_data.get(key, default)]. *)
Definition getitem (book_data : gmap string pyval) (key : string) : outcome pyval :=
  of_option KeyError (book_data !! key).

Definition get (book_data : gmap string pyval) (key : string) (dflt : pyval)
  : pyval :=
  default dflt (book_data !! key).

(** The [INSERT] once its parameters are bound: [title] is [NOT NULL]
    ([IntegrityError]), and the row needs a new id. *)
Definition insert_book (d : db) (r : row) : outcome db :=
  match title r with
  | Null => Raise DatabaseError
  | _ =>
    new_id ← next_id (last_id d);
    Return {| rows := rows d ++ [r]; last_id := new_id |}
  end.

(** The tuple of parameters is built first, then the statement runs: the
    parameters are bound, then the row is inserted. *)
Definition add_book_body (book_data : gmap string pyval) (d : db) : outcome db :=
  v_isbn ← getitem book_data "isbn";
  v_title ← getitem book_data "title";
  v_author ← getitem book_data "author";
  v_publisher ← getitem book_data "publisher";
  v_rating ← getitem book_data "rating";
  v_status ← getitem book_data "status";
  v_memo ← getitem book_data "memo";
  v_added1 ← getitem book_data "added_date";
  v_added2 ← getitem book_data "added_date";
  _ ← bind_all
        [v_isbn; v_title; v_author; v_publisher;
         get book_data "publication_year" (PStr []);
         get book_data "subject" (PStr []);
         get book_data "loan_count" (PInt 0);
         get book_data "cover_url" (PStr []);
         v_rating; v_status; v_memo;
         get book_data "tags" (PStr []);
         get book_data "pages" (PInt 0);
         v_added1; v_added2];
  insert_book d
    {| id := last_id d + 1;
       isbn := to_text v_isbn;
       title := to_text v_title;
       author := to_text v_author;
       publisher := to_text v_publisher;
       publication_year := to_text (get book_data "publication_year" (PStr []));
       subject := to_text (get book_data "subject" (PStr []));
       loan_count := to_integer (get book_data "loan_count" (PInt 0));
       cover_url := to_text (get book_data "cover_url" (PStr []));
       rating := to_integer v_rating;
       status := to_text v_status;
       memo := to_text v_memo;
       tags := to_text (get book_data "tags" (PStr []));
       pages := to_integer (get book_data "pages" (PInt 0));
       added_date := to_text v_added1;
       updated_date := to_text v_added2;
       wiki_links := Null;
       last_wiki_search := Null |}.

(** [try: ...; return True  except Exception: ...; return False] *)
Definition add_book_to_db (book_data : gmap string pyval) (d : db) : db * bool :=
  match add_book_body book_data d with
  | Return d' => (d', true)
  | Raise _ => (d, false)
  end.

End Add_book.

(** The dict the form builds for a book typed in by hand at time
    [added]. *)
Definition form_book (added : str) : gmap string pyval :=
  list_to_map
    [("isbn"%string, PStr []); ("title"%string, PStr (lit "소년이 온다"));
     ("author"%string, PStr (lit "한강")); ("publisher"%string, PStr []);
     ("publication_year"%string, PStr []); ("subject"%string, PStr []);
     ("loan_count"%string, PInt 0); ("cover_url"%string, PStr []);
     ("rating"%string, PInt 3); ("status"%string, PStr (lit "읽고 싶음"));
     ("memo"%string, PStr []); ("tags"%string, PStr []);
     ("pages"%string, PInt 0); ("added_date"%string, PStr added)].

End Db.

(* ===================================================================== *)
(** ** [update_book_in_db] and [delete_book_from_db] *)
(* ===================================================================== *)

Module DbEdit.

Import Db.

Definition is_null (v : sqlval) : bool :=
  match v with
  | Null => true
  | _ => false
  end.

(** The [UPDATE ... WHERE id=?]: the rows with that id get the new
    values; a [NULL] title in one of them breaks [NOT NULL] and the
    statement changes nothing. *)
Definition update_rows (book_id : Z) (set : row -> row) (d : db) : outcome db :=
  if existsb (fun r => (id r =? book_id) && is_null (title (set r))) (rows d)
  then Raise DatabaseError
  else Return {| rows := map (fun r => if id r =? book_id then set r else r) (rows d);
                 last_id := last_id d |}.

Section Update_book.

Variable text_to_integer : str -> sqlval.

(** [now] is [datetime.now().strftime("%Y-%m-%d %H:%M")].  The tuple of
    parameters is built, the parameters are bound, then the statement
    runs. *)
Definition update_book_body (now : str) (book_id : Z)
    (book_data : gmap string pyval) (d : db) : outcome db :=
  v_isbn ← getitem book_data "isbn";
  v_title ← getitem book_data "title";
  v_author ← getitem book_data "author";
  v_publisher ← getitem book_data "publisher";
  v_rating ← getitem book_data "rating";
  v_status ← getitem book_data "status";
  v_memo ← getitem book_data "memo";
  _ ← bind_all
        [v_isbn; v_title; v_author; v_publisher;
         get book_data "publication_year" (PStr []);
         get book_data "subject" (PStr []);
         get book_data "loan_count" (PInt 0);
         get book_data "cover_url" (PStr []);
         v_rating; v_status; v_memo;
         get book_data "tags" (PStr []);
         get book_data "pages" (PInt 0);
         PStr now; PInt book_id];
  update_rows book_id
    (fun r =>
       {| id := id r;
          isbn := to_text v_isbn;
          title := to_text v_title;
          author := to_text v_author;
          publisher := to_text v_publisher;
          publication_year := to_text (get book_data "publication_year" (PStr []));
          subject := to_text (get book_data "subject" (PStr []));
          loan_count :=
            to_integer text_to_integer (get book_data "loan_count" (PInt 0));
          cover_url := to_text (get book_data "cover_url" (PStr []));
          rating := to_integer text_to_integer v_rating;
          status := to_text v_status;
          memo := to_text v_memo;
          tags := to_text (get book_data "tags" (PStr []));
          pages := to_integer text_to_integer (get book_data "pages" (PInt 0));
          added_date := added_date r;
          updated_date := Text now;
          wiki_links := wiki_links r;
          last_wiki_search := last_wiki_search r |})
    d.

Definition update_book_in_db (now : str) (book_id : Z)
    (book_data : gmap string pyval) (d : db) : db * bool :=
  match update_book_body now book_id book_data d with
  | Return d' => (d', true)
  | Raise _ => (d, false)
  end.

End Update_book.

(** [DELETE FROM books WHERE id=?]; the counter of [AUTOINCREMENT] is
    kept. *)
Definition delete_rows (book_id : Z) (d : db) : db :=
  {| rows := List.filter (fun r => negb (id r =? book_id)) (rows d);
     last_id := last_id d |}.

(** [try: ...; return True  except Exception: ...; return False]: the
    handler answers a [book_id] that cannot be bound. *)
Definition delete_book_from_db (book_id : Z) (d : db) : db * bool :=
  match bind (PInt book_id) with
  | Return _ => (delete_rows book_id d, true)
  | Raise _ => (d, false)
  end.

(** The ids of the rows, and the state the connection keeps between
    statements: ids are distinct and none is above the counter. *)
Definition ids (d : db) : list Z := map id (rows d).

Definition consistent (d : db) : Prop :=
  NoDup (ids d) /\ Forall (fun i => i <= last_id d) (ids d).

(** The table after one book was added through the form to an empty
    table. *)
Definition one_book : db :=
  (add_book_to_db (fun s => Text s) (form_book (lit "2024-01-31 10:30"))
     {| rows := []; last_id := 0 |}).1.

End DbEdit.

(* ===================================================================== *)
(** ** [get_reading_goal] and [set_reading_goal] *)
(* ===================================================================== *)

Module Goals.

(** One row of table [reading_goals]; [year] is [UNIQUE]. *)
Record goal := {
  goal_id : Z;
  year : Z;
  goal_count : Z;
  created_date : str
}.

Record goals_db := {
  goals : list goal;
  last_goal_id : Z
}.

(** [SELECT goal_count FROM reading_goals WHERE year=?], [fetchone]; the
    bare [except] answers a [year] that cannot be bound with [None]. *)
Definition get_reading_goal (y : Z) (d : goals_db) : option Z :=
  match Db.bind (Db.PInt y) with
  | Return _ => goal_count <$> List.find (fun g => year g =? y) (goals d)
  | Raise _ => None
  end.

(** [INSERT INTO reading_goals (year, goal_count, created_date)] with its
    parameters bound, on a table without the year; the row needs a new
    id. *)
Definition insert_goal (y count : Z) (today : str) (d : goals_db)
  : outcome goals_db :=
  new_id ← Db.next_id (last_goal_id d);
  Return {| goals := goals d ++ [{| goal_id := new_id; year := y;
                                    goal_count := count; created_date := today |}];
            last_goal_id := new_id |}.

(** [INSERT ... ON CONFLICT(year) DO UPDATE SET goal_count, created_date];
    on a conflict the row keeps its id, and the id the attempted insert
    took from the counter is lost. *)
Definition upsert_goal (y count : Z) (today : str) (d : goals_db)
  : outcome goals_db :=
  if existsb (fun g => year g =? y) (goals d)
  then
    new_id ← Db.next_id (last_goal_id d);
    Return {| goals := map (fun g => if year g =? y
                                     then {| goal_id := goal_id g; year := year g;
                                             goal_count := count;
                                             created_date := today |}
                                     else g) (goals d);
              last_goal_id := new_id |}
  else insert_goal y count today d.

(** [DELETE FROM reading_goals WHERE year=?]. *)
Definition delete_goal (y : Z) (d : goals_db) : goals_db :=
  {| goals := List.filter (fun g => negb (year g =? y)) (goals d);
     last_goal_id := last_goal_id d |}.

(** The first statement.  [upsert] tells whether the SQLite at hand knows
    [ON CONFLICT]; when it does not, compiling the statement raises
    [sqlite3.OperationalError] before any parameter is bound. *)
Definition first_statement (upsert : bool) (today : str) (y count : Z)
    (d : goals_db) : outcome goals_db :=
  if upsert
  then _ ← Db.bind_all [Db.PInt y; Db.PInt count; Db.PStr today];
       upsert_goal y count today d
  else Raise DatabaseError.

(** The handler of [sqlite3.Error]: delete, then insert; its bare [except]
    answers [False].  When a parameter of the [INSERT] cannot be bound the
    [DELETE] has run already and stays; when no id is left SQLite rolls
    the transaction back. *)
Definition fallback (today : str) (y count : Z) (d : goals_db)
  : goals_db * outcome bool :=
  match Db.bind (Db.PInt y) with
  | Raise _ => (d, Return false)
  | Return _ =>
    let d1 := delete_goal y d in
    match Db.bind_all [Db.PInt y; Db.PInt count; Db.PStr today] with
    | Raise _ => (d1, Return false)
    | Return _ =>
      match insert_goal y count today d1 with
      | Return d2 => (d2, Return true)
      | Raise _ => (d, Return false)
      end
    end
  end.

(** [today] is [datetime.now().strftime("%Y-%m-%d")].  An exception of
    the first statement that is no [sqlite3.Error] (a parameter that cannot
    be bound) leaves the function. *)
Definition set_reading_goal (upsert : bool) (today : str) (y count : Z)
    (d : goals_db) : goals_db * outcome bool :=
  match first_statement upsert today y count d with
  | Return d' => (d', Return true)
  | Raise DatabaseError => fallback today y count d
  | Raise e => (d, Raise e)
  end.

(** A table with the goals of two years. *)
Definition two_goals : goals_db :=
  {| goals := [{| goal_id := 1; year := 2023; goal_count := 12;
                  created_date := lit "2023-01-02" |};
               {| goal_id := 2; year := 2024; goal_count := 20;
                  created_date := lit "2024-01-03" |}];
     last_goal_id := 2 |}.

End Goals.

(* ===================================================================== *)
(** ** Tags: [get_all_tags] and the tag fields of the forms *)
(* ===================================================================== *)

Module Tags.

(** [s.strip()]: white space removed at both ends. *)
Definition strip_ws (s : str) : str := strip is_space s.

(** The loop of [get_all_tags] over the frame [get_books_from_db]
    returned. *)
Fixpoint all_tags_of (df : list book) : list str :=
  match df with
  | [] => []
  | b :: r =>
    match tags b with
    | Some ((_ :: _) as t) => map strip_ws (split_comma t) ++ all_tags_of r
    | _ => all_tags_of r
    end
  end.

(** [list(set(all_tags))]: the order of the list is not determined, the
    result is the set. *)
Definition get_all_tags (df : list book) : gset str :=
  list_to_set (all_tags_of df).

(** [', '.join(l)] *)
Fixpoint join_tags (l : list str) : str :=
  match l with
  | [] => []
  | [x] => x
  | x :: r => x ++ lit ", " ++ join_tags r
  end.

Definition is_empty (s : str) : bool :=
  match s with
  | [] => true
  | _ => false
  end.

(** [[tag.strip() for tag in new_tags_input.split(',') if tag.strip()]] *)
Definition new_tags (new_tags_input : str) : list str :=
  List.filter (fun t => negb (is_empty t)) (map strip_ws (split_comma new_tags_input)).

(** The tags of the add and edit forms: the selected ones, then the new
    ones, and the text stored in column [tags]. *)
Definition form_tags (selected_tags : list str) (new_tags_input : str) : list str :=
  selected_tags ++
  match new_tags_input with
  | [] => []
  | _ => new_tags new_tags_input
  end.

Definition form_tags_str (selected_tags : list str) (new_tags_input : str) : str :=
  match form_tags selected_tags new_tags_input with
  | [] => []
  | all_tags => join_tags all_tags
  end.

(** A tag without comma and without white space at its ends. *)
Definition tag_ok (t : str) : bool :=
  negb (existsb (fun c => (c =? 0x2C)%N) t) && str_eqb (strip_ws t) t.

Definition comma_free (t : str) : Prop := Forall (fun c => c <> 0x2C%N) t.

(** A row whose column [tags] holds [t]. *)
Definition book_tagged (t : str) : book :=
  {| id := 1; isbn := []; title := lit "소년이 온다"; author := lit "한강";
     publisher := []; publication_year := []; subject := []; loan_count := 0;
     cover_url := []; rating := 3; status := lit "읽고 싶음"; memo := [];
     tags := Some t; pages := 0; added_date := lit "2024-01-05 10:00";
     updated_date := lit "2024-01-05 10:00" |}.

End Tags.

(* ===================================================================== *)
(** ** The author field built by [get_book_metadata] *)
(* ===================================================================== *)

Module Lookup.

(** [authors_raw.replace(';', ', ')] *)
Definition replace_semicolons (s : str) : str :=
  flat_map (fun c => if (c =? 0x3B)%N then lit ", " else [c]) s.

Definition role_alt_lookup : regex :=
  Alt (Lit (lit "지은이")) (Alt (Lit (lit "옮긴이")) (Alt (Lit (lit "글"))
    (Alt (Lit (lit "저")) (Lit (lit "역"))))).

(** [r'\s*(지은이|옮긴이|글|저|역)\s*'] *)
Definition role_re_lookup : regex :=
  Seq (StarGreedy is_space) (Seq role_alt_lookup (StarGreedy is_space)).

Definition no_info : str := lit "정보 없음".

(** The value of ['author'] in the metadata; [authors_raw] is [None] when
    the field of the response is not a string. *)
Definition format_authors (authors_raw : option str) : str :=
  match authors_raw with
  | Some ((_ :: _) as raw) =>
    let authors := replace_semicolons raw in
    let authors := re_sub bracket_re authors in
    let authors := re_sub role_re_lookup authors in
    let authors := strip is_trim_char authors in
    match authors with
    | [] => no_info
    | _ => authors
    end
  | _ => no_info
  end.

End Lookup.

(* ===================================================================== *)
(** ** The format guard of [get_book_metadata] and the author query of
       [search_book_entities] *)
(* ===================================================================== *)

Module Query.

(** [s.replace(x, '')] for a one-character [x]. *)
Definition remove_char (x : N) (s : str) : str :=
  List.filter (fun c => negb (c =? x)%N) s.

(** [str(isbn).replace('-', '').replace(' ', '')] *)
Definition isbn_clean (isbn : str) : str :=
  remove_char 0x20 (remove_char 0x2D isbn).

Section Guard.

(** [c.isdigit()] for one character: the table of Python's Unicode
    database, not part of the repository. *)
Variable py_isdigit : N -> bool.

(** [s.isdigit()] *)
Definition str_isdigit (s : str) : bool :=
  negb (Tags.is_empty s) && forallb py_isdigit s.

(** The negation of the test
    [not isbn_clean.isdigit() or len(isbn_clean) not in [10, 13]] that
    makes [get_book_metadata] answer with the format error. *)
Definition format_accepted (isbn : str) : bool :=
  let isbn_clean := isbn_clean isbn in
  negb (negb (str_isdigit isbn_clean)
        || negb ((len isbn_clean =? 10) || (len isbn_clean =? 13))).

End Guard.

(** The name [search_book_entities] looks up for the author:
    [clean_author_name(author).split(',')[0].strip()], or no look-up when
    the author or its cleaned form is empty. *)
Definition first_author (author : str) : option str :=
  match author with
  | [] => None
  | _ =>
    match clean_author_name author with
    | [] => None
    | (_ :: _) as author_clean =>
      Some (Tags.strip_ws (hd [] (split_comma author_clean)))
    end
  end.

End Query.

(* ===================================================================== *)
(** ** The loop on consecutive authors of [get_reading_insights] *)
(* ===================================================================== *)

Module Insights.

(** [author and author != '정보 없음'] *)
Definition named (author : str) : bool :=
  negb (Tags.is_empty author) && negb (str_eqb author (lit "정보 없음")).

(** The loop over the authors in order of addition, entered with
    [prev_author] and [consecutive_count]; it stops at the first insight
    and returns its author and the number put in the message. *)
Fixpoint streak_loop (prev_author : option str) (consecutive_count : Z)
    (authors : list str) : option (str * Z) :=
  match authors with
  | [] => None
  | author :: rest =>
    if bool_decide (Some author = prev_author) && named author then
      let consecutive_count := consecutive_count + 1 in
      if consecutive_count >=? 2
      then Some (author, consecutive_count + 1)
      else streak_loop prev_author consecutive_count rest
    else streak_loop (Some author) 0 rest
  end.

Definition author_streak (authors : list str) : option (str * Z) :=
  streak_loop None 0 authors.

(** The message appended for a streak. *)
Definition streak_message (author : str) (n : Z) : str :=
  lit "📚 " ++ author ++ lit " 작가의 책을 연속으로 " ++ str_of_Z n
    ++ lit "권 읽으셨네요!".

(** Whether the loop produced an insight. *)
Definition fires (r : option (str * Z)) : bool :=
  match r with
  | Some _ => true
  | None => false
  end.

(** Three equal named authors in a row somewhere in the list. *)
Fixpoint has_run3 (authors : list str) : bool :=
  match authors with
  | [] => false
  | a :: r =>
    match r with
    | b :: c :: _ => named a && str_eqb a b && str_eqb a c
    | _ => false
    end || has_run3 r
  end.

End Insights.

(* ===================================================================== *)
(** ** The schema of table [books] in [init_database] *)
(* ===================================================================== *)

Module Schema.

(** A column: its name and its declared type. *)
Abbreviation column := (string * string)%type.

(** The columns of [CREATE TABLE IF NOT EXISTS books]. *)
Definition books_columns : list column :=
  [("id", "INTEGER PRIMARY KEY AUTOINCREMENT"); ("isbn", "TEXT");
   ("title", "TEXT NOT NULL"); ("author", "TEXT"); ("publisher", "TEXT");
   ("publication_year", "TEXT"); ("subject", "TEXT");
   ("loan_count", "INTEGER DEFAULT 0"); ("cover_url", "TEXT");
   ("rating", "INTEGER DEFAULT 3"); ("status", "TEXT DEFAULT '읽고 싶음'");
   ("memo", "TEXT"); ("tags", "TEXT"); ("pages", "INTEGER DEFAULT 0");
   ("added_date", "TEXT"); ("updated_date", "TEXT")]%string.

Definition migrations : list column :=
  [("tags", "TEXT"); ("pages", "INTEGER DEFAULT 0"); ("wiki_links", "TEXT");
   ("last_wiki_search", "TEXT")]%string.

(** SQLite compares the names of columns without regard to the case of
    the ASCII letters. *)
Definition lower_ascii (c : ascii) : ascii :=
  let n := N_of_ascii c in
  if (0x41 <=? n)%N && (n <=? 0x5A)%N then ascii_of_N (n + 0x20) else c.

Fixpoint lower (s : string) : string :=
  match s with
  | EmptyString => EmptyString
  | String c r => String (lower_ascii c) (lower r)
  end.

Definition same_name (a b : string) : bool := String.eqb (lower a) (lower b).

Definition has_column (name : string) (table : list column) : bool :=
  existsb (fun c => same_name name c.1) table.

(** The table exists with its columns, or is created. *)
Definition create_if_missing (table : option (list column)) : list column :=
  match table with
  | Some t => t
  | None => books_columns
  end.

(** The loop over [migrations]; [columns] are the names read once before
    the loop by [PRAGMA table_info].  [ALTER TABLE ... ADD COLUMN] raises
    [OperationalError] on a name the table has already, which the loop
    passes over without setting [migration_performed]. *)
Fixpoint migrate_loop (columns : list string) (ms : list column)
    (table : list column) (migration_performed : bool) : list column * bool :=
  match ms with
  | [] => (table, migration_performed)
  | (col_name, col_type) :: rest =>
    if bool_decide (col_name ∈ columns)
    then migrate_loop columns rest table migration_performed
    else if has_column col_name table
    then migrate_loop columns rest table migration_performed
    else migrate_loop columns rest (table ++ [(col_name, col_type)]) true
  end.

(** The schema after [init_database], and whether the page announces an
    update. *)
Definition init_schema (table : option (list column)) : list column * bool :=
  let t := create_if_missing table in
  migrate_loop (map fst t) migrations t false.

End Schema.

(* ===================================================================== *)
(** ** Notions used to state the properties *)
(* ===================================================================== *)

Module Notions.

(** A canonical identifier: 13 decimal digits, the last one the check
    digit of the first twelve. *)
Definition is_isbn13 (s : str) : bool :=
  (length s =? 13)%nat && forallb is_digit s
  && bool_decide (last_char s = Some (digit_char (spec_check_digit (but_last s)))).

(** The code point of a one-character literal. *)
Definition syl (s : string) : N := hd 0%N (lit s).

(** The text begins with the character [c]. *)
Definition next_is (c : N) (s : str) : bool :=
  match s with
  | x :: _ => (x =? c)%N
  | [] => false
  end.

(** The syllables 은, 긴 and 감 occur in [s] only inside the role words
    지은이, 옮긴이 and 감수: every 은 stands between 지 and 이, every 긴
    between 옮 and 이, and every 감 before 수.  [prev] is the character
    before [s]. *)
Fixpoint in_words (prev : N) (s : str) : bool :=
  match s with
  | [] => true
  | c :: r =>
    (if (c =? syl "은")%N then (prev =? syl "지")%N && next_is (syl "이") r
     else if (c =? syl "긴")%N then (prev =? syl "옮")%N && next_is (syl "이") r
     else if (c =? syl "감")%N then next_is (syl "수") r
     else true)
    && in_words c r
  end.




(** One of the role words made of one syllable: 글, 저, 역. *)
Definition is_single_role (c : N) : bool :=
  ((c =? syl "글") || (c =? syl "저") || (c =? syl "역"))%N.

(** The number of occurrences of [t] in [l]. *)
Definition count_tag (t : str) (l : list str) : Z :=
  Z.of_nat (length (List.filter (str_eqb t) l)).

(** The distinct elements of [l] in the order in which they first occur,
    [seen] being those met before. *)
Fixpoint fresh (seen l : list str) : list str :=
  match l with
  | [] => []
  | x :: r =>
    if existsb (str_eqb x) seen then fresh seen r else x :: fresh (seen ++ [x]) r
  end.

Definition first_occurrences (l : list str) : list str := fresh [] l.

(** The whole ranking [most_common] cuts. *)
Definition ranking (c : list (str * Z)) : list (str * Z) :=
  foldr insert_by_count [] c.

(** A finished book of January 2024 with the given rating and pages. *)
Definition book_finished (stars n_pages : Z) : book :=
  {| id := 1; isbn := []; title := lit "소년이 온다"; author := lit "한강";
     publisher := []; publication_year := []; subject := []; loan_count := 0;
     cover_url := []; rating := stars; status := status_done; memo := [];
     tags := Some []; pages := n_pages; added_date := lit "2024-01-05 10:00";
     updated_date := lit "2024-01-05 10:00" |}.

Fixpoint sorted_desc (l : list (str * Z)) : bool :=
  match l with
  | x :: (y :: _) as r => (y.2 <=? x.2) && sorted_desc r
  | _ => true
  end.

End Notions.

(* ===================================================================== *)
(** ** 64-bit integers *)
(* ===================================================================== *)

Section Int64_facts.

Lemma int64_spec (n : Z) : int64 n = true <-> - 2 ^ 63 <= n < 2 ^ 63.
Proof. unfold int64. rewrite andb_true_iff, Z.leb_le, Z.ltb_lt. reflexivity. Qed.

Lemma wrap64_range (n : Z) : int64 (wrap64 n) = true.
Proof.
  apply int64_spec. unfold wrap64.
  pose proof (Z.mod_pos_bound (n + 2 ^ 63) (2 ^ 64) ltac:(reflexivity)) as H.
  change (2 ^ 64) with (2 * 2 ^ 63) in *. lia.
Qed.

Lemma wrap64_congr (n : Z) : (wrap64 n - n) mod 2 ^ 64 = 0.
Proof.
  unfold wrap64.
  rewrite (Z.mod_eq (n + 2 ^ 63) (2 ^ 64)) by discriminate.
  replace (n + 2 ^ 63 - 2 ^ 64 * ((n + 2 ^ 63) / 2 ^ 64) - 2 ^ 63 - n)
    with (- ((n + 2 ^ 63) / 2 ^ 64) * 2 ^ 64) by ring.
  apply Z.mod_mul. discriminate.
Qed.

Lemma wrap64_small (n : Z) : int64 n = true -> wrap64 n = n.
Proof.
  intros H%int64_spec. unfold wrap64.
  rewrite Z.mod_small; [ring|].
  change (2 ^ 64) with (2 * 2 ^ 63). lia.
Qed.

End Int64_facts.

(* ===================================================================== *)
(** ** Properties of [validate_and_format_isbn] *)
(* ===================================================================== *)

Section Isbn_facts.

Lemma Return_inj {A} (a b : A) : Return a = Return b -> a = b.
Proof. now intros [= ->]. Qed.

Lemma is_digit_bounds c : is_digit c = true <-> (0x30 <= c <= 0x39)%N.
Proof.
  unfold is_digit. rewrite andb_true_iff, !N.leb_le. tauto.
Qed.

Lemma int_char_digit c :
  is_digit c = true -> int_char c = Some (Z.of_N c - 0x30).
Proof. unfold int_char. now intros ->. Qed.

Lemma int_char_range c d : int_char c = Some d -> 0 <= d < 10.
Proof.
  unfold int_char. destruct (is_digit c) eqn:E; [|discriminate].
  apply is_digit_bounds in E. intros [= <-]. lia.
Qed.

Lemma digit_char_int_char c d : int_char c = Some d -> digit_char d = c.
Proof.
  unfold int_char, digit_char. destruct (is_digit c) eqn:E; [|discriminate].
  apply is_digit_bounds in E. intros [= <-]. lia.
Qed.

Lemma int_char_digit_char d : 0 <= d < 10 -> int_char (digit_char d) = Some d.
Proof.
  intros H. unfold int_char, digit_char.
  assert (E : is_digit (Z.to_N (d + 0x30)) = true) by (apply is_digit_bounds; lia).
  rewrite E. f_equal. lia.
Qed.

(** [str(d)] of a one-digit number is the one digit. *)
Lemma str_of_Z_digit d : 0 <= d < 10 -> str_of_Z d = [digit_char d].
Proof.
  intros H.
  assert (C : d = 0 \/ d = 1 \/ d = 2 \/ d = 3 \/ d = 4 \/ d = 5 \/ d = 6
              \/ d = 7 \/ d = 8 \/ d = 9) by lia.
  repeat (destruct C as [-> | C]; [reflexivity|]). now subst.
Qed.

Lemma check_digit_range s : 0 <= spec_check_digit s < 10.
Proof. unfold spec_check_digit. apply Z.mod_pos_bound. lia. Qed.

(** The loop computes the weighted sum of the specification, whichever
    parity it is entered at. *)
Lemma checksum_loop_weighted s : forall i acc,
  forallb is_digit s = true ->
  checksum_loop i acc s =
    Return (acc + if i mod 2 =? 0
                  then spec_weighted_sum 1 3 (digit_values s)
                  else spec_weighted_sum 3 1 (digit_values s)).
Proof.
  induction s as [|c s IH]; intros i acc Hd; simpl.
  - destruct (i mod 2 =? 0); f_equal; lia.
  - simpl in Hd. apply andb_true_iff in Hd as [Hc Hs].
    rewrite (int_char_digit _ Hc). simpl.
    change (mbind ?f (Return ?a)) with (f a). cbv beta.
    rewrite (IH _ _ Hs).
    assert (Hi : i mod 2 = 0 \/ i mod 2 = 1) by (pose proof (Z.mod_pos_bound i 2); lia).
    destruct Hi as [Hi | Hi].
    + assert (Hi' : (i + 1) mod 2 = 1) by (rewrite Z.add_mod, Hi by lia; reflexivity).
      rewrite Hi, Hi'. simpl. f_equal. lia.
    + assert (Hi' : (i + 1) mod 2 = 0) by (rewrite Z.add_mod, Hi by lia; reflexivity).
      rewrite Hi, Hi'. simpl. f_equal. lia.
Qed.

Lemma checksum_loop_spec s :
  forallb is_digit s = true ->
  checksum_loop 0 0 s = Return (spec_weighted_sum 1 3 (digit_values s)).
Proof. intros H. now rewrite checksum_loop_weighted. Qed.

(** A character that is not a digit stops the loop with [ValueError]. *)
Lemma checksum_loop_raises s : forall i acc,
  forallb is_digit s = false -> checksum_loop i acc s = Raise ValueError.
Proof.
  induction s as [|c s IH]; intros i acc Hd; simpl in *; [discriminate|].
  unfold int_char. destruct (is_digit c); simpl in *.
  - change (mbind ?f (Return ?a)) with (f a). cbv beta. now apply IH.
  - reflexivity.
Qed.

Lemma upper_char_digit c : is_digit c = true -> upper_char c = c.
Proof.
  intros H%is_digit_bounds. unfold upper_char.
  destruct (0x61 <=? c)%N eqn:E; [apply N.leb_le in E; lia | reflexivity].
Qed.

(** A string of digits goes through the cleaning unchanged. *)
Lemma keep_isbn_chars_digits s :
  forallb is_digit s = true -> keep_isbn_chars (upper s) = s.
Proof.
  induction s as [|c s IH]; simpl; [reflexivity|].
  intros [Hc Hs]%andb_true_iff.
  rewrite (upper_char_digit _ Hc), Hc. simpl. f_equal. now apply IH.
Qed.

Lemma forallb_take {A} (p : A -> bool) n (l : list A) :
  forallb p l = true -> forallb p (take n l) = true.
Proof.
  revert n. induction l as [|x l IH]; intros [|n]; simpl; try reflexivity.
  intros [Hx Hl]%andb_true_iff. rewrite Hx. simpl. now apply IH.
Qed.

Lemma but_last_snoc (s : str) c : but_last (s ++ [c]) = s.
Proof.
  unfold but_last. rewrite length_app. simpl.
  replace (length s + 1 - 1)%nat with (length s) by lia.
  now rewrite take_app_length.
Qed.

Lemma last_char_snoc (s : str) c : last_char (s ++ [c]) = Some c.
Proof. unfold last_char. apply last_snoc. Qed.

Lemma but_last_last (s : str) c :
  last_char s = Some c -> s = but_last s ++ [c].
Proof.
  unfold last_char. induction s as [|x s' _] using rev_ind; [discriminate|].
  rewrite last_snoc. intros [= ->]. now rewrite but_last_snoc.
Qed.

End Isbn_facts.

Section Isbn_theorems.

Local Ltac run := cbn [mbind outcome_bind of_option].

Local Tactic Notation "len_tests" :=
  change (Z.of_nat 13 =? 10) with false; change (Z.of_nat 13 =? 13) with true;
  change (Z.of_nat 10 =? 10) with true; cbv iota.
Local Tactic Notation "len_tests" "in" hyp(H) :=
  change (Z.of_nat 13 =? 10) with false in H;
  change (Z.of_nat 13 =? 13) with true in H;
  change (Z.of_nat 10 =? 10) with true in H; cbv iota in H.

Lemma check_isbn13_digits isbn :
  forallb is_digit isbn = true ->
  forall c, last_char isbn = Some c ->
  check_isbn13 isbn =
    let expected_check := spec_check_digit (but_last isbn) in
    let actual_check := Z.of_N c - 0x30 in
    if expected_check =? actual_check
    then Return {| valid := true; isbn13 := Some isbn; message := msg_valid |}
    else Return {| valid := false; isbn13 := None;
                   message := msg_checksum expected_check actual_check |}.
Proof.
  intros Hd c Hc. unfold check_isbn13.
  rewrite checksum_loop_spec by (now apply forallb_take).
  run. rewrite Hc. run.
  assert (Hcd : is_digit c = true).
  { rewrite (but_last_last _ _ Hc), forallb_app in Hd.
    apply andb_true_iff in Hd as [_ Hd]. simpl in Hd.
    now rewrite andb_true_r in Hd. }
  rewrite (int_char_digit _ Hcd). run. reflexivity.
Qed.

(** In the 10-character branch any character of the first nine that is
    not a digit (it can only be the letter X) escapes as [ValueError]. *)
Lemma isbn10_non_digit_raises (raw : str) :
  let isbn := keep_isbn_chars (upper raw) in
  length isbn = 10%nat ->
  forallb is_digit (take 9 isbn) = false ->
  validate_and_format_isbn raw = Raise ValueError.
Proof.
  intros isbn Hlen Hd. unfold validate_and_format_isbn. fold isbn.
  unfold len. rewrite Hlen. len_tests.
  unfold but_last. rewrite Hlen. change (10 - 1)%nat with 9%nat.
  rewrite checksum_loop_raises; [reflexivity|].
  rewrite forallb_app, Hd. apply andb_false_r.
Qed.

(** Everywhere else the function returns a result. *)
Lemma validate_returns_otherwise (raw : str) :
  let isbn := keep_isbn_chars (upper raw) in
  (length isbn = 10%nat -> forallb is_digit (take 9 isbn) = true) ->
  exists r, validate_and_format_isbn raw = Return r.
Proof.
  intros isbn H10. unfold validate_and_format_isbn. fold isbn.
  destruct (len isbn =? 10) eqn:E10.
  - apply Z.eqb_eq in E10. unfold len in E10.
    assert (Hlen : length isbn = 10%nat) by lia.
    unfold but_last. rewrite Hlen. change (10 - 1)%nat with 9%nat.
    rewrite checksum_loop_spec.
    + run. eexists. reflexivity.
    + rewrite forallb_app, (H10 Hlen). reflexivity.
  - destruct (len isbn =? 13); [|eexists; reflexivity].
    unfold check_isbn13.
    destruct (forallb is_digit (but_last isbn)) eqn:Hd.
    + rewrite (checksum_loop_spec _ Hd). run.
      destruct (last_char isbn) as [c|]; run; [|eexists; reflexivity].
      destruct (int_char c) as [a|]; run; [|eexists; reflexivity].
      match goal with |- context [if ?b then _ else _] => destruct b end;
        eexists; reflexivity.
    + rewrite (checksum_loop_raises _ _ _ Hd). run. eexists. reflexivity.
Qed.

(** C1 (the code departs from the claim): a cleaned input of length 10
    with the letter X among its first nine characters makes the function
    raise [ValueError] instead of returning a result; the 10-character
    branch has no [try] around [int(digit)]. *)
Theorem isbn10_with_X_raises :
  len (keep_isbn_chars (upper (lit "X123456789"))) = 10
  /\ validate_and_format_isbn (lit "X123456789") = Raise ValueError.
Proof. split; vm_compute; reflexivity. Qed.

(** C2: when the cleaned input is a string of 13 decimal digits whose last
    digit is the check digit of the first twelve (weights 1, 3, 1, 3, ...,
    check digit [(10 - sum mod 10) mod 10]), the function returns success
    with the cleaned identifier unchanged; ["978-89-364-3426-7"] gives
    ["9788936434267"]. *)
Theorem isbn13_valid_unchanged :
  (forall raw : str,
     let isbn := keep_isbn_chars (upper raw) in
     length isbn = 13%nat ->
     forallb is_digit isbn = true ->
     last_char isbn = Some (digit_char (spec_check_digit (but_last isbn))) ->
     validate_and_format_isbn raw =
       Return {| valid := true; isbn13 := Some isbn; message := msg_valid |})
  /\ validate_and_format_isbn (lit "978-89-364-3426-7") =
       Return {| valid := true; isbn13 := Some (lit "9788936434267");
                 message := msg_valid |}.
Proof.
  split; [|vm_compute; reflexivity].
  intros raw isbn Hlen Hd Hlast.
  unfold validate_and_format_isbn. fold isbn.
  unfold len. rewrite Hlen. len_tests.
  rewrite (check_isbn13_digits _ Hd _ Hlast). cbv zeta.
  pose proof (check_digit_range (but_last isbn)) as Hr.
  replace (Z.of_N (digit_char (spec_check_digit (but_last isbn))) - 0x30)
    with (spec_check_digit (but_last isbn)) by (unfold digit_char; lia).
  now rewrite Z.eqb_refl.
Qed.

Lemma isbn13_valid_unchanged_witness :
  validate_and_format_isbn (lit "978-0-306-40615-7") =
    Return {| valid := true; isbn13 := Some (lit "9780306406157");
              message := msg_valid |}.
Proof.
  apply (proj1 isbn13_valid_unchanged (lit "978-0-306-40615-7"));
    vm_compute; reflexivity.
Defined.

(** C3: when the cleaned input is a string of 10 decimal digits, the
    function returns success with ["978"], the first nine digits and the
    check digit of these twelve (weight 1 at even positions, 3 at odd
    ones, [(10 - sum mod 10) mod 10]), 13 characters in all;
    ["8983711540"] gives ["978898371154"] followed by its check digit 0. *)
Theorem isbn10_converted :
  (forall raw : str,
     let isbn := keep_isbn_chars (upper raw) in
     length isbn = 10%nat ->
     forallb is_digit isbn = true ->
     let isbn12 := lit "978" ++ take 9 isbn in
     let isbn13 := isbn12 ++ [digit_char (spec_check_digit isbn12)] in
     validate_and_format_isbn raw =
       Return {| valid := true; isbn13 := Some isbn13;
                 message := msg_converted ++ isbn13 |}
     /\ length isbn13 = 13%nat)
  /\ validate_and_format_isbn (lit "8983711540") =
       Return {| valid := true; isbn13 := Some (lit "978898371154" ++ lit "0");
                 message := msg_converted ++ lit "978898371154" ++ lit "0" |}.
Proof.
  split; [|vm_compute; reflexivity].
  intros raw isbn Hlen Hd isbn12 isbn13. split.
  - unfold validate_and_format_isbn. fold isbn.
    unfold len. rewrite Hlen. len_tests.
    unfold but_last. rewrite Hlen. change (10 - 1)%nat with 9%nat. fold isbn12.
    rewrite checksum_loop_spec.
    + run. fold (spec_check_digit isbn12).
      rewrite (str_of_Z_digit _ (check_digit_range isbn12)). reflexivity.
    + unfold isbn12. rewrite forallb_app, (forallb_take _ _ _ Hd). reflexivity.
  - unfold isbn13, isbn12. rewrite !length_app, length_take, Hlen. reflexivity.
Qed.

Lemma isbn10_converted_witness :
  validate_and_format_isbn (lit "0-306-40615-2") =
    Return {| valid := true; isbn13 := Some (lit "9780306406157");
              message := msg_converted ++ lit "9780306406157" |}
  /\ length (lit "9780306406157") = 13%nat.
Proof.
  apply (proj1 isbn10_converted (lit "0-306-40615-2")); vm_compute; reflexivity.
Defined.

(** C6: for a valid 13-digit identifier (13 decimal digits, the last one
    the check digit of the first twelve: weights 1, 3, 1, 3, ...),
    replacing the last digit by another decimal digit gives a failure
    whose message names the expected check digit, which is the original
    last digit, and the actual one, which is the replacement. *)
Theorem isbn13_corrupted_last_digit :
  forall (isbn : str) (x x' : N),
    Notions.is_isbn13 isbn = true ->
    last_char isbn = Some x ->
    is_digit x' = true ->
    x' <> x ->
    validate_and_format_isbn (but_last isbn ++ [x']) =
      Return {| valid := false; isbn13 := None;
                message := lit "ISBN-13 체크섬 오류 (예상: " ++ [x]
                             ++ lit ", 실제: " ++ [x'] ++ lit ")" |}.
Proof.
  intros isbn x x' Hvalid Hx Hx' Hne.
  unfold Notions.is_isbn13 in Hvalid.
  rewrite !andb_true_iff, Nat.eqb_eq in Hvalid.
  destruct Hvalid as [[Hlen Hd] Hc]. apply bool_decide_eq_true_1 in Hc.
  (* the last digit is the check digit of the first twelve *)
  assert (Hcheck : spec_check_digit (but_last isbn) = Z.of_N x - 0x30).
  { rewrite Hx in Hc. injection Hc as ->.
    pose proof (check_digit_range (but_last isbn)). unfold digit_char. lia. }
  assert (Hdx : is_digit x = true).
  { rewrite (but_last_last _ _ Hx), forallb_app in Hd.
    apply andb_true_iff in Hd as [_ Hd]. simpl in Hd.
    now rewrite andb_true_r in Hd. }
  set (isbn' := but_last isbn ++ [x']).
  assert (Hd' : forallb is_digit isbn' = true).
  { unfold isbn'. rewrite forallb_app. unfold but_last.
    rewrite (forallb_take _ _ _ Hd). simpl. now rewrite Hx'. }
  assert (Hlen' : length isbn' = 13%nat).
  { unfold isbn', but_last. rewrite length_app, length_take, Hlen. reflexivity. }
  unfold validate_and_format_isbn.
  rewrite (keep_isbn_chars_digits _ Hd').
  unfold len. rewrite Hlen'. len_tests.
  rewrite (check_isbn13_digits _ Hd' x') by apply last_char_snoc.
  cbv zeta. unfold isbn'. rewrite but_last_snoc, Hcheck.
  apply is_digit_bounds in Hdx, Hx'.
  destruct (Z.of_N x - 0x30 =? Z.of_N x' - 0x30) eqn:E.
  - apply Z.eqb_eq in E. exfalso. apply Hne. lia.
  - unfold msg_checksum.
    rewrite !str_of_Z_digit by lia. unfold digit_char.
    replace (Z.to_N (Z.of_N x - 0x30 + 0x30)) with x by lia.
    replace (Z.to_N (Z.of_N x' - 0x30 + 0x30)) with x' by lia.
    reflexivity.
Qed.

Lemma isbn13_corrupted_last_digit_witness :
  validate_and_format_isbn (lit "9788936434260") =
    Return {| valid := false; isbn13 := None;
              message := lit "ISBN-13 체크섬 오류 (예상: 7, 실제: 0)" |}.
Proof.
  apply (isbn13_corrupted_last_digit (lit "9788936434267") 0x37%N 0x30%N);
    try (vm_compute; reflexivity).
  vm_compute. discriminate.
Defined.

End Isbn_theorems.

(* ===================================================================== *)
(** ** Properties of the matcher and of [str.strip] *)
(* ===================================================================== *)

Section Strip_facts.

Variable p : N -> bool.

Lemma lstrip_fixed (s : str) :
  match s with [] => True | c :: _ => p c = false end -> lstrip p s = s.
Proof. destruct s as [|c s]; simpl; [reflexivity|]. now intros ->. Qed.

Lemma lstrip_head (s : str) :
  match lstrip p s with [] => True | c :: _ => p c = false end.
Proof.
  induction s as [|c s IH]; simpl; [exact I|].
  destruct (p c) eqn:E; [exact IH | exact E].
Qed.

(** What [lstrip] leaves is the end of the string. *)
Lemma lstrip_suffix (s : str) : exists pre, s = pre ++ lstrip p s.
Proof.
  induction s as [|c s [pre IH]]; simpl.
  - now exists [].
  - destruct (p c).
    + exists (c :: pre). simpl. now f_equal.
    + now exists [].
Qed.

(** What [rstrip] leaves is the beginning of the string. *)
Lemma rstrip_prefix (s : str) : exists post, s = rstrip p s ++ post.
Proof.
  unfold rstrip. destruct (lstrip_suffix (rev s)) as [pre E].
  exists (rev pre). rewrite <- rev_app_distr, <- E. now rewrite rev_involutive.
Qed.

Lemma rstrip_keeps_head (s : str) :
  match s with [] => True | c :: _ => p c = false end ->
  match rstrip p s with [] => True | c :: _ => p c = false end.
Proof.
  destruct (rstrip_prefix s) as [post E].
  destruct (rstrip p s) as [|c t]; [trivial|].
  rewrite E. simpl. trivial.
Qed.

Lemma rstrip_idem (s : str) : rstrip p (rstrip p s) = rstrip p s.
Proof.
  unfold rstrip. rewrite rev_involutive. f_equal.
  apply lstrip_fixed, lstrip_head.
Qed.

Lemma strip_idem (s : str) : strip p (strip p s) = strip p s.
Proof.
  unfold strip.
  rewrite (lstrip_fixed (rstrip p (lstrip p s))).
  - apply rstrip_idem.
  - apply rstrip_keeps_head, lstrip_head.
Qed.

End Strip_facts.

Section Matcher_facts.





End Matcher_facts.

(* ===================================================================== *)
(** ** Properties of [clean_author_name] *)
(* ===================================================================== *)

Section Author_facts.



Lemma clean_is_stripped (s : str) :
  strip is_trim_char (clean_author_name s) = clean_author_name s.
Proof.
  unfold clean_author_name. destruct s as [|c s]; [reflexivity|].
  apply strip_idem.
Qed.

End Author_facts.

(* ===================================================================== *)
(** ** Properties of the period filter and of the summaries *)
(* ===================================================================== *)

Section Report_facts.

(** A string that extends [e] by at least one character sorts after [e]. *)
Lemma str_leb_longer (e t : str) : t <> [] -> str_leb (e ++ t) e = false.
Proof.
  intros Ht. induction e as [|c e IH]; simpl.
  - destruct t; [contradiction | reflexivity].
  - now rewrite N.ltb_irrefl.
Qed.

(** A time stamp of the 31st that carries a time of day fails the test
    against the upper bound, whatever the year and the month. *)
Lemma in_period_day_31 (b : book) (year month : Z) (time : str) :
  time <> [] ->
  added_date b = end_date year month ++ time ->
  in_period year month b = false.
Proof.
  intros Ht E. unfold in_period. rewrite E, (str_leb_longer _ _ Ht).
  apply andb_false_r.
Qed.

Lemma str_leb_prefix (p a b : str) : str_leb (p ++ a) (p ++ b) = str_leb a b.
Proof. induction p as [|c p IH]; simpl; [reflexivity|]. now rewrite N.ltb_irrefl. Qed.

(** X25: a time stamp of the month whose two-digit day lies between
    ["01"] and ["30"] passes the filter, whatever follows the day. *)
Lemma in_period_days_01_30 (b : book) (year month : Z) (d1 d2 : N) (time : str) :
  str_leb (lit "01") [d1; d2] = true ->
  str_leb [d1; d2] (lit "30") = true ->
  added_date b
    = str_of_Z year ++ lit "-" ++ fmt_02d month ++ lit "-" ++ [d1; d2] ++ time ->
  in_period year month b = true.
Proof.
  intros Hlo Hhi E. unfold in_period, str_geb, start_date, end_date. rewrite E.
  change (lit "-01") with (lit "-" ++ lit "01").
  change (lit "-31") with (lit "-" ++ lit "31").
  rewrite !str_leb_prefix.
  change (lit "01") with [0x30; 0x31]%N in *.
  change (lit "30") with [0x33; 0x30]%N in *.
  change (lit "31") with [0x33; 0x31]%N.
  cbn [str_leb app] in *.
  destruct (0x30 <? d1)%N eqn:A1, (d1 <? 0x30)%N eqn:A2,
           (d1 <? 0x33)%N eqn:A3, (0x33 <? d1)%N eqn:A4,
           (0x31 <? d2)%N eqn:B1, (d2 <? 0x31)%N eqn:B2,
           (d2 <? 0x30)%N eqn:B3, (0x30 <? d2)%N eqn:B4;
    try discriminate; try reflexivity;
    rewrite ?N.ltb_lt, ?N.ltb_ge in *; try lia.
Qed.

Lemma filter_all_false {A} (p : A -> bool) (l : list A) :
  (forall x, In x l -> p x = false) -> List.filter p l = [].
Proof.
  induction l as [|x l IH]; intros H; simpl; [reflexivity|].
  rewrite (H x) by now left. apply IH. intros y Hy. apply H. now right.
Qed.

(** C7 (the code departs from the claim): a book added on 31 January 2024
    at 10:30 is dropped by the filter for January 2024: the time stamp
    ["2024-01-31 10:30"] is compared as a string with the bound
    ["2024-01-31"] and is greater.  The book added the day before is
    kept. *)
Theorem period_filter_drops_day_31 :
  in_period 2024 1 (book_added_on (lit "2024-01-31 10:30")) = false
  /\ books (generate_monthly_summary
              [book_added_on (lit "2024-01-31 10:30")] 2024 1) = []
  /\ total_added (generate_monthly_summary
                    [book_added_on (lit "2024-01-31 10:30")] 2024 1) = 0
  /\ (forall report_body,
        generate_reading_report report_body
          [book_added_on (lit "2024-01-31 10:30")]
          (lit "month") (Some 2024) (Some 1)
        = empty_report (lit "2024년 1월"))
  /\ in_period 2024 1 (book_added_on (lit "2024-01-30 10:30")) = true.
Proof.
  split; [|split; [|split; [|split]]]; try intros report_body;
    vm_compute; reflexivity.
Qed.

(** C9: on an empty collection the monthly summary has zero counts, zero
    pages, a zero mean and no top tag, and the report is the text for a
    period without books; the same holds when the period filter leaves
    no row. *)
Theorem aggregation_of_empty_collection :
  (forall year month,
     let s := generate_monthly_summary [] year month in
     total_added s = 0 /\ completed s = 0 /\ pages_read s = 0
     /\ avg_rating s = 0%Q /\ top_tags s = [] /\ books s = [])
  /\ (forall report_body period year month,
        exists period_text,
          generate_reading_report report_body [] period year month
            = empty_report period_text)
  /\ (forall report_body df year month,
        year <> 0 -> month <> 0 ->
        (forall b, In b df -> in_period year month b = false) ->
        generate_reading_report report_body df (lit "month")
          (Some year) (Some month)
          = empty_report (str_of_Z year ++ lit "년 " ++ str_of_Z month ++ lit "월")
        /\ let s := generate_monthly_summary df year month in
           total_added s = 0 /\ completed s = 0 /\ pages_read s = 0
           /\ avg_rating s = 0%Q /\ top_tags s = [] /\ books s = []).
Proof.
  split; [|split].
  - intros year month. cbv zeta. unfold generate_monthly_summary. simpl.
    repeat split; reflexivity.
  - intros report_body period year month.
    unfold generate_reading_report.
    destruct year as [y|], month as [m|]; simpl;
      try (eexists; reflexivity).
    destruct (str_eqb period (lit "month") && negb (y =? 0) && negb (m =? 0));
      eexists; reflexivity.
  - intros report_body df year month Hy Hm Hout.
    assert (Hf : List.filter (in_period year month) df = [])
      by now apply filter_all_false.
    assert (Hc : List.filter
                   (fun b => str_eqb (status b) status_done
                             && in_period year month b) df = []).
    { apply filter_all_false. intros b Hb. rewrite (Hout b Hb).
      apply andb_false_r. }
    split.
    + unfold generate_reading_report, truthy.
      apply Z.eqb_neq in Hy, Hm. rewrite Hy, Hm.
      change (str_eqb (lit "month") (lit "month")) with true. simpl andb.
      cbv iota beta. rewrite Hf. reflexivity.
    + cbv zeta. unfold generate_monthly_summary. rewrite Hf, Hc. simpl.
      repeat split; reflexivity.
Qed.

Lemma aggregation_of_empty_collection_witness :
  generate_reading_report (fun _ _ => [])
    [book_added_on (lit "2024-02-01 09:00")] (lit "month")
    (Some 2024) (Some 1)
  = empty_report (lit "2024년 1월").
Proof.
  refine (proj1 (proj2 (proj2 aggregation_of_empty_collection)
                   (fun _ _ => []) [book_added_on (lit "2024-02-01 09:00")]
                   2024 1 _ _ _)).
  - discriminate.
  - discriminate.
  - intros b [<- | []]. vm_compute. reflexivity.
Defined.

End Report_facts.

(* ===================================================================== *)
(** ** Properties of [restore_from_backup] *)
(* ===================================================================== *)

Section Restore_facts.

Variable sqlite_tables : bytes -> outcome (list str).

Lemma temp_not_live : temp_db <> live_db.
Proof. discriminate. Qed.

Lemma backup_name_not_live now : backup_name now <> live_db.
Proof. unfold backup_name, live_db. cbn. discriminate. Qed.

Lemma backup_name_not_temp now : backup_name now <> temp_db.
Proof. unfold backup_name, temp_db. cbn. discriminate. Qed.

Local Ltac io_step := unfold mbind, io_bind, mret, io_ret; cbv beta iota.

(** The handler removes the temporary file and touches nothing else. *)
Lemma restore_handler_spec (fs : files) :
  exists fs', restore_handler fs = (fs', Return false)
    /\ fs' !! temp_db = None
    /\ forall name, name <> temp_db -> fs' !! name = fs !! name.
Proof.
  unfold restore_handler, path_exists. io_step.
  destruct (fs !! temp_db) as [b|] eqn:E.
  - rewrite bool_decide_eq_true_2 by eauto. unfold os_remove. io_step.
    rewrite E. io_step. eexists. split; [reflexivity|]. split.
    + apply lookup_delete_eq.
    + intros name Hn. now apply lookup_delete_ne.
  - rewrite bool_decide_eq_false_2 by (intros [? ?]; discriminate).
    io_step. eexists. split; [reflexivity|]. split; [exact E|]. reflexivity.
Qed.

(** The run of the body, by cases: no live store; an unreadable upload; an
    upload without the table; an upload with it. *)
Lemma restore_body_unfold now uploaded (fs : files) :
  restore_body sqlite_tables now uploaded fs =
    match fs !! live_db with
    | None => (fs, Raise OSError)
    | Some old =>
      match sqlite_tables uploaded with
      | Raise e => (staged now uploaded old fs, Raise e)
      | Return tables =>
        if has_books tables
        then (<[live_db := uploaded]>
                (delete temp_db (delete live_db (staged now uploaded old fs))),
              Return true)
        else (delete temp_db (staged now uploaded old fs), Return false)
      end
    end.
Proof.
  unfold restore_body, copy2. io_step.
  destruct (fs !! live_db) as [old|] eqn:E; [|reflexivity].
  unfold write_file, read_tables. fold (staged now uploaded old fs).
  assert (Ht : staged now uploaded old fs !! temp_db = Some uploaded)
    by apply lookup_insert_eq.
  assert (Hl : staged now uploaded old fs !! live_db = Some old).
  { unfold staged. rewrite lookup_insert_ne by apply temp_not_live.
    rewrite lookup_insert_ne by apply backup_name_not_live. exact E. }
  rewrite Ht.
  destruct (sqlite_tables uploaded) as [tables|e]; [|reflexivity].
  destruct (has_books tables); cbn [negb]; cbv beta iota.
  - unfold os_remove, os_rename. rewrite Hl.
    rewrite lookup_delete_ne
      by (intros H; symmetry in H; now apply temp_not_live in H).
    rewrite Ht. reflexivity.
  - unfold os_remove. rewrite Ht. reflexivity.
Qed.

Lemma staged_live now uploaded old (fs : files) :
  staged now uploaded old fs !! live_db = fs !! live_db.
Proof.
  unfold staged. rewrite lookup_insert_ne by apply temp_not_live.
  now rewrite lookup_insert_ne by apply backup_name_not_live.
Qed.

Lemma staged_backup now uploaded old (fs : files) :
  staged now uploaded old fs !! backup_name now = Some old.
Proof.
  unfold staged.
  rewrite lookup_insert_ne
    by (intros H; symmetry in H; now apply backup_name_not_temp in H).
  apply lookup_insert_eq.
Qed.

(** C8: an upload without the table [books] is refused: the function
    returns [False], the live store [reading_log.db] is as it was and
    [reading_log_temp.db] is gone.  And whenever a run changes the live
    store, it has returned [True], the live store holds the upload and the
    former content is in the copy made first. *)
Theorem restore_rejects_backup_without_books :
  (forall now uploaded (fs : files) tables,
     sqlite_tables uploaded = Return tables ->
     has_books tables = false ->
     exists fs',
       restore_from_backup sqlite_tables now uploaded fs = (fs', Return false)
       /\ fs' !! live_db = fs !! live_db
       /\ fs' !! temp_db = None)
  /\ (forall now uploaded (fs fs' : files) r,
        restore_from_backup sqlite_tables now uploaded fs = (fs', r) ->
        fs' !! live_db <> fs !! live_db ->
        exists old,
          fs !! live_db = Some old
          /\ fs' !! backup_name now = Some old
          /\ fs' !! live_db = Some uploaded
          /\ r = Return true).
Proof.
  split.
  - intros now uploaded fs tables Hs Hb.
    unfold restore_from_backup. rewrite restore_body_unfold.
    destruct (fs !! live_db) as [old|] eqn:E.
    + rewrite Hs, Hb. eexists. split; [reflexivity|]. split.
      * rewrite lookup_delete_ne by apply temp_not_live.
        now rewrite staged_live.
      * apply lookup_delete_eq.
    + destruct (restore_handler_spec fs) as (fs' & -> & Ht & Ho).
      exists fs'. split; [reflexivity|]. split; [|exact Ht].
      rewrite Ho, E; [reflexivity|].
      intros H; symmetry in H; now apply temp_not_live in H.
  - intros now uploaded fs fs' r Hrun Hchanged.
    unfold restore_from_backup in Hrun. rewrite restore_body_unfold in Hrun.
    assert (Hlt : live_db <> temp_db)
      by (intros H; symmetry in H; now apply temp_not_live in H).
    destruct (fs !! live_db) as [old|] eqn:E.
    + destruct (sqlite_tables uploaded) as [tables|e].
      * destruct (has_books tables); injection Hrun as <- <-.
        -- exists old. split; [reflexivity|]. split; [|split].
           ++ rewrite lookup_insert_ne
                by (intros H; symmetry in H; now apply backup_name_not_live in H).
              rewrite lookup_delete_ne
                by (intros H; symmetry in H; now apply backup_name_not_temp in H).
              rewrite lookup_delete_ne
                by (intros H; symmetry in H; now apply backup_name_not_live in H).
              apply staged_backup.
           ++ apply lookup_insert_eq.
           ++ reflexivity.
        -- exfalso. apply Hchanged.
           rewrite lookup_delete_ne by apply temp_not_live.
           now rewrite staged_live.
      * destruct (restore_handler_spec (staged now uploaded old fs))
          as (fs1 & E1 & _ & Ho).
        rewrite E1 in Hrun. injection Hrun as <- <-.
        exfalso. apply Hchanged. rewrite (Ho _ Hlt). now rewrite staged_live.
    + destruct (restore_handler_spec fs) as (fs1 & E1 & _ & Ho).
      rewrite E1 in Hrun. injection Hrun as <- <-.
      exfalso. apply Hchanged. rewrite (Ho _ Hlt). now rewrite E.
Qed.

End Restore_facts.

Lemma restore_rejects_backup_without_books_witness :
  let sqlite := fun _ : bytes => Return [lit "reading_goals"] in
  let fs : files := {[ live_db := [Byte.x53] ]} in
  (exists fs',
     restore_from_backup sqlite "20240131_103000" [Byte.x00] fs
       = (fs', Return false)
     /\ fs' !! live_db = fs !! live_db
     /\ fs' !! temp_db = None)
  /\ (let sqlite' := fun _ : bytes => Return [lit "books"] in
      exists old,
        fs !! live_db = Some old
        /\ (restore_from_backup sqlite' "20240131_103000" [Byte.x00] fs).1
             !! backup_name "20240131_103000" = Some old).
Proof.
  intros sqlite fs. split.
  - apply (proj1 (restore_rejects_backup_without_books sqlite)
             "20240131_103000"%string [Byte.x00] fs [lit "reading_goals"]);
      reflexivity.
  - intros sqlite'.
    destruct (proj2 (restore_rejects_backup_without_books sqlite')
                "20240131_103000"%string [Byte.x00] fs
                (restore_from_backup sqlite' "20240131_103000" [Byte.x00] fs).1
                (restore_from_backup sqlite' "20240131_103000" [Byte.x00] fs).2)
      as (old & H1 & H2 & _).
    + now destruct (restore_from_backup sqlite' "20240131_103000" [Byte.x00] fs).
    + vm_compute. discriminate.
    + exists old. split; assumption.
Defined.

(* ===================================================================== *)
(** ** Properties of [add_book_to_db] *)
(* ===================================================================== *)

Section Add_book_facts.

Import Db.

Variable text_to_integer : str -> sqlval.

Local Ltac run := cbn [mbind outcome_bind of_option].

(** All parameters are bound, or the first one that cannot be raises. *)
Lemma bind_all_cases (l : list pyval) :
  (bind_all l = Return () /\ Forall (fun v => bind v = Return ()) l)
  \/ (exists e, bind_all l = Raise e
        /\ Exists (fun v => bind v <> Return ()) l).
Proof.
  induction l as [|v l IH]; cbn [bind_all]; [left; split; [reflexivity|constructor]|].
  destruct (bind v) as [[]|e] eqn:E; run.
  - destruct IH as [[-> HF] | (e & -> & HE)].
    + left. split; [reflexivity|]. now constructor.
    + right. exists e. split; [reflexivity|]. now apply Exists_cons_tl.
  - right. exists e. split; [reflexivity|]. apply Exists_cons_hd.
    rewrite E. discriminate.
Qed.

Lemma bind_get (book_data : gmap string pyval) (k : string) (dflt v : pyval) :
  book_data !! k = Some v ->
  bind (get book_data k dflt) = Return () -> bind v = Return ().
Proof. unfold get. intros Hv H. now rewrite Hv in H. Qed.

Lemma bind_get_default (book_data : gmap string pyval) (k : string) (dflt : pyval) :
  bind dflt = Return () ->
  (forall v, book_data !! k = Some v -> bind v = Return ()) ->
  bind (get book_data k dflt) = Return ().
Proof.
  unfold get. intros Hd H. destruct (book_data !! k) as [v|]; cbn [default]; auto.
Qed.

(** What a successful insert has done and has found. *)
Lemma add_book_body_success (book_data : gmap string pyval) (d d' : db) :
  add_book_body text_to_integer book_data d = Return d' ->
  exists r v,
    d' = {| rows := rows d ++ [r]; last_id := last_id d + 1 |}
    /\ id r = last_id d + 1
    /\ book_data !! "added_date"%string = Some v
    /\ added_date r = to_text v
    /\ updated_date r = to_text v
    /\ Forall (fun k => is_Some (book_data !! k))
         ["isbn"; "title"; "author"; "publisher"; "rating"; "status"; "memo";
          "added_date"]%string
    /\ book_data !! "title"%string <> Some PNone
    /\ Forall (fun k => forall v, book_data !! k = Some v -> bind v = Return ())
         ["isbn"; "title"; "author"; "publisher"; "publication_year"; "subject";
          "loan_count"; "cover_url"; "rating"; "status"; "memo"; "tags"; "pages";
          "added_date"]%string
    /\ int64 (last_id d + 1) = true.
Proof.
  unfold add_book_body, getitem.
  destruct (book_data !! "isbn"%string) as [v1|] eqn:E1; [|discriminate].
  destruct (book_data !! "title"%string) as [v2|] eqn:E2; [|discriminate].
  destruct (book_data !! "author"%string) as [v3|] eqn:E3; [|discriminate].
  destruct (book_data !! "publisher"%string) as [v4|] eqn:E4; [|discriminate].
  destruct (book_data !! "rating"%string) as [v5|] eqn:E5; [|discriminate].
  destruct (book_data !! "status"%string) as [v6|] eqn:E6; [|discriminate].
  destruct (book_data !! "memo"%string) as [v7|] eqn:E7; [|discriminate].
  destruct (book_data !! "added_date"%string) as [v8|] eqn:E8; [|discriminate].
  run.
  match goal with
  | |- context [bind_all ?l] =>
    destruct (bind_all_cases l) as [[-> HF] | (e & -> & _)]; [|discriminate]
  end.
  run. unfold insert_book, next_id. cbn [title last_id].
  match goal with
  | |- context [rows d ++ [?r0]] =>
    assert (Hid : id r0 = last_id d + 1) by reflexivity;
    assert (Ha : added_date r0 = to_text v8) by reflexivity;
    assert (Hu : updated_date r0 = to_text v8) by reflexivity;
    revert Hid Ha Hu; generalize r0
  end.
  intros r Hid Ha Hu H.
  assert (Hnn : v2 <> PNone) by (intros ->; discriminate H).
  assert (Hi : int64 (last_id d + 1) = true).
  { destruct (int64 (last_id d + 1)); [reflexivity|].
    destruct v2; discriminate H. }
  rewrite Hi in H.
  assert (Hd : d' = {| rows := rows d ++ [r]; last_id := last_id d + 1 |}).
  { destruct v2; [congruence| |]; now apply Return_inj in H. }
  exists r, v8.
  split; [exact Hd|]. split; [exact Hid|]. split; [reflexivity|].
  split; [exact Ha|]. split; [exact Hu|].
  split; [repeat (apply Forall_cons; split; [cbv beta; eexists; eassumption|]);
          constructor|].
  split; [congruence|].
  split; [|exact Hi].
  repeat match goal with
         | H : Forall _ (_ :: _) |- _ => apply Forall_cons in H as [? H]
         end.
  repeat (apply Forall_cons; split;
          [intros v Hv;
           first [ match goal with
                   | E : book_data !! ?k = Some ?w |- _ =>
                     rewrite E in Hv; apply (inj Some) in Hv; subst v; assumption
                   end
                 | eapply (bind_get _ _ _ _ Hv); eassumption ]|]).
  constructor.
Qed.

(** The insert succeeds when the keys are there, the title is not [None],
    the values can be bound and an id is left. *)
Lemma add_book_body_when (book_data : gmap string pyval) (d : db) :
  Forall (fun k => is_Some (book_data !! k))
    ["isbn"; "title"; "author"; "publisher"; "rating"; "status"; "memo";
     "added_date"]%string ->
  book_data !! "title"%string <> Some PNone ->
  Forall (fun k => forall v, book_data !! k = Some v -> bind v = Return ())
    ["isbn"; "title"; "author"; "publisher"; "publication_year"; "subject";
     "loan_count"; "cover_url"; "rating"; "status"; "memo"; "tags"; "pages";
     "added_date"]%string ->
  int64 (last_id d + 1) = true ->
  exists d', add_book_body text_to_integer book_data d = Return d'.
Proof.
  intros Hk Ht Hb Hi. unfold add_book_body, getitem.
  repeat match goal with
         | H : Forall (fun k => is_Some _) (_ :: _) |- _ =>
           let v := fresh "v" in let Hv := fresh "Hv" in
           apply Forall_cons in H as [[v Hv] H]; rewrite Hv
         end.
  run.
  repeat match goal with
         | H : Forall (fun k => forall v, _) (_ :: _) |- _ =>
           let Hb := fresh "Hb" in apply Forall_cons in H as [Hb H]
         end.
  match goal with
  | |- context [bind_all ?l] =>
    destruct (bind_all_cases l) as [[-> _] | (e & _ & HE)]
  end.
  - run. unfold insert_book, next_id. cbn [title last_id]. rewrite Hi. run.
    destruct v0 as [|n|s]; cbn [to_text]; [congruence|eauto|eauto].
  - exfalso.
    repeat match goal with
           | H : Exists _ (_ :: _) |- _ => apply Exists_cons in H as [H | H]
           | H : Exists _ [] |- _ => now apply Exists_nil in H
           end;
      apply HE; first [ now auto | apply bind_get_default; [reflexivity | assumption] ].
Qed.

(** C10: when [add_book_to_db] succeeds, the table has one more row, whose
    [added_date] is the value of [book_data['added_date']] and whose
    [updated_date] is the same value. *)
Theorem add_book_sets_updated_date :
  forall (book_data : gmap string Db.pyval) (d d' : Db.db),
    Db.add_book_to_db text_to_integer book_data d = (d', true) ->
    exists r v,
      Db.rows d' = Db.rows d ++ [r]
      /\ book_data !! "added_date"%string = Some v
      /\ Db.added_date r = Db.to_text v
      /\ Db.updated_date r = Db.added_date r.
Proof.
  intros book_data d d'. unfold Db.add_book_to_db.
  destruct (add_book_body text_to_integer book_data d) as [d1|e] eqn:E;
    [|discriminate].
  intros [= <-].
  apply add_book_body_success in E as (r & v & -> & _ & Hv & Ha & Hu & _).
  exists r, v. cbn [rows]. rewrite Hu, Ha. auto.
Qed.

End Add_book_facts.

Lemma add_book_sets_updated_date_witness :
  let d' := (Db.add_book_to_db (fun s => Db.Text s)
               (Db.form_book (lit "2024-01-31 10:30"))
               {| Db.rows := []; Db.last_id := 0 |}).1 in
  exists r v,
    Db.rows d' = [] ++ [r]
    /\ Db.form_book (lit "2024-01-31 10:30") !! "added_date"%string = Some v
    /\ Db.added_date r = Db.to_text v
    /\ Db.updated_date r = Db.added_date r.
Proof.
  apply (add_book_sets_updated_date (fun s => Db.Text s)
           (Db.form_book (lit "2024-01-31 10:30"))
           {| Db.rows := []; Db.last_id := 0 |}).
  vm_compute. reflexivity.
Defined.

(* ===================================================================== *)
(** ** Further properties of [validate_and_format_isbn] *)
(* ===================================================================== *)

Section Isbn_more.

Import Notions.

Local Ltac run := cbn [mbind outcome_bind of_option].

Lemma len_eqb_length (s : str) (n : nat) :
  (len s =? Z.of_nat n) = (length s =? n)%nat.
Proof.
  unfold len. destruct (Nat.eqb_spec (length s) n) as [->|Hne].
  - apply Z.eqb_refl.
  - apply Z.eqb_neq. lia.
Qed.

(** The loop returns only on a string of digits. *)
Lemma checksum_loop_returns s z :
  checksum_loop 0 0 s = Return z ->
  forallb is_digit s = true /\ z = spec_weighted_sum 1 3 (digit_values s).
Proof.
  intros H. destruct (forallb is_digit s) eqn:E.
  - rewrite (checksum_loop_spec _ E) in H. now injection H as <-.
  - rewrite (checksum_loop_raises _ _ _ E) in H. discriminate.
Qed.

Lemma is_isbn13_intro (s : str) :
  length s = 13%nat -> forallb is_digit s = true ->
  last_char s = Some (digit_char (spec_check_digit (but_last s))) ->
  is_isbn13 s = true.
Proof.
  intros Hl Hd Hc. unfold is_isbn13. rewrite Hl, Hd. simpl.
  now apply bool_decide_eq_true_2.
Qed.

Lemma is_isbn13_elim (s : str) :
  is_isbn13 s = true ->
  length s = 13%nat /\ forallb is_digit s = true
  /\ last_char s = Some (digit_char (spec_check_digit (but_last s))).
Proof.
  unfold is_isbn13. rewrite !andb_true_iff, Nat.eqb_eq.
  intros [[Hl Hd] Hc]. apply bool_decide_eq_true_1 in Hc. auto.
Qed.

(** A canonical identifier is accepted as it is. *)
Lemma canonical_accepted (s : str) :
  is_isbn13 s = true ->
  validate_and_format_isbn s =
    Return {| valid := true; isbn13 := Some s; message := msg_valid |}.
Proof.
  intros (Hl & Hd & Hc)%is_isbn13_elim.
  unfold validate_and_format_isbn. rewrite (keep_isbn_chars_digits _ Hd).
  unfold len. rewrite Hl.
  change (Z.of_nat 13 =? 10) with false. change (Z.of_nat 13 =? 13) with true.
  cbv iota. rewrite (check_isbn13_digits _ Hd _ Hc). cbv zeta.
  pose proof (check_digit_range (but_last s)) as Hr.
  replace (Z.of_N (digit_char (spec_check_digit (but_last s))) - 0x30)
    with (spec_check_digit (but_last s)) by (unfold digit_char; lia).
  now rewrite Z.eqb_refl.
Qed.

Lemma forallb_digit_last (s : str) c :
  forallb is_digit (but_last s) = true -> last_char s = Some c ->
  is_digit c = true -> forallb is_digit s = true.
Proof.
  intros Hb Hl Hc. rewrite (but_last_last _ _ Hl), forallb_app, Hb. simpl.
  now rewrite Hc.
Qed.

Lemma sound_and_stable (s : str) :
  is_isbn13 s = true ->
  is_isbn13 s = true
  /\ validate_and_format_isbn s =
       Return {| valid := true; isbn13 := Some s; message := msg_valid |}.
Proof. intros H. split; [exact H | now apply canonical_accepted]. Qed.

(** X1: whatever the input, an outcome flagged valid carries a canonical
    identifier (13 digits, the last one the check digit of the others),
    which the function accepts again as it is; an outcome flagged invalid
    carries no identifier. *)
Theorem validate_result_sound :
  forall (raw : str) (r : isbn_result),
    validate_and_format_isbn raw = Return r ->
    if valid r
    then exists s,
           isbn13 r = Some s /\ is_isbn13 s = true
           /\ validate_and_format_isbn s =
                Return {| valid := true; isbn13 := Some s; message := msg_valid |}
    else isbn13 r = None.
Proof.
  intros raw r. unfold validate_and_format_isbn.
  set (isbn := keep_isbn_chars (upper raw)).
  change (len isbn =? 10) with (len isbn =? Z.of_nat 10).
  change (len isbn =? 13) with (len isbn =? Z.of_nat 13).
  rewrite (len_eqb_length isbn 10), (len_eqb_length isbn 13).
  destruct (Nat.eqb_spec (length isbn) 10) as [H10|_].
  - unfold but_last. rewrite H10. change (10 - 1)%nat with 9%nat.
    destruct (checksum_loop 0 0 (lit "978" ++ take 9 isbn)) as [z|e] eqn:E;
      run; [|discriminate].
    apply checksum_loop_returns in E as [Hd ->].
    intros <-%Return_inj. cbn [valid isbn13].
    fold (spec_check_digit (lit "978" ++ take 9 isbn)).
    rewrite (str_of_Z_digit _ (check_digit_range _)).
    eexists. split; [reflexivity|].
    apply sound_and_stable, is_isbn13_intro.
    + rewrite !length_app, length_take, H10. reflexivity.
    + rewrite forallb_app, Hd. cbn [forallb andb].
      rewrite andb_true_r. apply is_digit_bounds.
      pose proof (check_digit_range (lit "978" ++ take 9 isbn)).
      unfold digit_char. lia.
    + now rewrite last_char_snoc, but_last_snoc.
  - destruct (Nat.eqb_spec (length isbn) 13) as [H13|_].
    + unfold check_isbn13.
      destruct (checksum_loop 0 0 (but_last isbn)) as [z|e] eqn:E; run.
      * apply checksum_loop_returns in E as [Hd ->].
        destruct (last_char isbn) as [c|] eqn:Hc; run;
          [|intros <-%Return_inj; reflexivity].
        unfold int_char. destruct (is_digit c) eqn:Hdc; run;
          [|intros <-%Return_inj; reflexivity].
        fold (spec_check_digit (but_last isbn)).
        destruct (spec_check_digit (but_last isbn) =? Z.of_N c - 48) eqn:Eq;
          intros <-%Return_inj; cbn [valid isbn13]; [|reflexivity].
        apply Z.eqb_eq in Eq. exists isbn. split; [reflexivity|].
        apply sound_and_stable, is_isbn13_intro; [exact H13 | now apply forallb_digit_last with c |].
        rewrite Hc. f_equal. apply is_digit_bounds in Hdc.
        unfold digit_char. lia.
      * destruct e; intros H;
          first [discriminate | apply Return_inj in H; subst r; reflexivity].
    + intros <-%Return_inj. reflexivity.
Qed.

Lemma validate_result_sound_witness :
  exists s,
    Some (lit "9780306406157") = Some s /\ is_isbn13 s = true
    /\ validate_and_format_isbn s =
         Return {| valid := true; isbn13 := Some s; message := msg_valid |}.
Proof.
  exact (validate_result_sound (lit "0-306-40615-2")
           {| valid := true; isbn13 := Some (lit "9780306406157");
              message := msg_converted ++ lit "9780306406157" |} eq_refl).
Defined.

(** The weighted sum after one digit is replaced. *)
Lemma weighted_sum_insert (ds : list Z) : forall (i : nat) (d d' w w' : Z),
  ds !! i = Some d ->
  spec_weighted_sum w w' (<[i:=d']> ds)
    = spec_weighted_sum w w' ds + (if Nat.even i then w else w') * (d' - d).
Proof.
  induction ds as [|x ds IH]; intros [|i] d d' w w' H; try discriminate.
  - injection H as ->. simpl. ring.
  - change (<[S i:=d']> (x :: ds)) with (x :: <[i:=d']> ds).
    cbn [spec_weighted_sum]. rewrite (IH i d d' w' w H).
    rewrite Nat.even_succ, <- Nat.negb_even.
    destruct (Nat.even i); simpl; ring.
Qed.

Lemma digit_values_insert (s : str) (i : nat) (x : N) :
  digit_values (<[i:=x]> s) = <[i:=Z.of_N x - 0x30]> (digit_values s).
Proof.
  revert i. induction s as [|c s IH]; intros [|i]; try reflexivity.
  change (<[S i:=x]> (c :: s)) with (c :: <[i:=x]> s).
  unfold digit_values in *. cbn [map]. now rewrite IH.
Qed.

Lemma digit_values_lookup (s : str) (i : nat) (c : N) :
  s !! i = Some c -> digit_values s !! i = Some (Z.of_N c - 0x30).
Proof.
  revert i. induction s as [|y s IH]; intros [|i] H; try discriminate.
  - now injection H as ->.
  - apply (IH i H).
Qed.

Lemma forallb_insert {A} (p : A -> bool) (l : list A) (i : nat) (x : A) :
  forallb p l = true -> p x = true -> forallb p (<[i:=x]> l) = true.
Proof.
  revert i. induction l as [|y l IH]; intros [|i] Hl Hx; try reflexivity;
    simpl in Hl; apply andb_true_iff in Hl as [Hy Hl].
  - simpl. now rewrite Hx.
  - change (<[S i:=x]> (y :: l)) with (y :: <[i:=x]> l). simpl.
    rewrite Hy. now apply IH.
Qed.

Lemma forallb_lookup {A} (p : A -> bool) (l : list A) (i : nat) (x : A) :
  forallb p l = true -> l !! i = Some x -> p x = true.
Proof.
  revert i. induction l as [|y l IH]; intros [|i] Hl Hx; try discriminate;
    simpl in Hl; apply andb_true_iff in Hl as [Hy Hl].
  - now injection Hx as <-.
  - now apply (IH i).
Qed.

(** Two sums with the same check digit agree modulo 10. *)
Lemma check_digit_inj (a b : Z) :
  (10 - a mod 10) mod 10 = (10 - b mod 10) mod 10 -> a mod 10 = b mod 10.
Proof.
  pose proof (Z.mod_pos_bound a 10 ltac:(lia)) as Ha.
  pose proof (Z.mod_pos_bound b 10 ltac:(lia)) as Hb.
  destruct (Z.eq_dec (a mod 10) 0) as [Ea|Ea], (Z.eq_dec (b mod 10) 0) as [Eb|Eb].
  - lia.
  - rewrite Ea, (Z.mod_small (10 - b mod 10)) by lia.
    change ((10 - 0) mod 10) with 0. lia.
  - rewrite Eb, (Z.mod_small (10 - a mod 10)) by lia.
    change ((10 - 0) mod 10) with 0. lia.
  - rewrite (Z.mod_small (10 - a mod 10)), (Z.mod_small (10 - b mod 10)) by lia.
    lia.
Qed.

(** Weights 1 and 3 have no common factor with 10: the change of one
    digit changes the sum modulo 10. *)
Lemma weighted_change_visible (a w k : Z) :
  w = 1 \/ w = 3 -> -9 <= k <= 9 -> k <> 0 ->
  (a + w * k) mod 10 <> a mod 10.
Proof.
  intros Hw Hk Hk0 E.
  assert (H : (w * k) mod 10 = 0).
  { replace (w * k) with ((a + w * k) - a) by ring.
    rewrite Zminus_mod, E, Z.sub_diag. reflexivity. }
  apply Z.mod_divide in H; [|lia]. destruct H as [q Hq].
  destruct Hw as [-> | ->]; lia.
Qed.

(** X2: replacing any one digit of a canonical identifier by another
    digit gives an identifier the function rejects with the check-sum
    message. *)
Theorem single_digit_error_detected :
  forall (s : str) (i : nat) (x x' : N),
    is_isbn13 s = true ->
    s !! i = Some x ->
    is_digit x' = true ->
    x' <> x ->
    exists e a,
      e <> a
      /\ validate_and_format_isbn (<[i:=x']> s) =
           Return {| valid := false; isbn13 := None; message := msg_checksum e a |}.
Proof.
  intros s i x x' (Hl & Hd & Hc)%is_isbn13_elim Hi Hx' Hne.
  assert (Hi13 : (i < 13)%nat) by (rewrite <- Hl; now apply lookup_lt_Some with x).
  assert (Hx : is_digit x = true) by now apply (forallb_lookup _ _ _ _ Hd Hi).
  set (s' := <[i:=x']> s).
  assert (Hl' : length s' = 13%nat) by (unfold s'; now rewrite length_insert).
  assert (Hd' : forallb is_digit s' = true) by now apply forallb_insert.
  pose proof (check_digit_range (but_last s)) as Hr.
  apply is_digit_bounds in Hx, Hx'.
  assert (Hrun : forall c', last_char s' = Some c' ->
            spec_check_digit (but_last s') <> Z.of_N c' - 0x30 ->
            exists e a, e <> a /\ validate_and_format_isbn s' =
              Return {| valid := false; isbn13 := None; message := msg_checksum e a |}).
  { intros c' Hc' Hdiff. unfold validate_and_format_isbn.
    rewrite (keep_isbn_chars_digits _ Hd'). unfold len. rewrite Hl'.
    change (Z.of_nat 13 =? 10) with false. change (Z.of_nat 13 =? 13) with true.
    cbv iota. rewrite (check_isbn13_digits _ Hd' _ Hc'). cbv zeta.
    apply Z.eqb_neq in Hdiff. rewrite Hdiff. apply Z.eqb_neq in Hdiff. eauto. }
  unfold last_char in *. rewrite last_lookup, Hl in Hc. cbn [pred] in Hc.
  destruct (decide (i = 12%nat)) as [->|Hi12].
  - (* the check digit itself is replaced *)
    apply (Hrun x').
    + rewrite last_lookup, Hl'. cbn [pred]. unfold s'.
      apply list_lookup_insert_eq. lia.
    + unfold s', but_last. rewrite length_insert, Hl.
      rewrite take_insert_ge by lia. fold (but_last s) in Hr.
      unfold but_last in Hr, Hc. rewrite Hl in Hr, Hc.
      set (cd := spec_check_digit (take (13 - 1) s)) in *.
      assert (Hxv : x = digit_char cd) by congruence.
      unfold digit_char in Hxv. lia.
  - (* one of the first twelve digits is replaced *)
    apply (Hrun (digit_char (spec_check_digit (but_last s)))).
    + rewrite last_lookup, Hl'. cbn [pred]. unfold s'.
      rewrite list_lookup_insert_ne by exact Hi12. exact Hc.
    + unfold s', but_last in *. rewrite length_insert, Hl in *.
      rewrite take_insert_lt by lia.
      unfold spec_check_digit in *. rewrite digit_values_insert.
      assert (Hv : digit_values (take (13 - 1) s) !! i = Some (Z.of_N x - 0x30)).
      { apply digit_values_lookup. rewrite lookup_take_lt by lia. exact Hi. }
      rewrite (weighted_sum_insert _ _ _ _ _ _ Hv).
      set (W := spec_weighted_sum 1 3 (digit_values (take (13 - 1) s))) in *.
      set (w := if Nat.even i then 1 else 3).
      unfold digit_char. rewrite Z2N.id by lia.
      replace ((10 - W mod 10) mod 10 + 48 - 48) with ((10 - W mod 10) mod 10) by lia.
      intros E. apply check_digit_inj in E. revert E.
      apply weighted_change_visible; [unfold w; destruct (Nat.even i); auto | lia | lia].
Qed.

Lemma single_digit_error_detected_witness :
  exists e a,
    e <> a
    /\ validate_and_format_isbn (<[4%nat:=0x31%N]> (lit "9788936434267")) =
         Return {| valid := false; isbn13 := None; message := msg_checksum e a |}.
Proof.
  apply (single_digit_error_detected (lit "9788936434267") 4 0x39%N 0x31%N);
    try (vm_compute; reflexivity).
  vm_compute. discriminate.
Defined.

(** X3: the check character of a 10-character input is never looked at:
    two inputs whose cleaned forms have 10 characters and the same first
    nine give the same outcome. *)
Theorem isbn10_check_character_ignored :
  forall raw1 raw2 : str,
    let isbn1 := keep_isbn_chars (upper raw1) in
    let isbn2 := keep_isbn_chars (upper raw2) in
    length isbn1 = 10%nat ->
    length isbn2 = 10%nat ->
    take 9 isbn1 = take 9 isbn2 ->
    validate_and_format_isbn raw1 = validate_and_format_isbn raw2.
Proof.
  intros raw1 raw2 isbn1 isbn2 H1 H2 E.
  unfold validate_and_format_isbn. fold isbn1 isbn2.
  unfold len, but_last. rewrite H1, H2.
  change (10 - 1)%nat with 9%nat. now rewrite E.
Qed.

Lemma isbn10_check_character_ignored_witness :
  validate_and_format_isbn (lit "0-306-40615-2")
    = validate_and_format_isbn (lit "030640615x").
Proof.
  apply (isbn10_check_character_ignored (lit "0-306-40615-2") (lit "030640615x"));
    reflexivity.
Defined.

(** X4: a cleaned input of 13 characters that holds the letter X is
    answered with the format error: the exception of [int] is caught in
    this branch. *)
Theorem isbn13_with_X_format_error :
  forall raw : str,
    let isbn := keep_isbn_chars (upper raw) in
    length isbn = 13%nat ->
    forallb is_digit isbn = false ->
    validate_and_format_isbn raw =
      Return {| valid := false; isbn13 := None; message := msg_format |}.
Proof.
  intros raw isbn Hl Hd. unfold validate_and_format_isbn. fold isbn.
  unfold len. rewrite Hl.
  change (Z.of_nat 13 =? 10) with false. change (Z.of_nat 13 =? 13) with true.
  cbv iota. unfold check_isbn13.
  destruct (forallb is_digit (but_last isbn)) eqn:Hb.
  - rewrite (checksum_loop_spec _ Hb). run.
    destruct (last_char isbn) as [c|] eqn:Hc; run; [|reflexivity].
    unfold int_char. destruct (is_digit c) eqn:Hdc; run; [|reflexivity].
    rewrite (forallb_digit_last _ _ Hb Hc Hdc) in Hd. discriminate.
  - rewrite (checksum_loop_raises _ _ _ Hb). reflexivity.
Qed.

Lemma isbn13_with_X_format_error_witness :
  validate_and_format_isbn (lit "978-89-364-3426-x") =
    Return {| valid := false; isbn13 := None; message := msg_format |}.
Proof.
  apply (isbn13_with_X_format_error (lit "978-89-364-3426-x")); reflexivity.
Defined.

End Isbn_more.

(* ===================================================================== *)
(** ** Further properties of the author clean-up *)
(* ===================================================================== *)

Section Author_more.

Lemma sub_go_sublist r (s : str) : forall skip, sub_go r skip s `sublist_of` s.
Proof.
  induction s as [|c s IH]; intros skip; cbn [sub_go]; [constructor|].
  destruct skip as [|n]; [|apply sublist_cons, IH].
  destruct (match_at r (c :: s)) as [[|n]|];
    first [apply sublist_skip, IH | apply sublist_cons, IH].
Qed.

Lemma lstrip_sublist p (s : str) : lstrip p s `sublist_of` s.
Proof.
  destruct (lstrip_suffix p s) as [pre E]. rewrite E at 2.
  now apply sublist_inserts_l.
Qed.

Lemma rstrip_sublist p (s : str) : rstrip p s `sublist_of` s.
Proof.
  destruct (rstrip_prefix p s) as [post E]. rewrite E at 2.
  now apply sublist_inserts_r.
Qed.

Lemma strip_sublist p (s : str) : strip p s `sublist_of` s.
Proof.
  unfold strip. transitivity (lstrip p s);
    [apply rstrip_sublist | apply lstrip_sublist].
Qed.

(** Neither end of a stripped string is in the set. *)
Lemma strip_ends p (s : str) (c : N) :
  head (strip p s) = Some c \/ last (strip p s) = Some c -> p c = false.
Proof.
  unfold strip. intros [H | H].
  - pose proof (rstrip_keeps_head p (lstrip p s) (lstrip_head p s)) as Hh.
    destruct (rstrip p (lstrip p s)); [discriminate|].
    now injection H as <-.
  - unfold rstrip in H.
    pose proof (lstrip_head p (rev (lstrip p s))) as Hh.
    destruct (lstrip p (rev (lstrip p s))) as [|y t]; [discriminate|].
    change (rev (y :: t)) with (rev t ++ [y]) in H.
    rewrite last_snoc in H. now injection H as <-.
Qed.

(** X5: the function only deletes: its result is the input with some
    characters left out, in the same order, so it is never longer than
    the input and holds no character the input does not hold. *)
Theorem clean_author_name_only_deletes :
  forall s : str,
    clean_author_name s `sublist_of` s
    /\ (length (clean_author_name s) <= length s)%nat.
Proof.
  intros s.
  assert (H : clean_author_name s `sublist_of` s).
  { unfold clean_author_name. destruct s as [|c s]; [constructor|].
    transitivity (re_sub role_re (re_sub bracket_re (c :: s)));
      [apply strip_sublist|].
    transitivity (re_sub bracket_re (c :: s)); apply sub_go_sublist. }
  split; [exact H | now apply sublist_length].
Qed.

(** X6: the result never begins or ends with a space, a comma or a
    semicolon. *)
Theorem clean_author_name_trimmed :
  forall (s : str) (c : N),
    head (clean_author_name s) = Some c \/ last (clean_author_name s) = Some c ->
    is_trim_char c = false.
Proof.
  intros s c. unfold clean_author_name. destruct s as [|x s].
  - intros [H | H]; discriminate.
  - apply strip_ends.
Qed.

Lemma clean_author_name_trimmed_witness :
  is_trim_char 0xC601%N = false.
Proof.
  apply (clean_author_name_trimmed (lit " ; 김영하 ; 박상영, 옮긴이 ") 0xC601%N).
  right. vm_compute. reflexivity.
Defined.

Lemma replace_semicolons_none (s : str) :
  Forall (fun c => c <> 0x3B%N) (Lookup.replace_semicolons s).
Proof.
  unfold Lookup.replace_semicolons.
  induction s as [|c s IH]; cbn [flat_map]; [constructor|].
  apply Forall_app. split; [|exact IH].
  destruct (N.eqb_spec c 0x3B) as [->|Hc].
  - repeat constructor; discriminate.
  - repeat constructor. exact Hc.
Qed.

Lemma Forall_of_sublist {A} (P : A -> Prop) (l k : list A) :
  l `sublist_of` k -> Forall P k -> Forall P l.
Proof.
  intros Hs Hk. apply Forall_forall. intros x Hx.
  rewrite Forall_forall in Hk. apply Hk.
  now apply elem_of_sublist with l.
Qed.

(** X7: the author text that [get_book_metadata] returns is never empty,
    never holds a semicolon (each one became a comma and a space before
    the clean-up) and has no space or comma at its ends. *)
Theorem format_authors_shape :
  forall authors_raw : option str,
    Lookup.format_authors authors_raw <> []
    /\ Forall (fun c => c <> 0x3B%N) (Lookup.format_authors authors_raw)
    /\ (forall c,
          head (Lookup.format_authors authors_raw) = Some c
          \/ last (Lookup.format_authors authors_raw) = Some c ->
          is_trim_char c = false).
Proof.
  intros authors_raw.
  assert (Hinfo : Lookup.no_info <> []
                  /\ Forall (fun c => c <> 0x3B%N) Lookup.no_info
                  /\ forall c, head Lookup.no_info = Some c
                               \/ last Lookup.no_info = Some c ->
                               is_trim_char c = false).
  { split; [discriminate|]. split.
    - vm_compute. repeat constructor; discriminate.
    - intros c [H | H]; vm_compute in H; injection H as <-; reflexivity. }
  unfold Lookup.format_authors.
  destruct authors_raw as [[|x raw]|]; try exact Hinfo.
  cbv beta iota zeta.
  set (t := strip is_trim_char
              (re_sub Lookup.role_re_lookup
                 (re_sub bracket_re (Lookup.replace_semicolons (x :: raw))))).
  assert (Ht : t `sublist_of` Lookup.replace_semicolons (x :: raw)).
  { unfold t.
    transitivity (re_sub Lookup.role_re_lookup
                    (re_sub bracket_re (Lookup.replace_semicolons (x :: raw))));
      [apply strip_sublist|].
    transitivity (re_sub bracket_re (Lookup.replace_semicolons (x :: raw)));
      apply sub_go_sublist. }
  pose proof (strip_ends is_trim_char
                (re_sub Lookup.role_re_lookup
                   (re_sub bracket_re (Lookup.replace_semicolons (x :: raw)))))
    as He. fold t in He.
  destruct t as [|y t'] eqn:Et; [exact Hinfo|].
  split; [discriminate|]. split; [|exact He].
  apply (Forall_of_sublist _ _ _ Ht), replace_semicolons_none.
Qed.

Lemma format_authors_shape_witness :
  Lookup.format_authors (Some (lit "손원평 [지은이];한강 글")) = lit "손원평, 한강"
  /\ is_trim_char 0xAC15%N = false.
Proof.
  split; [vm_compute; reflexivity|].
  apply (proj2 (proj2 (format_authors_shape (Some (lit "손원평 [지은이];한강 글"))))
           0xAC15%N).
  right. vm_compute. reflexivity.
Defined.

End Author_more.

(* ===================================================================== *)
(** ** Repeated cleaning: [clean_author_name] applied to its own result *)
(* ===================================================================== *)

Section Engine_facts.

Lemma starts_with_app (w s : str) : starts_with w (w ++ s) = true.
Proof. induction w as [|x w IH]; cbn; [reflexivity|]. now rewrite N.eqb_refl. Qed.





(** A greedy star steps over nothing at a character outside the class. *)
Lemma star_greedy_skip cls k c (s : str) :
  cls c = false -> star_greedy cls k (c :: s) = k (c :: s).
Proof. intros H. cbn [star_greedy]. now rewrite H. Qed.

(** A greedy star at the end of a pattern always matches. *)
Lemma star_greedy_last cls (s : str) :
  exists n, star_greedy cls (fun _ => Some 0%nat) s = Some n.
Proof.
  induction s as [|c s [n IH]]; cbn [star_greedy]; [eauto|].
  rewrite IH. destruct (cls c); eauto.
Qed.

End Engine_facts.

Section Role_facts.

Import Notions.



(** The literals of the pattern, as code points. *)
Lemma syl_values :
  syl "지" = 0xC9C0%N /\ syl "은" = 0xC740%N /\ syl "이" = 0xC774%N
  /\ syl "옮" = 0xC62E%N /\ syl "긴" = 0xAE34%N /\ syl "글" = 0xAE00%N
  /\ syl "저" = 0xC800%N /\ syl "역" = 0xC5ED%N /\ syl "편" = 0xD3B8%N
  /\ syl "감" = 0xAC10%N /\ syl "수" = 0xC218%N.
Proof. vm_compute. repeat split. Qed.

Lemma role_alt_value :
  role_alt =
  Alt (Lit [0xC9C0; 0xC740; 0xC774]%N) (Alt (Lit [0xC62E; 0xAE34; 0xC774]%N)
    (Alt (Lit [0xAE00]%N) (Alt (Lit [0xC800]%N) (Alt (Lit [0xC5ED]%N)
      (Alt (Lit [0xD3B8; 0xC800]%N) (Lit [0xAC10; 0xC218]%N)))))).
Proof. vm_compute. reflexivity. Qed.

Local Ltac role_alt_compute :=
  rewrite role_alt_value;
  cbn [re_match starts_with N.eqb Pos.eqb andb length drop];
  rewrite ?drop_0.

(** The alternation at a role word of one syllable, at 감수, at 지은이 and
    at 옮긴이. *)
Lemma role_alt_single c (s : str) k :
  is_single_role c = true -> re_match role_alt (c :: s) k = S <$> k s.
Proof.
  unfold is_single_role. destruct syl_values as (_ & _ & _ & _ & _ & -> & -> & -> & _).
  rewrite !orb_true_iff, !N.eqb_eq. intros [[-> | ->] | ->];
    role_alt_compute; now destruct (k s).
Qed.




(** Where the alternation matches a word that begins the text, the
    pattern matches there: at least one character. *)
Lemma role_re_matches (c : N) (s : str) (f : nat -> nat) (rest : str) :
  is_space c = false ->
  (forall k, re_match role_alt (c :: s) k = f <$> k rest) ->
  (forall n, exists m, f n = S m) ->
  exists n, match_at role_re (c :: s) = Some (S n).
Proof.
  intros Hc Halt Hf. unfold match_at, role_re. cbn [re_match].
  rewrite star_greedy_skip by exact Hc. rewrite Halt.
  destruct (star_greedy_last is_space rest) as [n ->]. cbn.
  destruct (Hf n) as [m ->]. eauto.
Qed.

End Role_facts.

Section Words_facts.

Import Notions.



(** Where the text does not begin with 은 or 긴, the character before it
    does not matter. *)
Lemma in_words_free p p' (s : str) :
  next_is (syl "은") s = false -> next_is (syl "긴") s = false ->
  in_words p s = in_words p' s.
Proof.
  destruct s as [|c r]; [reflexivity|]. cbn [next_is in_words].
  now intros -> ->.
Qed.






End Words_facts.

Section Role_removal.

Import Notions.



(** Whatever the text, no 글, 저 or 역 is left. *)
Lemma role_sub_no_single (s : str) : forall skip,
  Forall (fun c => is_single_role c = false) (sub_go role_re skip s).
Proof.
  induction s as [|c s IH]; intros skip; [constructor|].
  destruct skip as [|k]; [|exact (IH k)]. cbn [sub_go].
  assert (Hemit : (forall n, match_at role_re (c :: s) <> Some (S n)) ->
            Forall (fun c => is_single_role c = false) (c :: sub_go role_re 0 s)).
  { intros Hno. constructor; [|apply IH].
    destruct (is_single_role c) eqn:Ec; [|reflexivity]. exfalso.
    destruct (role_re_matches c s S s) as [n Hn].
    - unfold is_single_role in Ec. rewrite !orb_true_iff, !N.eqb_eq in Ec.
      destruct Ec as [[-> | ->] | ->]; reflexivity.
    - intros k. now apply role_alt_single.
    - eauto.
    - exact (Hno n Hn). }
  destruct (match_at role_re (c :: s)) as [[|n]|];
    [apply Hemit; congruence | apply IH | apply Hemit; congruence].
Qed.

End Role_removal.

Section Bracket_removal.

Import Notions.









End Bracket_removal.

Section Second_pass.

Import Notions.









End Second_pass.

Section Author_passes.

Import Notions.




(** C5 (the code departs from the claim): the pattern has no test for
    the limits of a word, so a role word is removed inside a name as
    well: ["로저 젤라즈니"] becomes ["로젤라즈니"] and ["이저벨"], one word
    without blank, separator or bracket and no role word itself, becomes
    ["이벨"]; whatever the input, no 글, 저 or 역 is left in the result. *)
Theorem role_word_inside_word_removed :
  clean_author_name (lit "로저 젤라즈니") = lit "로젤라즈니"
  /\ clean_author_name (lit "이저벨") = lit "이벨"
  /\ existsb is_space (lit "이저벨") = false
  /\ existsb is_trim_char (lit "이저벨") = false
  /\ existsb (str_eqb (lit "이저벨")) role_words = false
  /\ re_search bracket_re (lit "이저벨") = false
  /\ clean_author_name (lit "이저벨") <> strip is_trim_char (lit "이저벨")
  /\ (forall s : str,
        Forall (fun c => is_single_role c = false) (clean_author_name s)).
Proof.
  do 6 (split; [vm_compute; reflexivity|]).
  split; [vm_compute; discriminate|].
  intros s. unfold clean_author_name. destruct s as [|c s]; [constructor|].
  eapply Forall_of_sublist; [apply strip_sublist | apply role_sub_no_single].
Qed.

End Author_passes.

(* ===================================================================== *)
(** ** Properties of the tags *)
(* ===================================================================== *)

Section Tags_facts.

Import Tags.

Lemma comma_free_existsb (t : str) :
  existsb (fun c => (c =? 0x2C)%N) t = false <-> comma_free t.
Proof.
  unfold comma_free. induction t as [|c t IH]; simpl.
  - split; [constructor | reflexivity].
  - rewrite orb_false_iff, IH, N.eqb_neq. split.
    + intros [? ?]. now constructor.
    + intros H. inversion H. now split.
Qed.

Lemma tag_ok_spec (t : str) :
  tag_ok t = true <-> comma_free t /\ strip_ws t = t.
Proof.
  unfold tag_ok, str_eqb. rewrite andb_true_iff, negb_true_iff, comma_free_existsb.
  now rewrite bool_decide_eq_true.
Qed.

(** [split] cuts at the first comma. *)
Lemma split_comma_app (a r : str) :
  comma_free a -> split_comma (a ++ 0x2C%N :: r) = a :: split_comma r.
Proof.
  intros Ha. induction Ha as [|c a Hc Ha IH]; cbn [app split_comma].
  - reflexivity.
  - apply N.eqb_neq in Hc. rewrite Hc, IH. reflexivity.
Qed.

Lemma split_comma_whole (a : str) : comma_free a -> split_comma a = [a].
Proof.
  intros Ha. induction Ha as [|c a Hc Ha IH]; cbn [split_comma].
  - reflexivity.
  - apply N.eqb_neq in Hc. rewrite Hc, IH. reflexivity.
Qed.

Lemma split_comma_pieces (s : str) : Forall comma_free (split_comma s).
Proof.
  induction s as [|c s IH]; cbn [split_comma].
  - repeat constructor.
  - destruct (N.eqb_spec c 0x2C) as [->|Hc].
    + constructor; [constructor | exact IH].
    + destruct (split_comma s) as [|w ws]; [repeat constructor; exact Hc|].
      inversion IH; subst. constructor; [now constructor | assumption].
Qed.

Lemma lstrip_app_all p (pre x : str) :
  forallb p pre = true -> lstrip p (pre ++ x) = lstrip p x.
Proof.
  induction pre as [|c pre IH]; simpl; [reflexivity|].
  intros [Hc Hp]%andb_true_iff. rewrite Hc. now apply IH.
Qed.

Lemma strip_ws_after_spaces (pre x : str) :
  forallb is_space pre = true -> strip_ws (pre ++ x) = strip_ws x.
Proof. intros H. unfold strip_ws, strip. now rewrite lstrip_app_all. Qed.

Lemma spaces_comma_free (pre : str) : forallb is_space pre = true -> comma_free pre.
Proof.
  unfold comma_free. induction pre as [|c pre IH]; simpl; [constructor|].
  intros [Hc Hp]%andb_true_iff. constructor; [|now apply IH].
  intros ->. discriminate.
Qed.

(** Splitting the joined text and trimming the pieces gives the tags
    back, also behind leading blanks. *)
Lemma split_join (l : list str) : forall pre : str,
  l <> [] ->
  Forall (fun t => tag_ok t = true) l ->
  forallb is_space pre = true ->
  map strip_ws (split_comma (pre ++ join_tags l)) = l.
Proof.
  induction l as [|x l IH]; intros pre Hne Hok Hpre; [contradiction|].
  inversion Hok as [|? ? Hx Hl]; subst.
  apply tag_ok_spec in Hx as [Hcf Hst].
  destruct l as [|y l].
  - cbn [join_tags]. rewrite split_comma_whole.
    + cbn [map]. now rewrite strip_ws_after_spaces, Hst.
    + apply Forall_app. split; [now apply spaces_comma_free | exact Hcf].
  - change (join_tags (x :: y :: l)) with (x ++ lit ", " ++ join_tags (y :: l)).
    change (lit ", ") with [0x2C; 0x20]%N.
    replace (pre ++ x ++ [0x2C; 0x20]%N ++ join_tags (y :: l))
      with ((pre ++ x) ++ 0x2C%N :: ([0x20%N] ++ join_tags (y :: l)))
      by now rewrite <- app_assoc.
    rewrite split_comma_app
      by (apply Forall_app; split; [now apply spaces_comma_free | exact Hcf]).
    cbn [map]. rewrite strip_ws_after_spaces, Hst by exact Hpre.
    f_equal. apply IH; [discriminate | exact Hl | reflexivity].
Qed.

Lemma strip_ws_ok (w : str) : comma_free w -> tag_ok (strip_ws w) = true.
Proof.
  intros Hw. apply tag_ok_spec. split.
  - unfold comma_free in *. apply Forall_forall. intros c Hc.
    rewrite Forall_forall in Hw. apply Hw.
    apply elem_of_sublist with (strip_ws w); [exact Hc | apply strip_sublist].
  - apply strip_idem.
Qed.

Lemma stripped_pieces_ok (s : str) :
  Forall (fun t => tag_ok t = true) (map strip_ws (split_comma s)).
Proof.
  pose proof (split_comma_pieces s) as H.
  induction H as [|w ws Hw _ IH]; cbn [map]; constructor;
    [now apply strip_ws_ok | exact IH].
Qed.

Lemma new_tags_ok (input : str) :
  Forall (fun t => tag_ok t = true) (new_tags input).
Proof.
  unfold new_tags. pose proof (stripped_pieces_ok input) as H.
  induction H as [|t ts Ht _ IH]; cbn [List.filter]; [constructor|].
  destruct (negb (is_empty t)); [constructor|]; assumption.
Qed.

(** X8: what the forms store is read back as entered: when the selected
    tags are well formed (no comma, no blank at the ends), the tags that
    [get_all_tags] extracts from the stored text are the selected tags
    and the new ones typed in. *)
Theorem form_tags_read_back :
  forall (selected_tags : list str) (new_tags_input : str) (b : book),
    Forall (fun t => tag_ok t = true) selected_tags ->
    tags b = Some (form_tags_str selected_tags new_tags_input) ->
    form_tags_str selected_tags new_tags_input <> [] ->
    all_tags_of [b] = form_tags selected_tags new_tags_input
    /\ get_all_tags [b] = list_to_set (form_tags selected_tags new_tags_input).
Proof.
  intros selected input b Hsel Hb Hne.
  assert (Hall : all_tags_of [b] = form_tags selected input).
  { cbn [all_tags_of]. rewrite Hb.
    destruct (form_tags_str selected input) as [|c t] eqn:E; [contradiction|].
    rewrite app_nil_r, <- E. unfold form_tags_str in *.
    destruct (form_tags selected input) as [|x l] eqn:El; [discriminate|].
    rewrite <- El in *. apply (split_join _ []); [| |reflexivity].
    - rewrite El. discriminate.
    - unfold form_tags. apply Forall_app. split; [exact Hsel|].
      destruct input; [constructor | apply new_tags_ok]. }
  split; [exact Hall|]. unfold get_all_tags. now rewrite Hall.
Qed.

Lemma form_tags_read_back_witness :
  all_tags_of [book_tagged (form_tags_str [lit "소설"] (lit " 역사 ,, SF,"))]
    = [lit "소설"; lit "역사"; lit "SF"]
  /\ get_all_tags [book_tagged (form_tags_str [lit "소설"] (lit " 역사 ,, SF,"))]
      = list_to_set [lit "소설"; lit "역사"; lit "SF"].
Proof.
  apply (form_tags_read_back [lit "소설"] (lit " 역사 ,, SF,")
           (book_tagged (form_tags_str [lit "소설"] (lit " 역사 ,, SF,")))).
  - repeat constructor.
  - reflexivity.
  - vm_compute. discriminate.
Defined.

Lemma all_tags_of_ok (df : list book) :
  Forall (fun t => tag_ok t = true) (all_tags_of df).
Proof.
  induction df as [|b df IH]; cbn [all_tags_of]; [constructor|].
  destruct (tags b) as [[|c t]|]; try exact IH.
  apply Forall_app. split; [apply stripped_pieces_ok | exact IH].
Qed.

(** X9: every tag that [get_all_tags] returns is free of commas and has
    no white space at its ends, whatever the column [tags] holds: the
    tags offered for selection in the forms are well formed. *)
Theorem get_all_tags_well_formed :
  forall (df : list book) (t : str),
    t ∈ get_all_tags df ->
    comma_free t /\ strip_ws t = t.
Proof.
  intros df t Ht. unfold get_all_tags in Ht. apply elem_of_list_to_set in Ht.
  apply tag_ok_spec.
  pose proof (all_tags_of_ok df) as H. rewrite Forall_forall in H. now apply H.
Qed.

Lemma get_all_tags_well_formed_witness :
  comma_free (lit "SF") /\ strip_ws (lit "SF") = lit "SF".
Proof.
  apply (get_all_tags_well_formed [book_tagged (lit " 역사 ,, SF  ,")] (lit "SF")).
  vm_compute. reflexivity.
Defined.

End Tags_facts.

(* ===================================================================== *)
(** ** Further properties of the period filter and the monthly summary *)
(* ===================================================================== *)

Section Report_more.

Import Notions.

(** A string caught between two strings that begin with [q] begins with
    [q]. *)
Lemma str_between_prefix (q a b s : str) :
  str_leb (q ++ a) s = true -> str_leb s (q ++ b) = true ->
  exists rest, s = q ++ rest.
Proof.
  revert s. induction q as [|c q IH]; intros s Hlo Hhi.
  - now exists s.
  - destruct s as [|x s]; [discriminate|]. cbn [app str_leb] in Hlo, Hhi.
    destruct (N.ltb_spec c x) as [Hcx|Hcx].
    + destruct (N.ltb_spec x c); [lia|]. discriminate.
    + destruct (N.ltb_spec x c) as [Hxc|Hxc]; [discriminate|].
      assert (x = c) by lia. subst x.
      destruct (IH s Hlo Hhi) as [rest ->]. now exists rest.
Qed.

(** X10: the filter selects exactly the time stamps that begin with the
    year, a dash, the two-digit month and a dash, and whose remainder lies
    between ["01"] and ["31"] in the order of strings. *)
Theorem in_period_characterised :
  forall (year month : Z) (b : book),
    in_period year month b = true <->
    exists rest,
      added_date b = str_of_Z year ++ lit "-" ++ fmt_02d month ++ lit "-" ++ rest
      /\ str_leb (lit "01") rest = true
      /\ str_leb rest (lit "31") = true.
Proof.
  intros year month b.
  set (q := str_of_Z year ++ lit "-" ++ fmt_02d month ++ lit "-").
  assert (Hs : start_date year month = q ++ lit "01")
    by (unfold start_date, q; now rewrite <- !app_assoc).
  assert (He : end_date year month = q ++ lit "31")
    by (unfold end_date, q; now rewrite <- !app_assoc).
  assert (Hq : forall rest,
            str_of_Z year ++ lit "-" ++ fmt_02d month ++ lit "-" ++ rest = q ++ rest)
    by (intros rest; unfold q; now rewrite <- !app_assoc).
  unfold in_period, str_geb. rewrite Hs, He, andb_true_iff. split.
  - intros [Hlo Hhi].
    destruct (str_between_prefix _ _ _ _ Hlo Hhi) as [rest E].
    exists rest. rewrite Hq. split; [exact E|].
    rewrite E, !str_leb_prefix in *. now split.
  - intros (rest & E & Hlo & Hhi). rewrite Hq in E.
    rewrite E, !str_leb_prefix. now split.
Qed.

Lemma in_period_characterised_witness :
  exists rest,
    added_date (book_added_on (lit "2024-01-30 10:30"))
      = str_of_Z 2024 ++ lit "-" ++ fmt_02d 1 ++ lit "-" ++ rest
    /\ str_leb (lit "01") rest = true
    /\ str_leb rest (lit "31") = true.
Proof.
  apply (proj1 (in_period_characterised 2024 1
                  (book_added_on (lit "2024-01-30 10:30")))).
  reflexivity.
Defined.

Lemma in_period_days_01_30_witness :
  in_period 2024 1 (book_added_on (lit "2024-01-15 23:59")) = true.
Proof.
  apply (in_period_days_01_30 (book_added_on (lit "2024-01-15 23:59")) 2024 1
           0x31%N 0x35%N (lit " 23:59")); reflexivity.
Defined.

Lemma filter_length_le {A} (p : A -> bool) (l : list A) :
  (length (List.filter p l) <= length l)%nat.
Proof.
  induction l as [|x l IH]; simpl; [lia|]. destruct (p x); simpl; lia.
Qed.

Lemma filter_and {A} (p q : A -> bool) (l : list A) :
  List.filter (fun x => p x && q x) l = List.filter p (List.filter q l).
Proof.
  induction l as [|x l IH]; simpl; [reflexivity|].
  destruct (q x); simpl.
  - rewrite andb_true_r. destruct (p x); now rewrite IH.
  - now rewrite andb_false_r.
Qed.

Lemma exact_sum_bounds (f : book -> Z) (lo hi : Z) (l : list book) :
  Forall (fun b => lo <= f b <= hi) l ->
  lo * Z.of_nat (length l) <= exact_sum f l <= hi * Z.of_nat (length l).
Proof.
  unfold exact_sum. induction 1 as [|b l Hb _ IH]; cbn [foldr length]; [lia|].
  rewrite Nat2Z.inj_succ. lia.
Qed.

Lemma Forall_filter_keep {A} (P : A -> Prop) (p : A -> bool) (l : list A) :
  Forall P l -> Forall P (List.filter p l).
Proof.
  induction 1 as [|x l Hx _ IH]; simpl; [constructor|].
  destruct (p x); [constructor|]; assumption.
Qed.

(** X11: in the monthly summary the figures on finished books are taken
    from the books of the month: [completed] counts those with status
    ["읽음"] and never exceeds [total_added]; [pages_read] is the sum of
    their pages as 64-bit arithmetic gives it, that is a 64-bit integer
    that differs from the exact sum by a multiple of 2^64, and the exact
    sum when that is a 64-bit integer; and when the ratings of the
    collection are between 1 and 5 so is their mean, which is 0 when no
    book was finished. *)
Theorem monthly_summary_figures :
  forall (df : list book) (year month : Z),
    let s := generate_monthly_summary df year month in
    let finished := List.filter (fun b => str_eqb (status b) status_done) (books s) in
    completed s = Z.of_nat (length finished)
    /\ int64 (pages_read s) = true
    /\ (pages_read s - exact_sum pages finished) mod 2 ^ 64 = 0
    /\ (int64 (exact_sum pages finished) = true ->
        pages_read s = exact_sum pages finished)
    /\ 0 <= completed s <= total_added s
    /\ total_added s <= Z.of_nat (length df)
    /\ (Forall (fun b => 1 <= rating b <= 5) df ->
        if completed s =? 0 then (avg_rating s == 0)%Q
        else (1 <= avg_rating s)%Q /\ (avg_rating s <= 5)%Q).
Proof.
  intros df year month. cbv zeta. unfold generate_monthly_summary.
  cbn [completed pages_read total_added avg_rating books].
  rewrite filter_and.
  set (month_df := List.filter (in_period year month) df).
  set (finished := List.filter (fun b => str_eqb (status b) status_done) month_df).
  pose proof (filter_length_le (fun b => str_eqb (status b) status_done) month_df)
    as Hle1. fold finished in Hle1.
  pose proof (filter_length_le (in_period year month) df) as Hle2.
  fold month_df in Hle2.
  assert (Hpages : (if Z.of_nat (length finished) >? 0
                    then sum_of pages finished else 0)
                   = wrap64 (exact_sum pages finished)).
  { destruct finished; reflexivity. }
  rewrite Hpages.
  split; [reflexivity|]. split; [apply wrap64_range|].
  split; [apply wrap64_congr|]. split; [apply wrap64_small|].
  split; [lia|]. split; [lia|].
  intros Hr.
  assert (Hrf : Forall (fun b => 1 <= rating b <= 5) finished)
    by now apply Forall_filter_keep, Forall_filter_keep.
  pose proof (exact_sum_bounds rating 1 5 finished Hrf) as Hb.
  destruct (length finished) as [|n] eqn:En.
  - reflexivity.
  - change (Z.of_nat (S n) >? 0) with true.
    change (Z.of_nat (S n) =? 0) with false. cbv iota.
    unfold mean_of. rewrite En.
    set (t := exact_sum rating finished) in *.
    rewrite Nat2Z.inj_succ in Hb.
    rewrite <- Zpos_P_of_succ_nat in Hb.
    change (Z.of_nat (S n)) with (Z.pos (Pos.of_succ_nat n)).
    set (p := Pos.of_succ_nat n) in *.
    unfold Qle, Qdiv, Qmult, Qinv, inject_Z. cbn [Qnum Qden].
    split; lia.
Qed.

Lemma monthly_summary_figures_witness :
  pages_read (generate_monthly_summary
                [book_finished 4 320; book_finished 5 180] 2024 1) = 500
  /\ (1 <= avg_rating (generate_monthly_summary
                         [book_finished 4 320; book_finished 5 180] 2024 1))%Q
  /\ (avg_rating (generate_monthly_summary
                    [book_finished 4 320; book_finished 5 180] 2024 1) <= 5)%Q.
Proof.
  split.
  - refine (proj1 (proj2 (proj2 (proj2
              (monthly_summary_figures [book_finished 4 320; book_finished 5 180]
                 2024 1)))) _).
    vm_compute. reflexivity.
  - refine (proj2 (proj2 (proj2 (proj2 (proj2 (proj2
              (monthly_summary_figures [book_finished 4 320; book_finished 5 180]
                 2024 1)))))) _).
    repeat constructor; cbn; lia.
Defined.

End Report_more.

(* ===================================================================== *)
(** ** The most common tags of the monthly summary *)
(* ===================================================================== *)

Section Top_tags.

Import Notions.

Lemma str_eqb_eq (a b : str) : str_eqb a b = true <-> a = b.
Proof. unfold str_eqb. apply bool_decide_eq_true. Qed.

Lemma str_eqb_neq (a b : str) : str_eqb a b = false <-> a <> b.
Proof. unfold str_eqb. apply bool_decide_eq_false. Qed.

Lemma existsb_str_eqb (x : str) (l : list str) :
  existsb (str_eqb x) l = true <-> x ∈ l.
Proof.
  rewrite existsb_exists, list_elem_of_In. split.
  - intros (y & Hy & ->%str_eqb_eq). exact Hy.
  - intros H. exists x. split; [exact H | now apply str_eqb_eq].
Qed.

Lemma existsb_str_eqb_false (x : str) (l : list str) :
  existsb (str_eqb x) l = false <-> x ∉ l.
Proof.
  rewrite <- existsb_str_eqb. destruct (existsb (str_eqb x) l); split;
    congruence.
Qed.

Lemma map_ext_elem {A B} (f g : A -> B) (l : list A) :
  (forall x, x ∈ l -> f x = g x) -> map f l = map g l.
Proof.
  intros H. apply map_ext_in. intros x Hx. apply H. now apply list_elem_of_In.
Qed.

Lemma elem_of_list_map {A B} (f : A -> B) (l : list A) (y : B) :
  y ∈ map f l <-> exists x, y = f x /\ x ∈ l.
Proof.
  rewrite list_elem_of_In, in_map_iff. split; intros (x & H1 & H2); exists x.
  - split; [now symmetry | now apply list_elem_of_In].
  - split; [now symmetry | now apply list_elem_of_In].
Qed.

(** *** The distinct tags in order of first occurrence *)

Lemma fresh_iff (l : list str) : forall seen t,
  t ∈ fresh seen l <-> t ∈ l /\ t ∉ seen.
Proof.
  induction l as [|x l IH]; intros seen t; cbn [fresh].
  - rewrite !elem_of_nil. tauto.
  - destruct (existsb (str_eqb x) seen) eqn:E.
    + apply existsb_str_eqb in E. rewrite IH, elem_of_cons.
      split; [tauto|]. intros [[-> | H] Hn]; [contradiction | tauto].
    + apply existsb_str_eqb_false in E.
      rewrite !elem_of_cons, IH, elem_of_app, list_elem_of_singleton.
      split.
      * intros [-> | [H Hn]]; [tauto|]. split; [tauto|]. tauto.
      * intros [[-> | H] Hn]; [tauto|].
        destruct (decide (t = x)) as [->|Hne]; [tauto|]. right. tauto.
Qed.

Lemma NoDup_fresh (l : list str) : forall seen, NoDup (fresh seen l).
Proof.
  induction l as [|x l IH]; intros seen; cbn [fresh]; [constructor|].
  destruct (existsb (str_eqb x) seen); [apply IH|].
  apply NoDup_cons. split; [|apply IH].
  rewrite fresh_iff, elem_of_app, list_elem_of_singleton. tauto.
Qed.

Lemma fresh_snoc (l : list str) : forall seen x,
  fresh seen (l ++ [x]) =
    fresh seen l ++
    (if existsb (str_eqb x) seen || existsb (str_eqb x) l then [] else [x]).
Proof.
  induction l as [|y l IH]; intros seen x; cbn [app fresh existsb].
  - rewrite orb_false_r. destruct (existsb (str_eqb x) seen); reflexivity.
  - destruct (existsb (str_eqb y) seen) eqn:E.
    + rewrite IH. f_equal.
      destruct (str_eqb x y) eqn:Exy; [|reflexivity].
      apply str_eqb_eq in Exy. subst y. now rewrite E.
    + cbn [app]. rewrite IH, existsb_app. cbn [existsb].
      now rewrite orb_false_r, orb_assoc.
Qed.

Lemma count_tag_snoc (t x : str) (l : list str) :
  count_tag t (l ++ [x]) = count_tag t l + (if str_eqb t x then 1 else 0).
Proof.
  unfold count_tag. rewrite List.filter_app, length_app. cbn [List.filter].
  destruct (str_eqb t x); cbn [length]; lia.
Qed.

Lemma count_tag_absent (t : str) (l : list str) : t ∉ l -> count_tag t l = 0.
Proof.
  unfold count_tag. induction l as [|x l IH]; intros H; [reflexivity|].
  rewrite not_elem_of_cons in H. destruct H as [Hne Hl]. cbn [List.filter].
  apply str_eqb_neq in Hne. rewrite Hne. now apply IH.
Qed.

Lemma count_tag_present (t : str) (l : list str) : t ∈ l -> 1 <= count_tag t l.
Proof.
  unfold count_tag. induction l as [|x l IH]; intros H.
  - now apply elem_of_nil in H.
  - cbn [List.filter]. destruct (str_eqb t x) eqn:E; [cbn [length]; lia|].
    apply str_eqb_neq in E. apply elem_of_cons in H as [-> | H];
      [contradiction | now apply IH].
Qed.

(** *** [Counter] *)

Lemma counter_add_map (f : str -> Z) (x : str) (ks : list str) :
  NoDup ks ->
  counter_add x (map (fun t => (t, f t)) ks) =
    if existsb (str_eqb x) ks
    then map (fun t => (t, f t + (if str_eqb t x then 1 else 0))) ks
    else map (fun t => (t, f t)) ks ++ [(x, 1)].
Proof.
  induction ks as [|y ks IH]; intros Hnd; [reflexivity|].
  apply NoDup_cons in Hnd as [Hy Hnd]. cbn [map counter_add existsb].
  destruct (str_eqb x y) eqn:E.
  - apply str_eqb_eq in E. subst y. cbn [orb].
    assert (Hxx : str_eqb x x = true) by now apply str_eqb_eq.
    rewrite Hxx. f_equal. apply map_ext_elem. intros t Ht.
    assert (Htx : str_eqb t x = false).
    { apply str_eqb_neq. intros ->. contradiction. }
    rewrite Htx. f_equal. lia.
  - cbn [orb]. rewrite (IH Hnd).
    assert (Hyx : str_eqb y x = false).
    { apply str_eqb_neq. apply str_eqb_neq in E. congruence. }
    rewrite Hyx. destruct (existsb (str_eqb x) ks); cbn [app]; f_equal.
    f_equal. lia.
Qed.

(** [Counter] lists each distinct tag once, in order of first occurrence,
    with its number of occurrences. *)
Lemma Counter_spec (l : list str) :
  Counter l = map (fun t => (t, count_tag t l)) (first_occurrences l).
Proof.
  unfold Counter, first_occurrences.
  induction l as [|x l IH] using rev_ind; [reflexivity|].
  rewrite fold_left_app. cbn [fold_left]. rewrite IH.
  rewrite counter_add_map by apply NoDup_fresh.
  rewrite fresh_snoc. cbn [existsb orb].
  destruct (existsb (str_eqb x) (fresh [] l)) eqn:E.
  - assert (Hx : existsb (str_eqb x) l = true).
    { apply existsb_str_eqb. apply existsb_str_eqb in E.
      now apply fresh_iff in E as [? _]. }
    rewrite Hx, app_nil_r. apply map_ext_elem. intros t _.
    now rewrite count_tag_snoc.
  - assert (Hx : existsb (str_eqb x) l = false).
    { apply existsb_str_eqb_false. apply existsb_str_eqb_false in E.
      intros H. apply E, fresh_iff. split; [exact H | apply not_elem_of_nil]. }
    rewrite Hx, map_app. cbn [map]. f_equal.
    + apply map_ext_elem. intros t Ht. rewrite count_tag_snoc.
      assert (Htx : str_eqb t x = false).
      { apply str_eqb_neq. intros ->. apply existsb_str_eqb_false in E.
        contradiction. }
      rewrite Htx. f_equal. lia.
    + rewrite count_tag_snoc.
      rewrite count_tag_absent by now apply existsb_str_eqb_false.
      assert (Hxx : str_eqb x x = true) by now apply str_eqb_eq.
      now rewrite Hxx.
Qed.

(** *** The ranking *)

Lemma insert_by_count_perm (x : str * Z) (l : list (str * Z)) :
  insert_by_count x l ≡ₚ x :: l.
Proof.
  induction l as [|y l IH]; cbn [insert_by_count]; [reflexivity|].
  destruct (x.2 >=? y.2); [reflexivity|].
  rewrite IH. apply Permutation_swap.
Qed.

Lemma ranking_perm (c : list (str * Z)) : ranking c ≡ₚ c.
Proof.
  unfold ranking. induction c as [|x c IH]; cbn [foldr]; [reflexivity|].
  now rewrite insert_by_count_perm, IH.
Qed.

Lemma sorted_desc_cons (x : str * Z) (l : list (str * Z)) :
  sorted_desc (x :: l) = true <->
  match l with [] => True | y :: _ => y.2 <= x.2 end /\ sorted_desc l = true.
Proof.
  destruct l as [|y l]; cbn [sorted_desc].
  - tauto.
  - rewrite andb_true_iff, Z.leb_le. tauto.
Qed.

Lemma insert_by_count_sorted (x : str * Z) (l : list (str * Z)) :
  sorted_desc l = true -> sorted_desc (insert_by_count x l) = true.
Proof.
  induction l as [|y l IH]; intros Hs; [reflexivity|].
  cbn [insert_by_count]. destruct (Z.geb_spec (x.2) (y.2)) as [Hge|Hlt].
  - apply sorted_desc_cons. split; [lia | exact Hs].
  - apply sorted_desc_cons in Hs as [Hy Hs].
    apply sorted_desc_cons. split; [|now apply IH].
    destruct l as [|z l]; cbn [insert_by_count]; [lia|].
    destruct (x.2 >=? z.2); lia.
Qed.

Lemma ranking_sorted (c : list (str * Z)) : sorted_desc (ranking c) = true.
Proof.
  unfold ranking. induction c as [|x c IH]; cbn [foldr]; [reflexivity|].
  now apply insert_by_count_sorted.
Qed.

Lemma sorted_desc_head (x : str * Z) (l : list (str * Z)) :
  sorted_desc (x :: l) = true -> forall y, y ∈ l -> y.2 <= x.2.
Proof.
  revert x. induction l as [|z l IH]; intros x Hs y Hy.
  - now apply elem_of_nil in Hy.
  - apply sorted_desc_cons in Hs as [Hz Hs].
    apply elem_of_cons in Hy as [-> | Hy]; [exact Hz|].
    specialize (IH z Hs y Hy). lia.
Qed.

Lemma sorted_desc_app (a b : list (str * Z)) :
  sorted_desc (a ++ b) = true ->
  sorted_desc a = true
  /\ forall x y, x ∈ a -> y ∈ b -> y.2 <= x.2.
Proof.
  induction a as [|z a IH]; intros Hs.
  - split; [reflexivity|]. intros x y Hx. now apply elem_of_nil in Hx.
  - cbn [app] in Hs. pose proof (sorted_desc_head _ _ Hs) as Hh.
    apply sorted_desc_cons in Hs as [Hz Hs]. destruct (IH Hs) as [Ha Hab].
    split.
    + apply sorted_desc_cons. split; [|exact Ha].
      destruct a; [exact I | exact Hz].
    + intros x y Hx Hy. apply elem_of_cons in Hx as [-> | Hx].
      * apply Hh, elem_of_app. now right.
      * now apply Hab.
Qed.

(** Entries with the same count keep their order. *)
Lemma insert_by_count_stable (k : Z) (x : str * Z) (l : list (str * Z)) :
  List.filter (fun p => p.2 =? k) (insert_by_count x l)
    = List.filter (fun p => p.2 =? k) (x :: l).
Proof.
  induction l as [|y l IH]; [reflexivity|].
  cbn [insert_by_count]. destruct (Z.geb_spec (x.2) (y.2)) as [Hge|Hlt];
    [reflexivity|].
  cbn [List.filter] in *. rewrite IH.
  destruct (Z.eqb_spec (x.2) k) as [Hx|Hx], (Z.eqb_spec (y.2) k) as [Hy|Hy];
    try reflexivity. lia.
Qed.

Lemma ranking_stable (k : Z) (c : list (str * Z)) :
  List.filter (fun p => p.2 =? k) (ranking c) = List.filter (fun p => p.2 =? k) c.
Proof.
  unfold ranking. induction c as [|x c IH]; [reflexivity|].
  cbn [foldr]. rewrite insert_by_count_stable. cbn [List.filter].
  now rewrite IH.
Qed.

Lemma top_tags_unfold (df : list book) (year month : Z) :
  top_tags (generate_monthly_summary df year month)
    = take 3 (ranking (Counter (collect_tags
                                  (books (generate_monthly_summary df year month))))).
Proof.
  unfold generate_monthly_summary. cbn [top_tags books].
  destruct (collect_tags (List.filter (in_period year month) df)); reflexivity.
Qed.

Lemma elem_of_take_in {A} (n : nat) (l : list A) (x : A) :
  x ∈ take n l -> x ∈ l.
Proof. intros H. apply elem_of_sublist with (take n l); [exact H | apply sublist_take]. Qed.

Lemma map_fst_counted (f : str -> Z) (k : Z) (ks : list str) :
  map fst (List.filter (fun p : str * Z => p.2 =? k) (map (fun t => (t, f t)) ks))
    = List.filter (fun t => f t =? k) ks.
Proof.
  induction ks as [|t ks IH]; [reflexivity|].
  cbn [map List.filter snd]. destruct (f t =? k); cbn [map fst]; now rewrite IH.
Qed.

(** X12: the top tags of the monthly summary are at most three, all
    different, by decreasing count; each carries the exact number of its
    occurrences among the tags of the month; and a tag left out occurs no
    more often than any tag listed (three are listed then). *)
Theorem top_tags_correct :
  forall (df : list book) (year month : Z),
    let s := generate_monthly_summary df year month in
    let all_tags := collect_tags (books s) in
    (length (top_tags s) <= 3)%nat
    /\ sorted_desc (top_tags s) = true
    /\ NoDup (map fst (top_tags s))
    /\ (forall t n, (t, n) ∈ top_tags s -> n = count_tag t all_tags /\ 1 <= n)
    /\ (forall t, t ∈ all_tags -> t ∉ map fst (top_tags s) ->
        length (top_tags s) = 3%nat
        /\ forall t' n', (t', n') ∈ top_tags s -> count_tag t all_tags <= n').
Proof.
  intros df year month s all_tags.
  set (r := ranking (Counter all_tags)).
  assert (Htop : top_tags s = take 3 r) by apply top_tags_unfold.
  rewrite Htop. clear Htop.
  assert (Hsplit : sorted_desc (take 3 r ++ drop 3 r) = true)
    by (rewrite take_drop; apply ranking_sorted).
  apply sorted_desc_app in Hsplit as [Hs Hle].
  assert (Hin : forall t n, (t, n) ∈ r <-> t ∈ all_tags /\ n = count_tag t all_tags).
  { intros t n. unfold r. rewrite ranking_perm, Counter_spec, elem_of_list_map.
    unfold first_occurrences. split.
    - intros (t0 & [= -> ->] & Ht). apply fresh_iff in Ht as [Ht _]. now split.
    - intros [Ht ->]. exists t. split; [reflexivity|].
      apply fresh_iff. split; [exact Ht | apply not_elem_of_nil]. }
  assert (Hkeys : NoDup (map fst r)).
  { unfold r. rewrite ranking_perm, Counter_spec, map_map. cbn [fst].
    rewrite map_id. apply NoDup_fresh. }
  split; [rewrite length_take; lia|]. split; [exact Hs|]. split; [|split].
  - rewrite <- firstn_map.
    exact (sublist_NoDup _ _ Hkeys (sublist_take (map fst r) 3)).
  - intros t n Htn. apply elem_of_take_in, Hin in Htn as [Ht ->].
    split; [reflexivity | now apply count_tag_present].
  - intros t Ht Hout.
    assert (Hr : (t, count_tag t all_tags) ∈ take 3 r ++ drop 3 r)
      by (rewrite take_drop; now apply Hin).
    apply elem_of_app in Hr as [Hr | Hr].
    + exfalso. apply Hout, elem_of_list_map.
      exists (t, count_tag t all_tags). now split.
    + split.
      * apply length_take_le.
        destruct (le_lt_dec 3 (length r)) as [Hl|Hl]; [exact Hl|].
        rewrite drop_ge in Hr by lia. now apply elem_of_nil in Hr.
      * intros t' n' H'. apply (Hle _ _ H' Hr).
Qed.

Lemma top_tags_correct_witness :
  let s := generate_monthly_summary [Tags.book_tagged (lit "a,b,c,d,a")] 2024 1 in
  (2 = count_tag (lit "a") (collect_tags (books s)) /\ 1 <= 2)
  /\ (length (top_tags s) = 3%nat
      /\ forall t' n', (t', n') ∈ top_tags s ->
                       count_tag (lit "d") (collect_tags (books s)) <= n').
Proof.
  intros s.
  pose proof (top_tags_correct [Tags.book_tagged (lit "a,b,c,d,a")] 2024 1) as H.
  cbv zeta in H. fold s in H. destruct H as (_ & _ & _ & Hd & He). split.
  - apply (Hd (lit "a") 2). apply list_elem_of_In. vm_compute. tauto.
  - apply (He (lit "d")).
    + apply list_elem_of_In. vm_compute. tauto.
    + rewrite list_elem_of_In. vm_compute.
      intros [H | [H | [H | []]]]; discriminate.
Defined.

(** X13: tags with the same count are ranked in the order in which they
    first occur among the tags of the month: for every count, the tags of
    the ranking that have it are those of first occurrence order; the top
    tags are the first three of the ranking. *)
Theorem top_tags_ties_first_seen :
  forall (df : list book) (year month : Z) (k : Z),
    let s := generate_monthly_summary df year month in
    let all_tags := collect_tags (books s) in
    top_tags s = take 3 (ranking (Counter all_tags))
    /\ map fst (List.filter (fun p => p.2 =? k) (ranking (Counter all_tags)))
       = List.filter (fun t => count_tag t all_tags =? k) (first_occurrences all_tags).
Proof.
  intros df year month k s all_tags. split; [apply top_tags_unfold|].
  rewrite ranking_stable, Counter_spec. apply map_fst_counted.
Qed.

End Top_tags.

(* ===================================================================== *)
(** ** Properties of the operations on table [books] *)
(* ===================================================================== *)

Section Books_table.

Import Db DbEdit.

Variable text_to_integer : str -> sqlval.

Local Ltac run := cbn [mbind outcome_bind of_option].

(** X14: [add_book_to_db] reports success exactly when the eight keys it
    reads with [book_data[...]] are present, the title is not [None], every
    value it binds can be bound (an [int] within 64 bits, a [str] without
    lone surrogate) and an id is left; otherwise it reports failure and
    the table is as before. *)
Theorem add_book_success_condition :
  forall (book_data : gmap string pyval) (d : db),
    ((add_book_to_db text_to_integer book_data d).2 = true <->
     Forall (fun k => is_Some (book_data !! k))
       ["isbn"; "title"; "author"; "publisher"; "rating"; "status"; "memo";
        "added_date"]%string
     /\ book_data !! "title"%string <> Some PNone
     /\ Forall (fun k => forall v, book_data !! k = Some v -> bind v = Return ())
          ["isbn"; "title"; "author"; "publisher"; "publication_year"; "subject";
           "loan_count"; "cover_url"; "rating"; "status"; "memo"; "tags"; "pages";
           "added_date"]%string
     /\ int64 (last_id d + 1) = true)
    /\ ((add_book_to_db text_to_integer book_data d).2 = false ->
        (add_book_to_db text_to_integer book_data d).1 = d).
Proof.
  intros book_data d. unfold add_book_to_db.
  destruct (add_book_body text_to_integer book_data d) as [d'|e] eqn:E;
    cbn [fst snd].
  - apply add_book_body_success in E
      as (r & v & _ & _ & _ & _ & _ & Hk & Ht & Hb & Hi).
    split; [tauto | discriminate].
  - split; [|reflexivity]. split; [discriminate|].
    intros (Hk & Ht & Hb & Hi). exfalso.
    destruct (add_book_body_when text_to_integer book_data d Hk Ht Hb Hi)
      as [d' Hd']. rewrite Hd' in E. discriminate E.
Qed.

(** *** Edit and delete *)

(** A successful edit has bound its parameters and maps the rows through
    one function that keeps the id and the creation time and stamps the
    row. *)
Lemma update_book_body_ok now book_id (book_data : gmap string pyval) (d d' : db) :
  update_book_body text_to_integer now book_id book_data d = Return d' ->
  exists set : row -> row,
    d' = {| rows := map (fun r => if id r =? book_id then set r else r) (rows d);
            last_id := last_id d |}
    /\ forall r, id (set r) = id r /\ added_date (set r) = added_date r
                 /\ updated_date (set r) = Text now.
Proof.
  unfold update_book_body, getitem.
  destruct (book_data !! "isbn"%string) as [v1|]; [|discriminate].
  destruct (book_data !! "title"%string) as [v2|]; [|discriminate].
  destruct (book_data !! "author"%string) as [v3|]; [|discriminate].
  destruct (book_data !! "publisher"%string) as [v4|]; [|discriminate].
  destruct (book_data !! "rating"%string) as [v5|]; [|discriminate].
  destruct (book_data !! "status"%string) as [v6|]; [|discriminate].
  destruct (book_data !! "memo"%string) as [v7|]; [|discriminate].
  run.
  match goal with
  | |- context [bind_all ?l] =>
    destruct (bind_all_cases l) as [[-> _] | (e & -> & _)]; [|discriminate]
  end.
  run. unfold update_rows.
  match goal with |- context [existsb ?p ?l] => destruct (existsb p l) end;
    [discriminate|].
  intros H%Return_inj. subst d'. eexists. split; [reflexivity|].
  intros r. cbn [id added_date updated_date]. auto.
Qed.

(** X15: a successful edit changes neither the id nor the creation time
    of any row, keeps their number and order and the id counter, stamps
    every row with the given id with the time of the edit and leaves the
    rows with another id as they were. *)
Theorem update_book_keeps_identity :
  forall now book_id (book_data : gmap string pyval) (d d' : db),
    update_book_in_db text_to_integer now book_id book_data d = (d', true) ->
    ids d' = ids d
    /\ map added_date (rows d') = map added_date (rows d)
    /\ last_id d' = last_id d
    /\ Forall (fun r => id r = book_id -> updated_date r = Text now) (rows d')
    /\ Forall2 (fun r r' => id r <> book_id -> r' = r) (rows d) (rows d').
Proof.
  intros now book_id book_data d d'. unfold update_book_in_db.
  destruct (update_book_body text_to_integer now book_id book_data d)
    as [d1|e] eqn:E; [|discriminate].
  intros [= <-]. apply update_book_body_ok in E as (set & -> & Hset).
  unfold ids. cbn [rows last_id].
  induction (rows d) as [|r l (IH1 & IH2 & _ & IH4 & IH5)].
  - repeat split; constructor.
  - cbn [map]. destruct (Hset r) as (Hi & Ha & Hu).
    destruct (Z.eqb_spec (id r) book_id) as [Heq|Hne].
    + rewrite Hi, Ha, IH1, IH2. repeat split.
      * constructor; [intros _; exact Hu | exact IH4].
      * constructor; [intros; contradiction | exact IH5].
    + rewrite IH1, IH2. repeat split.
      * constructor; [intros; contradiction | exact IH4].
      * constructor; [reflexivity | exact IH5].
Qed.

(** X16: an edit for an id that no row has leaves the table unchanged, and
    reports success all the same when the id is a 64-bit integer; for an
    id outside 64 bits the parameter cannot be bound and the edit reports
    failure.  (The seven keys read with [book_data[...]] are present and
    the other parameters can be bound.) *)
Theorem update_book_unknown_id :
  forall now book_id (book_data : gmap string pyval) (d : db),
    book_id ∉ ids d ->
    Forall (fun k => is_Some (book_data !! k))
      ["isbn"; "title"; "author"; "publisher"; "rating"; "status"; "memo"]%string ->
    Forall (fun k => forall v, book_data !! k = Some v -> bind v = Return ())
      ["isbn"; "title"; "author"; "publisher"; "publication_year"; "subject";
       "loan_count"; "cover_url"; "rating"; "status"; "memo"; "tags";
       "pages"]%string ->
    bind (PStr now) = Return () ->
    update_book_in_db text_to_integer now book_id book_data d
    = (d, int64 book_id).
Proof.
  intros now book_id book_data d Hid Hk Hb Hnow.
  assert (Hno : forall (set : row -> row) l,
            book_id ∉ map id l ->
            existsb (fun r => (id r =? book_id) && is_null (title (set r))) l = false
            /\ map (fun r => if id r =? book_id then set r else r) l = l).
  { intros set l. induction l as [|r l IH]; intros H; [now split|].
    cbn [map] in H. apply not_elem_of_cons in H as [Hr Hl].
    destruct (IH Hl) as [IH1 IH2]. cbn [existsb map].
    assert (Hne : (id r =? book_id) = false) by (apply Z.eqb_neq; congruence).
    rewrite Hne, IH1, IH2. now split. }
  unfold update_book_in_db, update_book_body, getitem.
  repeat match goal with
         | H : Forall (fun k => is_Some _) (_ :: _) |- _ =>
           let v := fresh "v" in let Hv := fresh "Hv" in
           apply Forall_cons in H as [[v Hv] H]; rewrite Hv
         end.
  run.
  repeat match goal with
         | H : Forall (fun k => forall v, _) (_ :: _) |- _ =>
           let Hb := fresh "Hb" in apply Forall_cons in H as [Hb H]
         end.
  match goal with
  | |- context [bind_all (?a1 :: ?a2 :: ?a3 :: ?a4 :: ?a5 :: ?a6 :: ?a7 :: ?a8
                            :: ?a9 :: ?a10 :: ?a11 :: ?a12 :: ?a13 :: ?a14 :: ?a15 :: [])] =>
    assert (Hall : bind_all [a1; a2; a3; a4; a5; a6; a7; a8; a9; a10; a11; a12;
                             a13; a14; a15]
                   = bind (PInt book_id))
  end.
  { cbn [bind_all].
    repeat match goal with
           | |- context [bind ?v ≫= _] =>
             let H := fresh in
             assert (H : bind v = Return ())
               by first [ now auto
                        | apply bind_get_default; [reflexivity | assumption] ];
             rewrite H; clear H; run
           end.
    now destruct (bind (PInt book_id)) as [[]|]. }
  rewrite Hall. cbn [bind].
  destruct (int64 book_id); run; [|reflexivity].
  match goal with
  | |- context [update_rows book_id ?f d] =>
    unfold update_rows; destruct (Hno f (rows d) Hid) as [-> ->]
  end.
  destruct d; reflexivity.
Qed.

Lemma ids_filter_sublist (p : row -> bool) (l : list row) :
  map id (List.filter p l) `sublist_of` map id l.
Proof.
  induction l as [|r l IH]; cbn [List.filter map]; [constructor|].
  destruct (p r); cbn [map]; [now apply sublist_skip | now apply sublist_cons].
Qed.

Lemma delete_rows_absent (book_id : Z) (d : db) :
  book_id ∉ ids d -> delete_rows book_id d = d.
Proof.
  unfold delete_rows, ids. intros Hid. destruct d as [l n].
  cbn [rows last_id] in *. f_equal.
  induction l as [|r l IH]; [reflexivity|]. cbn [map] in Hid.
  apply not_elem_of_cons in Hid as [Hr Hl]. cbn [List.filter].
  assert (Hne : (id r =? book_id) = false) by (apply Z.eqb_neq; congruence).
  rewrite Hne. cbn [negb]. now rewrite IH.
Qed.

Lemma delete_book_cases (book_id : Z) (d : db) :
  delete_book_from_db book_id d
  = if int64 book_id then (delete_rows book_id d, true) else (d, false).
Proof. unfold delete_book_from_db, bind. now destruct (int64 book_id). Qed.

(** X17: [delete_book_from_db] reports success exactly when the id is a
    64-bit integer, and then no row has the id afterwards; an id outside
    64 bits cannot be bound, and the table is as before.  In both cases
    the rows with another id are kept in their order, the id counter is
    kept, and when no row had the id nothing has changed. *)
Theorem delete_book_removes_id :
  forall (book_id : Z) (d : db),
    (delete_book_from_db book_id d).2 = int64 book_id
    /\ (int64 book_id = true -> book_id ∉ ids ((delete_book_from_db book_id d).1))
    /\ (int64 book_id = false -> (delete_book_from_db book_id d).1 = d)
    /\ (forall r, id r <> book_id ->
                  (r ∈ rows ((delete_book_from_db book_id d).1) <-> r ∈ rows d))
    /\ rows ((delete_book_from_db book_id d).1) `sublist_of` rows d
    /\ last_id ((delete_book_from_db book_id d).1) = last_id d
    /\ (book_id ∉ ids d -> (delete_book_from_db book_id d).1 = d).
Proof.
  intros book_id d. rewrite delete_book_cases.
  destruct (int64 book_id); cbn [fst snd].
  - unfold delete_rows, ids. cbn [rows last_id].
    split; [reflexivity|]. split; [|split; [discriminate|split; [|split; [|split]]]].
    + intros _. rewrite elem_of_list_map. intros (r & -> & Hr).
      apply list_elem_of_In, filter_In in Hr as [_ Hr].
      apply negb_true_iff, Z.eqb_neq in Hr. congruence.
    + intros r Hr. rewrite !list_elem_of_In, filter_In.
      apply Z.eqb_neq in Hr. rewrite Hr. tauto.
    + induction (rows d) as [|r l IH]; cbn [List.filter]; [constructor|].
      destruct (negb (id r =? book_id)); [now apply sublist_skip | now apply sublist_cons].
    + reflexivity.
    + intros Hid. now apply (delete_rows_absent book_id d).
  - split; [reflexivity|]. split; [discriminate|]. repeat split; auto.
Qed.

(** X18: ids are never given twice.  On a table whose ids are distinct
    and not above the counter, a successful insert appends a row with the
    next id, which no row has, and insert, edit and delete all keep this
    state of the table. *)
Theorem ids_stay_distinct :
  forall d : db,
    consistent d ->
    (forall (book_data : gmap string pyval) d',
        add_book_to_db text_to_integer book_data d = (d', true) ->
        consistent d'
        /\ exists r, rows d' = rows d ++ [r]
                     /\ id r = last_id d + 1 /\ (id r ∉ ids d)
                     /\ last_id d' = last_id d + 1)
    /\ (forall now book_id (book_data : gmap string pyval),
          consistent ((update_book_in_db text_to_integer now book_id book_data d).1))
    /\ (forall book_id, consistent ((delete_book_from_db book_id d).1)).
Proof.
  intros d [Hnd Hle]. split; [|split].
  - intros book_data d'. unfold add_book_to_db.
    destruct (add_book_body text_to_integer book_data d) as [d1|e] eqn:E;
      [|discriminate].
    apply add_book_body_success in E as (r & v & -> & Hr & _).
    intros [= <-].
    assert (Hfresh : id r ∉ ids d).
    { intros Hin. rewrite Forall_forall in Hle. specialize (Hle _ Hin). lia. }
    split.
    + unfold consistent, ids. cbn [rows last_id]. rewrite map_app. cbn [map]. split.
      * apply NoDup_app. split; [exact Hnd|]. split; [|apply NoDup_singleton].
        intros x Hx ->%list_elem_of_singleton. contradiction.
      * apply Forall_app. split.
        -- eapply Forall_impl; [exact Hle|]. cbn. intros; lia.
        -- repeat constructor. lia.
    + exists r. cbn [rows last_id]. auto.
  - intros now book_id book_data. unfold update_book_in_db.
    destruct (update_book_body text_to_integer now book_id book_data d)
      as [d1|e] eqn:E; cbn [fst]; [|now split].
    apply update_book_body_ok in E as (set & -> & Hset).
    assert (Hids : map id (map (fun r => if id r =? book_id then set r else r) (rows d))
                   = map id (rows d)).
    { rewrite map_map. apply map_ext. intros r.
      destruct (id r =? book_id); [apply Hset | reflexivity]. }
    unfold consistent, ids. cbn [rows last_id]. rewrite Hids. now split.
  - intros book_id. rewrite delete_book_cases.
    destruct (int64 book_id); cbn [fst]; [|now split].
    unfold delete_rows, consistent, ids. cbn [rows last_id].
    pose proof (ids_filter_sublist (fun r => negb (id r =? book_id)) (rows d)) as Hs.
    split.
    + exact (sublist_NoDup _ _ Hnd Hs).
    + exact (Forall_of_sublist _ _ _ Hs Hle).
Qed.

(** X19: deleting the book that was just added gives back the former
    rows, and its id is not given again: the next insert gets the id after
    it. *)
Theorem add_then_delete :
  forall (book_data : gmap string pyval) (d d1 : db),
    consistent d ->
    add_book_to_db text_to_integer book_data d = (d1, true) ->
    rows ((delete_book_from_db (last_id d + 1) d1).1) = rows d
    /\ forall (book_data' : gmap string pyval) d3,
         add_book_to_db text_to_integer book_data'
           ((delete_book_from_db (last_id d + 1) d1).1) = (d3, true) ->
         exists r, rows d3 = rows d ++ [r] /\ id r = last_id d + 2.
Proof.
  intros book_data d d1 [Hnd Hle]. unfold add_book_to_db at 1.
  destruct (add_book_body text_to_integer book_data d) as [d'|e] eqn:E;
    [|discriminate].
  apply add_book_body_success in E
    as (r & v & -> & Hr & _ & _ & _ & _ & _ & _ & Hi).
  intros [= <-].
  assert (Hrows : List.filter (fun r0 => negb (id r0 =? last_id d + 1)) (rows d ++ [r])
                  = rows d).
  { rewrite List.filter_app. cbn [List.filter]. rewrite Hr, Z.eqb_refl. cbn [negb].
    rewrite app_nil_r. unfold ids in Hle.
    clear Hnd. induction (rows d) as [|x l IH]; [reflexivity|].
    cbn [map] in Hle. apply Forall_cons in Hle as [Hx Hle]. cbn [List.filter].
    assert (Hne : (id x =? last_id d + 1) = false) by (apply Z.eqb_neq; lia).
    rewrite Hne. cbn [negb]. now rewrite (IH Hle). }
  rewrite delete_book_cases, Hi. unfold delete_rows. cbn [fst rows last_id].
  rewrite Hrows.
  split; [reflexivity|].
  intros book_data' d3. unfold add_book_to_db.
  match goal with
  | |- context [add_book_body _ _ ?d2] =>
    destruct (add_book_body text_to_integer book_data' d2) as [d''|e] eqn:E';
      [|discriminate];
    apply add_book_body_success in E' as (r' & v' & -> & Hr' & _)
  end.
  intros [= <-]. exists r'. cbn [rows last_id] in *. split; [reflexivity | lia].
Qed.

End Books_table.

Lemma add_book_success_condition_witness :
  (Db.add_book_to_db (fun s => Db.Text s) (Db.form_book (lit "2024-01-31 10:30"))
     {| Db.rows := []; Db.last_id := 0 |}).2 = true
  /\ (Db.add_book_to_db (fun s => Db.Text s)
        (<["pages"%string := Db.PInt (2 ^ 63)]> (Db.form_book (lit "2024-01-31 10:30")))
        {| Db.rows := []; Db.last_id := 0 |}).1
     = {| Db.rows := []; Db.last_id := 0 |}.
Proof.
  split.
  - apply (proj1 (add_book_success_condition (fun s => Db.Text s)
                    (Db.form_book (lit "2024-01-31 10:30"))
                    {| Db.rows := []; Db.last_id := 0 |})).
    split; [|split; [vm_compute; discriminate|split; [|reflexivity]]].
    + repeat (apply Forall_cons; split; [vm_compute; eexists; reflexivity|]);
        constructor.
    + repeat (apply Forall_cons; split;
              [intros v Hv; vm_compute in Hv; injection Hv as <-; reflexivity|]);
        constructor.
  - apply (proj2 (add_book_success_condition (fun s => Db.Text s)
                    (<["pages"%string := Db.PInt (2 ^ 63)]>
                       (Db.form_book (lit "2024-01-31 10:30")))
                    {| Db.rows := []; Db.last_id := 0 |})).
    vm_compute. reflexivity.
Defined.

Lemma one_book_consistent : DbEdit.consistent DbEdit.one_book.
Proof.
  unfold DbEdit.consistent. change (DbEdit.ids DbEdit.one_book) with [1].
  split; [apply NoDup_singleton | repeat constructor; vm_compute; discriminate].
Defined.

Lemma update_book_keeps_identity_witness :
  let d' := (DbEdit.update_book_in_db (fun s => Db.Text s) (lit "2024-02-01 09:00") 1
               (Db.form_book (lit "2024-01-31 10:30")) DbEdit.one_book).1 in
  DbEdit.ids d' = DbEdit.ids DbEdit.one_book
  /\ map Db.added_date (Db.rows d') = map Db.added_date (Db.rows DbEdit.one_book)
  /\ Db.last_id d' = Db.last_id DbEdit.one_book
  /\ Forall (fun r => Db.id r = 1 -> Db.updated_date r = Db.Text (lit "2024-02-01 09:00"))
       (Db.rows d')
  /\ Forall2 (fun r r' => Db.id r <> 1 -> r' = r) (Db.rows DbEdit.one_book) (Db.rows d').
Proof.
  apply (update_book_keeps_identity (fun s => Db.Text s) (lit "2024-02-01 09:00") 1
           (Db.form_book (lit "2024-01-31 10:30")) DbEdit.one_book).
  vm_compute. reflexivity.
Defined.

Lemma update_book_unknown_id_witness :
  DbEdit.update_book_in_db (fun s => Db.Text s) (lit "2024-02-01 09:00") 7
    (Db.form_book (lit "2024-01-31 10:30")) DbEdit.one_book
  = (DbEdit.one_book, true)
  /\ DbEdit.update_book_in_db (fun s => Db.Text s) (lit "2024-02-01 09:00") (2 ^ 63)
       (Db.form_book (lit "2024-01-31 10:30")) DbEdit.one_book
     = (DbEdit.one_book, false).
Proof.
  split.
  - apply (update_book_unknown_id (fun s => Db.Text s) (lit "2024-02-01 09:00") 7).
    + rewrite list_elem_of_In. vm_compute. intros [H | []]. discriminate.
    + repeat (apply Forall_cons; split; [vm_compute; eexists; reflexivity|]);
        constructor.
    + repeat (apply Forall_cons; split;
              [intros v Hv; vm_compute in Hv; injection Hv as <-; reflexivity|]);
        constructor.
    + reflexivity.
  - apply (update_book_unknown_id (fun s => Db.Text s) (lit "2024-02-01 09:00") (2 ^ 63)).
    + rewrite list_elem_of_In. vm_compute. intros [H | []]. discriminate.
    + repeat (apply Forall_cons; split; [vm_compute; eexists; reflexivity|]);
        constructor.
    + repeat (apply Forall_cons; split;
              [intros v Hv; vm_compute in Hv; injection Hv as <-; reflexivity|]);
        constructor.
    + reflexivity.
Defined.

Lemma delete_book_removes_id_witness :
  (1 ∉ DbEdit.ids ((DbEdit.delete_book_from_db 1 DbEdit.one_book).1))
  /\ (DbEdit.delete_book_from_db (2 ^ 63) DbEdit.one_book).1 = DbEdit.one_book
  /\ (DbEdit.delete_book_from_db 7 DbEdit.one_book).1 = DbEdit.one_book
  /\ (forall r, Db.id r <> 7 ->
        (r ∈ Db.rows ((DbEdit.delete_book_from_db 7 DbEdit.one_book).1)
         <-> r ∈ Db.rows DbEdit.one_book)).
Proof.
  split; [|split].
  - apply (proj1 (proj2 (delete_book_removes_id 1 DbEdit.one_book))). reflexivity.
  - apply (proj1 (proj2 (proj2 (delete_book_removes_id (2 ^ 63) DbEdit.one_book)))).
    reflexivity.
  - destruct (delete_book_removes_id 7 DbEdit.one_book)
      as (_ & _ & _ & H3 & _ & _ & H6).
    split; [|exact H3].
    apply H6. rewrite list_elem_of_In. vm_compute. intros [H | []]. discriminate.
Defined.

Lemma ids_stay_distinct_witness :
  DbEdit.consistent
    ((Db.add_book_to_db (fun s => Db.Text s) (Db.form_book (lit "2024-02-02 08:00"))
        DbEdit.one_book).1).
Proof.
  refine (proj1 (proj1 (ids_stay_distinct (fun s => Db.Text s) DbEdit.one_book
                          one_book_consistent)
                   (Db.form_book (lit "2024-02-02 08:00")) _ _)).
  vm_compute. reflexivity.
Defined.

Lemma add_then_delete_witness :
  Db.rows ((DbEdit.delete_book_from_db (Db.last_id DbEdit.one_book + 1)
              ((Db.add_book_to_db (fun s => Db.Text s)
                  (Db.form_book (lit "2024-02-02 08:00")) DbEdit.one_book).1)).1)
  = Db.rows DbEdit.one_book.
Proof.
  refine (proj1 (add_then_delete (fun s => Db.Text s)
                   (Db.form_book (lit "2024-02-02 08:00")) DbEdit.one_book _
                   one_book_consistent _)).
  vm_compute. reflexivity.
Defined.

(* ===================================================================== *)
(** ** Properties of the reading goals *)
(* ===================================================================== *)

Section Goals_facts.

Import Goals.

Local Ltac run := cbn [mbind outcome_bind of_option].

Lemma find_year_map (y y' count : Z) (today : str) (l : list goal) :
  List.find (fun g => year g =? y')
    (map (fun g => if year g =? y
                   then {| goal_id := goal_id g; year := year g;
                           goal_count := count; created_date := today |}
                   else g) l)
  = if y' =? y
    then (fun g => {| goal_id := goal_id g; year := year g;
                      goal_count := count; created_date := today |})
           <$> List.find (fun g => year g =? y) l
    else List.find (fun g => year g =? y') l.
Proof.
  induction l as [|g l IH]; cbn [map List.find].
  - now destruct (y' =? y).
  - destruct (Z.eqb_spec (year g) y) as [Hg|Hg]; cbn [year].
    + destruct (Z.eqb_spec y' y) as [->|Hy].
      * rewrite (proj2 (Z.eqb_eq _ _) Hg). reflexivity.
      * assert (Hne : (year g =? y') = false) by (apply Z.eqb_neq; lia).
        rewrite Hne. exact IH.
    + destruct (Z.eqb_spec y' y) as [->|Hy].
      * assert (Hne : (year g =? y) = false) by (apply Z.eqb_neq; lia).
        rewrite Hne. exact IH.
      * destruct (year g =? y'); [reflexivity | exact IH].
Qed.

Lemma find_year_filter (y y' : Z) (l : list goal) :
  List.find (fun g => year g =? y')
    (List.filter (fun g => negb (year g =? y)) l)
  = if y' =? y then None else List.find (fun g => year g =? y') l.
Proof.
  induction l as [|g l IH]; cbn [List.filter List.find].
  - now destruct (y' =? y).
  - destruct (Z.eqb_spec (year g) y) as [Hg|Hg]; cbn [negb List.find].
    + rewrite IH. destruct (Z.eqb_spec y' y) as [->|Hy]; [reflexivity|].
      assert (Hne : (year g =? y') = false) by (apply Z.eqb_neq; lia).
      now rewrite Hne.
    + destruct (Z.eqb_spec (year g) y') as [Hg'|Hg'].
      * destruct (Z.eqb_spec y' y) as [->|Hy]; [contradiction | reflexivity].
      * exact IH.
Qed.

Lemma find_year_snoc (y' : Z) (l : list goal) (g : goal) :
  List.find (fun g => year g =? y') (l ++ [g])
  = match List.find (fun g => year g =? y') l with
    | Some r => Some r
    | None => if year g =? y' then Some g else None
    end.
Proof.
  induction l as [|x l IH]; cbn [app List.find]; [reflexivity|].
  destruct (year x =? y'); [reflexivity | exact IH].
Qed.

Lemma find_none_existsb (y : Z) (l : list goal) :
  existsb (fun g => year g =? y) l = false ->
  List.find (fun g => year g =? y) l = None.
Proof.
  induction l as [|g l IH]; cbn [existsb List.find]; [reflexivity|].
  destruct (year g =? y); [discriminate | exact IH].
Qed.

Lemma find_some_existsb (y : Z) (l : list goal) :
  existsb (fun g => year g =? y) l = true ->
  exists g, List.find (fun g => year g =? y) l = Some g.
Proof.
  induction l as [|g l IH]; cbn [existsb List.find]; [discriminate|].
  destruct (year g =? y); [eauto | exact IH].
Qed.

(** What [get_reading_goal] finds, by the range of the year. *)
Lemma get_reading_goal_cases (y : Z) (d : goals_db) :
  get_reading_goal y d
  = if int64 y then goal_count <$> List.find (fun g => year g =? y) (goals d)
    else None.
Proof. unfold get_reading_goal, Db.bind. now destruct (int64 y). Qed.

(** The parameters of the two [INSERT] statements, bound in order. *)
Lemma bind_goal_params (today : str) (y count : Z) :
  Db.bind_all [Db.PInt y; Db.PInt count; Db.PStr today]
  = if int64 y
    then if int64 count
         then if existsb Db.is_surrogate today
              then Raise UnicodeEncodeError else Return ()
         else Raise OverflowError
    else Raise OverflowError.
Proof.
  cbn [Db.bind_all Db.bind].
  destruct (int64 y), (int64 count), (existsb Db.is_surrogate today); reflexivity.
Qed.

Lemma years_filter_sublist (p : goal -> bool) (l : list goal) :
  map year (List.filter p l) `sublist_of` map year l.
Proof.
  induction l as [|g l IH]; cbn [List.filter map]; [constructor|].
  destruct (p g); cbn [map]; [now apply sublist_skip | now apply sublist_cons].
Qed.

Lemma NoDup_years_snoc (y : Z) (l : list goal) (g : goal) :
  NoDup (map year l) ->
  existsb (fun g => year g =? y) l = false ->
  year g = y -> NoDup (map year (l ++ [g])).
Proof.
  intros Hl Hex Hg. rewrite map_app. cbn [map]. apply NoDup_app.
  split; [exact Hl|]. split; [|apply NoDup_singleton].
  intros x Hx ->%list_elem_of_singleton.
  apply list_elem_of_In, in_map_iff in Hx as (g' & Hg' & Hin).
  assert (existsb (fun g => year g =? y) l = true).
  { apply existsb_exists. exists g'. split; [exact Hin|]. apply Z.eqb_eq. lia. }
  congruence.
Qed.

Lemma NoDup_years_delete (y : Z) (d : goals_db) :
  NoDup (map year (goals d)) -> NoDup (map year (goals (delete_goal y d))).
Proof.
  intros Hnd. unfold delete_goal. cbn [goals].
  exact (sublist_NoDup _ _ Hnd (years_filter_sublist _ _)).
Qed.

Lemma delete_goal_absent (y : Z) (d : goals_db) :
  existsb (fun g => year g =? y) (goals (delete_goal y d)) = false.
Proof.
  unfold delete_goal. cbn [goals].
  induction (goals d) as [|g l IH]; [reflexivity|]. cbn [List.filter].
  destruct (year g =? y) eqn:Eg; cbn [negb existsb]; [exact IH|].
  now rewrite Eg.
Qed.

(** An insert of a year the table does not have: it needs an id, and then
    the table has the year with its goal, the other years as before. *)
Lemma insert_goal_spec (y count : Z) (today : str) (d : goals_db) :
  existsb (fun g => year g =? y) (goals d) = false ->
  if int64 (last_goal_id d + 1)
  then exists d',
         insert_goal y count today d = Return d'
         /\ goal_count <$> List.find (fun g => year g =? y) (goals d') = Some count
         /\ (forall y', y' <> y ->
               goal_count <$> List.find (fun g => year g =? y') (goals d')
               = goal_count <$> List.find (fun g => year g =? y') (goals d))
         /\ (NoDup (map year (goals d)) -> NoDup (map year (goals d')))
  else insert_goal y count today d = Raise DatabaseError.
Proof.
  intros E. unfold insert_goal, Db.next_id.
  destruct (int64 (last_goal_id d + 1)); [|reflexivity].
  eexists. split; [reflexivity|]. cbn [goals]. split; [|split].
  - rewrite find_year_snoc, (find_none_existsb _ _ E). cbn [year].
    now rewrite Z.eqb_refl.
  - intros y' Hy. rewrite find_year_snoc. cbn [year].
    assert (Hne : (y =? y') = false) by (apply Z.eqb_neq; lia).
    rewrite Hne. now destruct (List.find (fun g => year g =? y') (goals d)).
  - intros Hnd. now apply (NoDup_years_snoc y).
Qed.

(** The [ON CONFLICT] statement: the same, whether the year is there or
    not. *)
Lemma upsert_goal_spec (y count : Z) (today : str) (d : goals_db) :
  if int64 (last_goal_id d + 1)
  then exists d',
         upsert_goal y count today d = Return d'
         /\ goal_count <$> List.find (fun g => year g =? y) (goals d') = Some count
         /\ (forall y', y' <> y ->
               goal_count <$> List.find (fun g => year g =? y') (goals d')
               = goal_count <$> List.find (fun g => year g =? y') (goals d))
         /\ (NoDup (map year (goals d)) -> NoDup (map year (goals d')))
  else upsert_goal y count today d = Raise DatabaseError.
Proof.
  unfold upsert_goal.
  destruct (existsb (fun g => year g =? y) (goals d)) eqn:E;
    [|exact (insert_goal_spec y count today d E)].
  unfold Db.next_id. destruct (int64 (last_goal_id d + 1)); [|reflexivity].
  eexists. split; [reflexivity|]. cbn [goals]. split; [|split].
  - rewrite find_year_map, Z.eqb_refl.
    destruct (find_some_existsb _ _ E) as [g ->]. reflexivity.
  - intros y' Hy. rewrite find_year_map.
    apply Z.eqb_neq in Hy. now rewrite Hy.
  - intros Hnd.
    assert (Hsame : map year
              (map (fun g => if year g =? y
                             then {| goal_id := goal_id g; year := year g;
                                     goal_count := count; created_date := today |}
                             else g) (goals d)) = map year (goals d)).
    { rewrite map_map. apply map_ext. intros g. now destruct (year g =? y). }
    now rewrite Hsame.
Qed.

(** The handler: delete, then insert. *)
Lemma fallback_cases (today : str) (y count : Z) (d : goals_db) :
  fallback today y count d
  = if int64 y
    then if int64 count && negb (existsb Db.is_surrogate today)
         then match insert_goal y count today (delete_goal y d) with
              | Return d2 => (d2, Return true)
              | Raise _ => (d, Return false)
              end
         else (delete_goal y d, Return false)
    else (d, Return false).
Proof.
  unfold fallback. rewrite bind_goal_params. cbn [Db.bind].
  destruct (int64 y); [|reflexivity].
  now destruct (int64 count), (existsb Db.is_surrogate today).
Qed.

(** X20: when the year and the goal are 64-bit integers and an id is
    left, [set_reading_goal] reports success, and [get_reading_goal] then
    returns the new goal for that year and what it returned before for
    every other year, whether SQLite ran the [ON CONFLICT] statement or
    the handler deleted and inserted.  When no id is left it reports
    failure and the table is as before.  When the year or the goal is
    outside 64 bits, the [OverflowError] of the [ON CONFLICT] statement
    leaves the function, the table being as before; on the handler's
    path the function reports failure, the year has no goal afterwards
    and the other years are as before. *)
Theorem goal_set_then_get :
  forall (upsert : bool) (today : str) (y count : Z) (d : goals_db),
    existsb Db.is_surrogate today = false ->
    (int64 y = true -> int64 count = true ->
     if int64 (last_goal_id d + 1)
     then (set_reading_goal upsert today y count d).2 = Return true
          /\ get_reading_goal y ((set_reading_goal upsert today y count d).1)
             = Some count
          /\ (forall y', y' <> y ->
                get_reading_goal y' ((set_reading_goal upsert today y count d).1)
                = get_reading_goal y' d)
     else set_reading_goal upsert today y count d = (d, Return false))
    /\ (int64 y && int64 count = false ->
        if upsert
        then set_reading_goal upsert today y count d = (d, Raise OverflowError)
        else (set_reading_goal upsert today y count d).2 = Return false
             /\ get_reading_goal y ((set_reading_goal upsert today y count d).1)
                = None
             /\ (forall y', y' <> y ->
                   get_reading_goal y' ((set_reading_goal upsert today y count d).1)
                   = get_reading_goal y' d)).
Proof.
  intros upsert today y count d Ht.
  unfold set_reading_goal, first_statement.
  rewrite bind_goal_params, fallback_cases, Ht. cbn [negb]. rewrite andb_true_r.
  split.
  - intros Hy Hc. rewrite Hy, Hc. run.
    pose proof (upsert_goal_spec y count today d) as Hu.
    pose proof (insert_goal_spec y count today (delete_goal y d)
                  (delete_goal_absent y d)) as Hins.
    change (last_goal_id (delete_goal y d)) with (last_goal_id d) in Hins.
    destruct (int64 (last_goal_id d + 1)).
    + destruct Hins as (d2 & -> & Hg2 & Ho2 & _).
      assert (Hfall :
        get_reading_goal y d2 = Some count
        /\ forall y', y' <> y -> get_reading_goal y' d2 = get_reading_goal y' d).
      { split.
        - now rewrite get_reading_goal_cases, Hy.
        - intros y' Hy'. rewrite !get_reading_goal_cases.
          destruct (int64 y'); [|reflexivity].
          rewrite (Ho2 y' Hy'). unfold delete_goal. cbn [goals].
          rewrite find_year_filter.
          apply Z.eqb_neq in Hy'. now rewrite Hy'. }
      destruct upsert; [|cbn [fst snd]; now split].
      destruct Hu as (d1 & -> & Hg1 & Ho1 & _). cbn [fst snd].
      split; [reflexivity|]. split.
      * now rewrite get_reading_goal_cases, Hy.
      * intros y' Hy'. rewrite !get_reading_goal_cases.
        destruct (int64 y'); [|reflexivity]. now apply Ho1.
    + rewrite Hins. destruct upsert; [|reflexivity]. now rewrite Hu.
  - intros Hyc. destruct upsert.
    + destruct (int64 y); [|reflexivity].
      cbn [andb] in Hyc. now rewrite Hyc.
    + destruct (int64 y) eqn:Hy.
      * cbn [andb] in Hyc. rewrite Hyc. cbn [fst snd].
        split; [reflexivity|]. split.
        -- rewrite get_reading_goal_cases, Hy. unfold delete_goal. cbn [goals].
           now rewrite find_year_filter, Z.eqb_refl.
        -- intros y' Hy'. rewrite !get_reading_goal_cases.
           destruct (int64 y'); [|reflexivity].
           unfold delete_goal. cbn [goals]. rewrite find_year_filter.
           apply Z.eqb_neq in Hy'. now rewrite Hy'.
      * cbn [fst snd]. split; [reflexivity|]. split; [|reflexivity].
        now rewrite get_reading_goal_cases, Hy.
Qed.

Lemma goal_set_then_get_witness :
  (get_reading_goal 2024 ((set_reading_goal false (lit "2024-05-01") 2024 30 two_goals).1)
   = Some 30)
  /\ set_reading_goal true (lit "2024-05-01") 2024 (2 ^ 63) two_goals
     = (two_goals, Raise OverflowError)
  /\ get_reading_goal 2024
       ((set_reading_goal false (lit "2024-05-01") 2024 (2 ^ 63) two_goals).1)
     = None.
Proof.
  split; [|split].
  - apply (proj1 (goal_set_then_get false (lit "2024-05-01") 2024 30 two_goals
                    eq_refl) eq_refl eq_refl).
  - apply (proj2 (goal_set_then_get true (lit "2024-05-01") 2024 (2 ^ 63) two_goals
                    eq_refl) eq_refl).
  - apply (proj2 (goal_set_then_get false (lit "2024-05-01") 2024 (2 ^ 63) two_goals
                    eq_refl) eq_refl).
Defined.

(** X21: [set_reading_goal] never leaves two rows for one year: when the
    years of the table are distinct before, they are distinct after, on
    both paths. *)
Theorem goal_years_stay_distinct :
  forall (upsert : bool) (today : str) (y count : Z) (d : goals_db),
    NoDup (map year (goals d)) ->
    NoDup (map year (goals ((set_reading_goal upsert today y count d).1))).
Proof.
  intros upsert today y count d Hnd.
  assert (Hfall : NoDup (map year (goals ((fallback today y count d).1)))).
  { rewrite fallback_cases.
    destruct (int64 y); [|exact Hnd].
    destruct (int64 count && negb (existsb Db.is_surrogate today));
      [|now apply NoDup_years_delete].
    pose proof (insert_goal_spec y count today (delete_goal y d)
                  (delete_goal_absent y d)) as Hins.
    destruct (int64 (last_goal_id (delete_goal y d) + 1)).
    - destruct Hins as (d2 & -> & _ & _ & H2). cbn [fst].
      now apply H2, NoDup_years_delete.
    - now rewrite Hins. }
  unfold set_reading_goal, first_statement.
  destruct upsert; [|exact Hfall].
  destruct (Db.bind_all [Db.PInt y; Db.PInt count; Db.PStr today]) as [[]|e]; run.
  - pose proof (upsert_goal_spec y count today d) as Hu.
    destruct (int64 (last_goal_id d + 1)).
    + destruct Hu as (d1 & -> & _ & _ & H1). cbn [fst]. now apply H1.
    + rewrite Hu. exact Hfall.
  - destruct e; first [exact Hnd | exact Hfall].
Qed.

Lemma goal_years_stay_distinct_witness :
  NoDup (map year (goals ((set_reading_goal true (lit "2024-05-01") 2024 30 two_goals).1))).
Proof.
  apply (goal_years_stay_distinct true (lit "2024-05-01") 2024 30 two_goals).
  change (map year (goals two_goals)) with [2023; 2024].
  apply NoDup_cons. split; [|apply NoDup_singleton].
  intros H%list_elem_of_singleton. discriminate.
Defined.

End Goals_facts.

(* ===================================================================== *)
(** ** Properties of the look-up queries and of the author streak *)
(* ===================================================================== *)

Section Query_facts.

Import Notions Tags Query Insights.

Lemma remove_char_digits (x : N) (s : str) :
  is_digit x = false -> forallb is_digit s = true -> remove_char x s = s.
Proof.
  intros Hx. unfold remove_char. induction s as [|c s IH]; [reflexivity|].
  cbn [forallb List.filter]. intros [Hc Hs]%andb_true_iff.
  destruct (N.eqb_spec c x) as [->|_]; [congruence|]. cbn [negb].
  now rewrite IH.
Qed.

(** X22: a canonical identifier, as [validate_and_format_isbn] returns
    it, passes the format guard of [get_book_metadata] unchanged, given
    only that Python's [isdigit] holds of the ten ASCII digits. *)
Theorem canonical_isbn_passes_guard :
  forall (py_isdigit : N -> bool) (s : str),
    (forall c, is_digit c = true -> py_isdigit c = true) ->
    is_isbn13 s = true ->
    isbn_clean s = s /\ format_accepted py_isdigit s = true.
Proof.
  intros py_isdigit s Hpy (Hl & Hd & _)%is_isbn13_elim.
  assert (Hclean : isbn_clean s = s).
  { unfold isbn_clean. rewrite (remove_char_digits 0x2D s) by (reflexivity || exact Hd).
    now apply remove_char_digits. }
  split; [exact Hclean|].
  assert (Hdig : str_isdigit py_isdigit s = true).
  { unfold str_isdigit. destruct s as [|c s]; [discriminate|].
    cbn [is_empty negb andb]. clear Hl Hclean.
    induction (c :: s) as [|x l IH]; [reflexivity|].
    cbn [forallb] in *. apply andb_true_iff in Hd as [Hx Hd].
    now rewrite (Hpy x Hx), IH. }
  unfold format_accepted. cbv zeta. rewrite Hclean, Hdig.
  unfold len. rewrite Hl. reflexivity.
Qed.

Lemma canonical_isbn_passes_guard_witness :
  isbn_clean (lit "9788936434267") = lit "9788936434267"
  /\ format_accepted is_digit (lit "9788936434267") = true.
Proof.
  apply (canonical_isbn_passes_guard is_digit (lit "9788936434267"));
    [intros c H; exact H | reflexivity].
Defined.

Lemma split_comma_head (s : str) :
  hd [] (split_comma s) `sublist_of` s /\ comma_free (hd [] (split_comma s)).
Proof.
  induction s as [|c s [IH1 IH2]]; cbn [split_comma].
  - split; constructor.
  - destruct (N.eqb_spec c 0x2C) as [->|Hc]; cbn [hd].
    + split; [apply sublist_nil_l | constructor].
    + destruct (split_comma s) as [|w ws]; cbn [hd] in *.
      * split; [apply sublist_skip, sublist_nil_l | repeat constructor; exact Hc].
      * split; [now apply sublist_skip | now constructor].
Qed.

(** X23: the author name that [search_book_entities] looks up holds no
    comma, has no white space at its ends and is made of characters of the
    author field in their order. *)
Theorem first_author_shape :
  forall author q : str,
    first_author author = Some q ->
    comma_free q /\ strip_ws q = q /\ q `sublist_of` author.
Proof.
  intros author q. unfold first_author.
  destruct author as [|x author]; [discriminate|].
  assert (Hsub : clean_author_name (x :: author) `sublist_of` x :: author).
  { unfold clean_author_name.
    transitivity (re_sub role_re (re_sub bracket_re (x :: author)));
      [apply strip_sublist|].
    transitivity (re_sub bracket_re (x :: author)); apply sub_go_sublist. }
  destruct (clean_author_name (x :: author)) as [|y t]; [discriminate|].
  intros [= <-].
  destruct (split_comma_head (y :: t)) as [Hh Hcf]. split; [|split].
  - apply tag_ok_spec, strip_ws_ok, Hcf.
  - apply strip_idem.
  - transitivity (hd [] (split_comma (y :: t))); [apply strip_sublist|].
    now transitivity (y :: t).
Qed.

Lemma first_author_shape_witness :
  comma_free (lit "김영하 ; 박상영")
  /\ strip_ws (lit "김영하 ; 박상영") = lit "김영하 ; 박상영"
  /\ lit "김영하 ; 박상영" `sublist_of` lit "김영하 ; 박상영, 옮긴이".
Proof.
  apply (first_author_shape (lit "김영하 ; 박상영, 옮긴이") (lit "김영하 ; 박상영")).
  vm_compute. reflexivity.
Defined.

(** *** The streak of authors *)

Lemma streak_loop_run3 (l : list str) :
  (forall p, fires (streak_loop p 0 l)
             = has_run3 (match p with Some x => [x] | None => [] end ++ l))
  /\ (forall a, named a = true ->
                fires (streak_loop (Some a) 1 l) = has_run3 (a :: a :: l)).
Proof.
  induction l as [|x l [IHA IHB]].
  - split.
    + intros [p|]; reflexivity.
    + intros a Ha. reflexivity.
  - split.
    + intros p. cbn [streak_loop].
      destruct (bool_decide (Some x = p) && named x) eqn:C.
      * apply andb_true_iff in C as [Hp Hn]. apply bool_decide_eq_true in Hp.
        subst p. change (0 + 1 >=? 2) with false. cbv iota zeta.
        change (0 + 1) with 1. now rewrite (IHB x Hn).
      * rewrite (IHA (Some x)). destruct p as [p0|]; [|reflexivity].
        cbn [app]. change (has_run3 (p0 :: x :: l))
          with (match l with
                | c :: _ => named p0 && str_eqb p0 x && str_eqb p0 c
                | [] => false
                end || has_run3 (x :: l)).
        destruct l as [|c l']; [reflexivity|].
        destruct (str_eqb p0 x) eqn:E; [|now rewrite andb_false_r].
        apply bool_decide_eq_true in E. subst p0.
        rewrite bool_decide_eq_true_2 in C by reflexivity.
        cbn [andb] in C. now rewrite C.
    + intros a Ha. cbn [streak_loop].
      destruct (bool_decide (Some x = Some a) && named x) eqn:C.
      * apply andb_true_iff in C as [Hp Hn]. apply bool_decide_eq_true in Hp.
        injection Hp as ->. change (1 + 1 >=? 2) with true. cbv iota zeta.
        cbn [fires has_run3]. unfold str_eqb.
        now rewrite Ha, bool_decide_eq_true_2.
      * rewrite (IHA (Some x)). cbn [app].
        assert (Hne : str_eqb a x = false).
        { apply bool_decide_eq_false. intros ->.
          rewrite bool_decide_eq_true_2, Ha in C by reflexivity. discriminate. }
        change (has_run3 (a :: a :: x :: l))
          with (named a && str_eqb a a && str_eqb a x
                || (match l with
                    | c :: _ => named a && str_eqb a x && str_eqb a c
                    | [] => false
                    end || has_run3 (x :: l))).
        rewrite Hne, andb_false_r. cbn [orb].
        destruct l; [reflexivity|]. now rewrite andb_false_r.
Qed.

Lemma streak_loop_value (l : list str) : forall p c a n,
  c = 0 \/ c = 1 ->
  streak_loop p c l = Some (a, n) -> n = 3 /\ named a = true.
Proof.
  induction l as [|x l IH]; intros p c a n Hc; cbn [streak_loop]; [discriminate|].
  destruct (bool_decide (Some x = p) && named x) eqn:C.
  - apply andb_true_iff in C as [_ Hn]. cbv zeta.
    destruct Hc as [-> | ->].
    + change (0 + 1 >=? 2) with false. cbv iota. apply IH. now right.
    + change (1 + 1 >=? 2) with true. cbv iota. intros [= <- <-]. now split.
  - apply IH. now left.
Qed.

(** X24: the loop of [get_reading_insights] reports a streak exactly when
    three books in a row have the same author, this author being neither
    empty nor ["정보 없음"]; the number in the message is then always 3,
    however long the streak is. *)
Theorem author_streak_exact :
  forall authors : list str,
    (fires (author_streak authors) = has_run3 authors)
    /\ forall a n, author_streak authors = Some (a, n) ->
                   n = 3 /\ named a = true.
Proof.
  intros authors. unfold author_streak. split.
  - apply (proj1 (streak_loop_run3 authors) None).
  - intros a n. apply streak_loop_value. now left.
Qed.

Lemma author_streak_exact_witness :
  3 = 3 /\ named (lit "한강") = true.
Proof.
  apply (proj2 (author_streak_exact
                  [lit "김영하"; lit "한강"; lit "한강"; lit "한강"; lit "한강"])
           (lit "한강") 3).
  vm_compute. reflexivity.
Defined.

End Query_facts.

(* ===================================================================== *)
(** ** Further properties of [restore_from_backup] *)
(* ===================================================================== *)

Section Restore_more.

Variable sqlite_tables : bytes -> outcome (list str).

Lemma staged_other now uploaded old (fs : files) (name : string) :
  name <> temp_db -> name <> backup_name now ->
  staged now uploaded old fs !! name = fs !! name.
Proof.
  intros H1 H2. unfold staged.
  rewrite lookup_insert_ne by congruence. now rewrite lookup_insert_ne by congruence.
Qed.

(** X26: an upload that has the table [books], restored over an existing
    store, succeeds: the live store holds the upload, the former content
    is in the dated copy, the temporary file is gone and no other file
    has changed. *)
Theorem restore_accepts_backup_with_books :
  forall now uploaded old (fs : files) tables,
    sqlite_tables uploaded = Return tables ->
    has_books tables = true ->
    fs !! live_db = Some old ->
    exists fs',
      restore_from_backup sqlite_tables now uploaded fs = (fs', Return true)
      /\ fs' !! live_db = Some uploaded
      /\ fs' !! backup_name now = Some old
      /\ fs' !! temp_db = None
      /\ forall name, name <> live_db -> name <> temp_db -> name <> backup_name now ->
                      fs' !! name = fs !! name.
Proof.
  intros now uploaded old fs tables Hs Hb Hlive.
  unfold restore_from_backup. rewrite restore_body_unfold, Hlive, Hs, Hb.
  eexists. split; [reflexivity|].
  assert (Hlt : live_db <> temp_db) by discriminate.
  assert (Hlb : live_db <> backup_name now)
    by (intros H; symmetry in H; now apply backup_name_not_live in H).
  assert (Htb : temp_db <> backup_name now)
    by (intros H; symmetry in H; now apply backup_name_not_temp in H).
  split; [apply lookup_insert_eq|]. split; [|split].
  - rewrite lookup_insert_ne by exact Hlb.
    rewrite lookup_delete_ne by exact Htb.
    rewrite lookup_delete_ne by exact Hlb. apply staged_backup.
  - rewrite lookup_insert_ne by exact Hlt. apply lookup_delete_eq.
  - intros name H1 H2 H3.
    rewrite lookup_insert_ne by congruence.
    rewrite lookup_delete_ne by congruence.
    rewrite lookup_delete_ne by congruence.
    now apply staged_other.
Qed.

(** X27: whatever the upload and the files, [restore_from_backup]
    returns (it never raises), leaves no [reading_log_temp.db] behind and
    touches no file but the live store, the temporary file and the dated
    copy. *)
Theorem restore_leaves_no_temp :
  forall now uploaded (fs : files),
    exists fs' ok,
      restore_from_backup sqlite_tables now uploaded fs = (fs', Return ok)
      /\ fs' !! temp_db = None
      /\ forall name, name <> live_db -> name <> temp_db -> name <> backup_name now ->
                      fs' !! name = fs !! name.
Proof.
  intros now uploaded fs.
  unfold restore_from_backup. rewrite restore_body_unfold.
  destruct (fs !! live_db) as [old|] eqn:Hlive.
  - destruct (sqlite_tables uploaded) as [tables|e].
    + destruct (has_books tables); do 2 eexists; (split; [reflexivity|]); split.
      * rewrite lookup_insert_ne by discriminate. apply lookup_delete_eq.
      * intros name H1 H2 H3.
        rewrite lookup_insert_ne by congruence.
        rewrite !lookup_delete_ne by congruence. now apply staged_other.
      * apply lookup_delete_eq.
      * intros name H1 H2 H3.
        rewrite lookup_delete_ne by congruence. now apply staged_other.
    + destruct (restore_handler_spec (staged now uploaded old fs))
        as (fs1 & -> & Ht & Ho).
      do 2 eexists. split; [reflexivity|]. split; [exact Ht|].
      intros name H1 H2 H3. rewrite (Ho _ H2). now apply staged_other.
  - destruct (restore_handler_spec fs) as (fs1 & -> & Ht & Ho).
    do 2 eexists. split; [reflexivity|]. split; [exact Ht|].
    intros name H1 H2 H3. now apply Ho.
Qed.

End Restore_more.

Lemma restore_accepts_backup_with_books_witness :
  exists fs',
    restore_from_backup (fun _ : bytes => Return [lit "books"; lit "reading_goals"])
      "20240131_103000" [Byte.x01] {[ live_db := [Byte.x53] ]}
    = (fs', Return true)
    /\ fs' !! live_db = Some [Byte.x01]
    /\ fs' !! backup_name "20240131_103000" = Some [Byte.x53]
    /\ fs' !! temp_db = None
    /\ forall name, name <> live_db -> name <> temp_db ->
                    name <> backup_name "20240131_103000" ->
                    fs' !! name = ({[ live_db := [Byte.x53] ]} : files) !! name.
Proof.
  apply (restore_accepts_backup_with_books
           (fun _ : bytes => Return [lit "books"; lit "reading_goals"])
           "20240131_103000"%string [Byte.x01] [Byte.x53]
           {[ live_db := [Byte.x53] ]} [lit "books"; lit "reading_goals"]);
    reflexivity.
Defined.

Lemma restore_leaves_no_temp_witness :
  exists fs' ok,
    restore_from_backup (fun _ : bytes => Raise DatabaseError)
      "20240131_103000" [Byte.x01] {[ live_db := [Byte.x53]; temp_db := [Byte.x02] ]}
    = (fs', Return ok)
    /\ fs' !! temp_db = None
    /\ forall name, name <> live_db -> name <> temp_db ->
                    name <> backup_name "20240131_103000" ->
                    fs' !! name
                    = ({[ live_db := [Byte.x53]; temp_db := [Byte.x02] ]} : files) !! name.
Proof.
  apply (restore_leaves_no_temp (fun _ : bytes => Raise DatabaseError)).
Defined.

(* ===================================================================== *)
(** ** Properties of the schema migration *)
(* ===================================================================== *)

Section Schema_facts.

Import Schema.

Lemma same_name_refl (a : string) : same_name a a = true.
Proof. unfold same_name. apply String.eqb_refl. Qed.

Lemma has_column_app (n : string) (t k : list column) :
  has_column n (t ++ k) = has_column n t || has_column n k.
Proof. unfold has_column. apply existsb_app. Qed.

Lemma has_column_of_name (n : string) (t : list column) :
  n ∈ map fst t -> has_column n t = true.
Proof.
  intros H. apply list_elem_of_In, in_map_iff in H as (c & <- & Hc).
  unfold has_column. apply existsb_exists. exists c.
  split; [exact Hc | apply same_name_refl].
Qed.

(** The loop only appends, and afterwards the table has every column of
    the list. *)
Lemma migrate_loop_spec (columns : list string) (ms : list column) :
  forall (table : list column) (p : bool),
    exists added,
      (migrate_loop columns ms table p).1 = table ++ added
      /\ ((forall n, n ∈ columns -> has_column n table = true) ->
          forall m, m ∈ ms -> has_column m.1 (table ++ added) = true).
Proof.
  induction ms as [|[n ty] ms IH]; intros table p; cbn [migrate_loop].
  - exists []. split; [now rewrite app_nil_r|].
    intros _ m Hm. now apply elem_of_nil in Hm.
  - destruct (bool_decide (n ∈ columns)) eqn:E1.
    + destruct (IH table p) as (added & Heq & IHs). exists added.
      split; [exact Heq|]. intros Hcols.
      intros m [-> | Hm]%elem_of_cons; [|now apply IHs].
      rewrite has_column_app, Hcols; [reflexivity|].
      now apply bool_decide_eq_true in E1.
    + destruct (has_column n table) eqn:E2.
      * destruct (IH table p) as (added & Heq & IHs). exists added.
        split; [exact Heq|]. intros Hcols.
        intros m [-> | Hm]%elem_of_cons; [|now apply IHs].
        cbn [fst]. now rewrite has_column_app, E2.
      * destruct (IH (table ++ [(n, ty)]) true) as (added & Heq & IHs).
        exists ([(n, ty)] ++ added). rewrite app_assoc.
        split; [exact Heq|]. intros Hcols.
        assert (Hcols' : forall n0, n0 ∈ columns ->
                                    has_column n0 (table ++ [(n, ty)]) = true).
        { intros n0 H0. now rewrite has_column_app, Hcols. }
        intros m [-> | Hm]%elem_of_cons; [|now apply IHs].
        rewrite !has_column_app. cbn [has_column existsb fst].
        now rewrite same_name_refl, orb_true_r.
Qed.

(** Nothing happens on a table that has every column of the list. *)
Lemma migrate_loop_nothing (columns : list string) (ms : list column)
    (table : list column) (p : bool) :
  (forall m, m ∈ ms -> has_column m.1 table = true) ->
  migrate_loop columns ms table p = (table, p).
Proof.
  induction ms as [|[n ty] ms IH]; intros H; cbn [migrate_loop]; [reflexivity|].
  assert (Hn : has_column n table = true)
    by (apply (H (n, ty)), elem_of_cons; now left).
  rewrite Hn.
  destruct (bool_decide (n ∈ columns)); apply IH;
    intros m Hm; apply H, elem_of_cons; now right.
Qed.

(** X28: [init_database] keeps the columns the table has, in their order,
    and only appends; afterwards the table has the four columns of the
    migration list (up to the case of letters, as SQLite compares names);
    and a second run changes nothing and announces no update. *)
Theorem init_schema_idempotent :
  forall table : option (list column),
    (exists added, (init_schema table).1 = create_if_missing table ++ added)
    /\ (forall m, m ∈ migrations -> has_column m.1 ((init_schema table).1) = true)
    /\ init_schema (Some ((init_schema table).1)) = ((init_schema table).1, false).
Proof.
  intros table. unfold init_schema. cbv zeta.
  set (t := create_if_missing table).
  destruct (migrate_loop_spec (map fst t) migrations t false) as (added & Heq & Hall).
  assert (Hhas : forall m, m ∈ migrations ->
            has_column m.1 ((migrate_loop (map fst t) migrations t false).1) = true).
  { rewrite Heq. apply Hall. intros n Hn. now apply has_column_of_name. }
  split; [now exists added|]. split; [exact Hhas|].
  cbn [create_if_missing]. now apply migrate_loop_nothing.
Qed.

Lemma init_schema_idempotent_witness :
  has_column "wiki_links"
    ((init_schema (Some [("id", "INTEGER"); ("Title", "TEXT"); ("TAGS", "TEXT")]%string)).1)
  = true.
Proof.
  apply (proj1 (proj2 (init_schema_idempotent
                         (Some [("id", "INTEGER"); ("Title", "TEXT"); ("TAGS", "TEXT")]%string)))
           ("wiki_links", "TEXT")%string).
  apply list_elem_of_In. vm_compute. tauto.
Defined.

End Schema_facts.
